(** * PRS prompt log tools: a shallow embedding and its properties

    The repository holds two Python scripts that share a log-file convention:

    - [generate_prs_log.py] loads a task, detects the project context, asks an
      external assistant four times in a row and writes the transcript to
      [.github/prompts/prs_<timestamp>.prompt.md];
    - [prs_memory_cli.py] lists, shows and searches those files.

    Python text is modelled as [string] (a sequence of bytes, UTF-8 for text
    outside ASCII); values loaded from JSON or YAML as [pyval]; exceptions as
    [exn]; the process state (files, console, clock, assistant) as [world],
    threaded through a state-and-exception monad.

    The model is the scripts on a POSIX system: paths are relative to the
    working directory and use [/], writing a text file stores it as it is and
    reading one translates the line ends.  An entry of the file system may
    be one that cannot be read as text (a directory, a file without read
    permission, bytes that are no text).  [str.lower()], the parsers and
    printers of JSON and YAML, [repr], the text of an exception and [int()]
    are parameters ([PyRuntime]); the white space of [str.strip()] is that
    of ASCII. *)

From Stdlib Require Import String Ascii List Bool Arith NArith ZArith Lia.
From Stdlib Require Import DecimalString.
From Stdlib Require Import Sorting.Sorted Sorting.Permutation.
Import ListNotations.
Open Scope list_scope.
Open Scope string_scope.

(** ** Python values and exceptions *)

(** What [json.load] and [yaml.safe_load] can hand back.  [VOther] stands for
    every object the scripts never look into (floats, dates, bytes, ...): only
    its truth value and its [str()] text are observable here. *)
#[warnings="-register-all"]
Inductive pyval : Type :=
| VNone
| VBool (b : bool)
| VInt (z : Z)
| VStr (s : string)
| VList (l : list pyval)
| VDict (d : list (pyval * pyval))
| VOther (truth : bool) (text : string).

Inductive exn : Type :=
| ValueError (msg : string)
| AttributeError
| TypeError
| ParseError
| OSError (path : string)
| EOFError
| KeyError
| IndexError
| SystemExit (code : Z)
| AssistantError
| UnicodeDecodeError.

Inductive result (X : Type) : Type :=
| Ok (x : X)
| Raise (e : exn).
Arguments Ok {X} x.
Arguments Raise {X} e.

(** [isinstance(v, str)] and [isinstance(v, dict)]. *)
Definition is_str (v : pyval) : bool :=
  match v with VStr _ => true | _ => false end.

Definition is_dict (v : pyval) : bool :=
  match v with VDict _ => true | _ => false end.

(** A key of a loaded mapping equals the text [k] exactly when it is that
    text: no other loaded value compares equal to a [str]. *)
Definition key_is (k : string) (v : pyval) : bool :=
  match v with VStr s => String.eqb s k | _ => false end.

(** [k in d] for a text key. *)
Definition dict_has (d : list (pyval * pyval)) (k : string) : bool :=
  existsb (fun e => key_is k (fst e)) d.

(** [d.get(k, default)] for a text key. *)
Definition dict_get (d : list (pyval * pyval)) (k : string) (default : pyval) : pyval :=
  match find (fun e => key_is k (fst e)) d with
  | Some e => snd e
  | None => default
  end.

(** Python truthiness, as used by [if x:]. *)
Definition py_truthy (v : pyval) : bool :=
  match v with
  | VNone => false
  | VBool b => b
  | VInt z => negb (Z.eqb z 0)
  | VStr s => negb (String.eqb s "")
  | VList l => match l with [] => false | _ => true end
  | VDict d => match d with [] => false | _ => true end
  | VOther t _ => t
  end.

(** ** Text primitives *)

Definition LF : string := String "010"%char EmptyString.

(** [s.startswith(p)], returning the rest of [s] as well. *)
Fixpoint strip_prefix (p s : string) : option string :=
  match p with
  | EmptyString => Some s
  | String c p' =>
      match s with
      | EmptyString => None
      | String d s' => if Ascii.eqb c d then strip_prefix p' s' else None
      end
  end.

Definition starts_with (p s : string) : bool :=
  match strip_prefix p s with Some _ => true | None => false end.

(** [s.endswith(suffix)]: some tail of [s] is [suffix]. *)
Fixpoint ends_with (suffix s : string) : bool :=
  String.eqb s suffix ||
  match s with
  | EmptyString => false
  | String _ s' => ends_with suffix s'
  end.

(** [needle in hay]. *)
Fixpoint contains (needle hay : string) : bool :=
  starts_with needle hay ||
  match hay with
  | EmptyString => false
  | String _ hay' => contains needle hay'
  end.

(** Lowering within ASCII: the letters A-Z move to a-z and every other byte
    stays.  [str.lower()] does this to a text made of ASCII characters. *)
Definition lower_ascii (c : ascii) : ascii :=
  let n := nat_of_ascii c in
  if ((65 <=? n) && (n <=? 90))%nat then ascii_of_nat (n + 32) else c.

Fixpoint lower (s : string) : string :=
  match s with
  | EmptyString => EmptyString
  | String c s' => String (lower_ascii c) (lower s')
  end.

(** The white space [str.strip()] removes from a text of ASCII characters. *)
Definition is_space (c : ascii) : bool :=
  let n := nat_of_ascii c in
  (((9 <=? n) && (n <=? 13)) || ((28 <=? n) && (n <=? 32)))%nat.

Fixpoint lstrip (s : string) : string :=
  match s with
  | EmptyString => EmptyString
  | String c s' => if is_space c then lstrip s' else s
  end.

Fixpoint rstrip (s : string) : string :=
  match s with
  | EmptyString => EmptyString
  | String c s' =>
      match rstrip s' with
      | EmptyString => if is_space c then EmptyString else String c EmptyString
      | r => String c r
      end
  end.

Definition strip (s : string) : string := rstrip (lstrip s).

(** What reading a file in text mode does to its line ends: a carriage
    return, alone or before a line feed, is read as one line feed. *)
Fixpoint universal_newlines (s : string) : string :=
  match s with
  | EmptyString => EmptyString
  | String c s' =>
      if Ascii.eqb c "013"%char then
        match s' with
        | EmptyString => String "010"%char EmptyString
        | String d s'' =>
            if Ascii.eqb d "010"%char
            then String "010"%char (universal_newlines s'')
            else String "010"%char (universal_newlines s')
        end
      else String c (universal_newlines s')
  end.

(** The lines of a text file, without their line ends. *)
Fixpoint split_lines_acc (cur : string -> string) (s : string) : list string :=
  match s with
  | EmptyString => [cur EmptyString]
  | String c s' =>
      if Ascii.eqb c "010"%char
      then cur EmptyString :: split_lines_acc (fun r => r) s'
      else split_lines_acc (fun r => cur (String c r)) s'
  end.

Definition split_lines (s : string) : list string :=
  split_lines_acc (fun r => r) s.

(** [sep.join(parts)]. *)
Fixpoint join (sep : string) (parts : list string) : string :=
  match parts with
  | [] => EmptyString
  | [p] => p
  | p :: rest => p ++ sep ++ join sep rest
  end.

(** [str(n)] for a natural number and for an integer. *)
Definition nat_to_string (n : nat) : string :=
  NilZero.string_of_uint (Nat.to_uint n).

Definition int_to_string (z : Z) : string :=
  NilZero.string_of_int (Z.to_int z).

(** One decimal digit, and a number written on exactly [width] digits with
    leading zeros, as [strftime] writes the fields of a date. *)
Definition digit (n : Z) : ascii := ascii_of_N (Z.to_N (48 + n mod 10)).

Fixpoint pad (width : nat) (n : Z) : string :=
  match width with
  | O => EmptyString
  | S w => pad w (n / 10) ++ String (digit n) EmptyString
  end.

(** [fnmatch] for patterns made of literal characters, [*] and [?]. *)
Fixpoint fnmatch (pat s : string) : bool :=
  match pat with
  | EmptyString => match s with EmptyString => true | _ => false end
  | String p pat' =>
      if Ascii.eqb p "*"%char then
        (fix star (t : string) : bool :=
           fnmatch pat' t ||
           match t with
           | EmptyString => false
           | String _ t' => star t'
           end) s
      else
        match s with
        | EmptyString => false
        | String c s' =>
            (Ascii.eqb p "?"%char || Ascii.eqb p c) && fnmatch pat' s'
        end
  end.

(** [sorted(names)] on texts: a stable insertion sort by [<=] on strings. *)
Fixpoint insert_sorted (x : string) (l : list string) : list string :=
  match l with
  | [] => [x]
  | y :: l' => if String.leb x y then x :: l else y :: insert_sorted x l'
  end.

Fixpoint sorted (l : list string) : list string :=
  match l with
  | [] => []
  | x :: l' => insert_sorted x (sorted l')
  end.

(** ** The process state *)

(** A local date and time, as [datetime.now()] returns it. *)
Record datetime : Type := mk_datetime {
  year : Z; month : Z; day : Z;
  hour : Z; minute : Z; second : Z
}.

(** What the process wrote to the console: a [print]ed line or the prompt of
    an [input] call. *)
Inductive event : Type :=
| Print (text : string)
| Prompt (text : string).

(** An entry of the file system: the bytes stored under a path and whether
    [open(path).read()] can read them as text.  A directory, a file the
    process may not read and a file whose bytes are no text are entries that
    cannot be read; the bytes of a directory are of no consequence. *)
Inductive access : Type :=
| Readable
| IsADirectory
| PermissionDenied
| NotText.

Record entry : Type := mk_entry {
  stored : string;
  readable_as : access
}.

(** A regular text file. *)
Definition regular (content : string) : entry := mk_entry content Readable.

(** The world a script runs in.  [files] lists the entries of the file
    system by path, files and directories alike, in the order the file
    system enumerates them; [writable] tells whether opening a path for
    writing succeeds; [service] is the assistant: what it answers (or [None]
    when the call fails) to the latest prompt of the history of prompts sent
    so far, which [asked] records. *)
Record world : Type := mk_world {
  files : list (string * entry);
  writable : string -> bool;
  console : list event;
  stdin : list string;
  clock : datetime;
  service : list string -> option string;
  asked : list string
}.

Definition set_files (f : list (string * entry)) (w : world) : world :=
  mk_world f (writable w) (console w) (stdin w) (clock w) (service w) (asked w).

Definition set_console (c : list event) (w : world) : world :=
  mk_world (files w) (writable w) c (stdin w) (clock w) (service w) (asked w).

Definition set_stdin (i : list string) (w : world) : world :=
  mk_world (files w) (writable w) (console w) i (clock w) (service w) (asked w).

Definition set_asked (a : list string) (w : world) : world :=
  mk_world (files w) (writable w) (console w) (stdin w) (clock w) (service w) a.

(** Computations that read and change the world and may raise. *)
Definition M (X : Type) : Type := world -> result X * world.

Definition ret {X : Type} (x : X) : M X := fun w => (Ok x, w).

Definition raise {X : Type} (e : exn) : M X := fun w => (Raise e, w).

Definition bind {X Y : Type} (m : M X) (k : X -> M Y) : M Y :=
  fun w =>
    match m w with
    | (Ok x, w') => k x w'
    | (Raise e, w') => (Raise e, w')
    end.

Declare Scope py_scope.
Delimit Scope py_scope with py.
Notation "x <- m ;; k" := (bind m (fun x => k))
  (at level 61, m at next level, right associativity) : py_scope.
Notation "m ;; k" := (bind m (fun _ => k))
  (at level 61, right associativity) : py_scope.
Open Scope py_scope.

Definition lift {X : Type} (r : result X) : M X := fun w => (r, w).

(** [try: body except Exception as e: handler(e)]; [SystemExit] is not an
    [Exception] and passes through. *)
Definition try_except {X : Type} (body : M X) (handler : exn -> M X) : M X :=
  fun w =>
    match body w with
    | (Raise (SystemExit c), w') => (Raise (SystemExit c), w')
    | (Raise e, w') => handler e w'
    | r => r
    end.

(** [for x in xs: body(x)]. *)
Fixpoint for_each {X : Type} (xs : list X) (body : X -> M unit) : M unit :=
  match xs with
  | [] => ret tt
  | x :: xs' => body x ;; for_each xs' body
  end.

Definition print (text : string) : M unit :=
  fun w => (Ok tt, set_console (console w ++ [Print text]) w).

Definition input (prompt : string) : M string :=
  fun w =>
    let w' := set_console (console w ++ [Prompt prompt]) w in
    match stdin w with
    | [] => (Raise EOFError, w')
    | line :: rest => (Ok line, set_stdin rest w')
    end.

Definition now : M datetime := fun w => (Ok (clock w), w).

(** Entries by path, and the bytes stored under a path. *)
Fixpoint fs_entry (path : string) (fs : list (string * entry)) : option entry :=
  match fs with
  | [] => None
  | (p, e) :: fs' => if String.eqb p path then Some e else fs_entry path fs'
  end.

Definition fs_lookup (path : string) (fs : list (string * entry))
  : option string :=
  match fs_entry path fs with
  | Some e => Some (stored e)
  | None => None
  end.

(** Writing a text under a path: the entry becomes, or a new last entry is,
    a regular file holding the text. *)
Fixpoint fs_store (path content : string) (fs : list (string * entry))
  : list (string * entry) :=
  match fs with
  | [] => [(path, regular content)]
  | (p, e) :: fs' =>
      if String.eqb p path then (p, regular content) :: fs'
      else (p, e) :: fs_store path content fs'
  end.

(** [os.path.exists(path)]. *)
Definition path_exists (path : string) : M bool :=
  fun w => (Ok (match fs_lookup path (files w) with Some _ => true | None => false end), w).

(** [open(path).read()] on the file system: the text of a readable entry
    with its line ends translated; [FileNotFoundError] without an entry,
    [IsADirectoryError] or [PermissionError] (three [OSError]s) and
    [UnicodeDecodeError] on an entry that cannot be read. *)
Definition open_read (path : string) (fs : list (string * entry))
  : result string :=
  match fs_entry path fs with
  | None => Raise (OSError path)
  | Some e =>
      match readable_as e with
      | Readable => Ok (universal_newlines (stored e))
      | IsADirectory | PermissionDenied => Raise (OSError path)
      | NotText => Raise UnicodeDecodeError
      end
  end.

(** The text a successful read returns. *)
Definition read_text (path : string) (fs : list (string * entry))
  : option string :=
  match open_read path fs with
  | Ok text => Some text
  | Raise _ => None
  end.

Definition read_file (path : string) : M string :=
  fun w => (open_read path (files w), w).

(** [with open(path, "w") as f: f.write(content)]. *)
Definition write_file (path content : string) : M unit :=
  fun w =>
    if writable w path
    then (Ok tt, set_files (fs_store path content (files w)) w)
    else (Raise (OSError path), w).

(** [glob.glob(dir + "/" + pattern)] for a literal directory: the entries of
    [dir] whose name matches, files and directories alike, in file-system
    order. *)
Definition glob_match (dir pattern path : string) : bool :=
  match strip_prefix (dir ++ "/") path with
  | Some name => negb (contains "/" name) && fnmatch pattern name
  | None => false
  end.

Definition glob (dir pattern : string) : M (list string) :=
  fun w => (Ok (filter (glob_match dir pattern) (map fst (files w))), w).

(** The library functions the scripts call and this development leaves
    open: the text of a container ([repr]), [str.lower()] with the case
    mapping of Unicode, the YAML and JSON parsers and printers ([None] when
    the parser raises), the text of an exception, and [int()] on a text
    ([None] when it raises [ValueError]). *)
Class PyRuntime : Type := {
  py_repr : pyval -> string;
  py_lower : string -> string;
  yaml_safe_load : string -> option pyval;
  json_load : string -> option pyval;
  yaml_dump : pyval -> string;
  json_dump : pyval -> string;
  exn_text : exn -> string;
  py_int : string -> option Z
}.

(** [str(v)], which an f-string applies to each value it embeds. *)
Definition py_str `{PyRuntime} (v : pyval) : string :=
  match v with
  | VNone => "None"
  | VBool true => "True"
  | VBool false => "False"
  | VInt z => int_to_string z
  | VStr s => s
  | VOther _ text => text
  | VList _ | VDict _ => py_repr v
  end.

(** Values as the scripts use them: [v.get(k, default)], [v[k]], [v.keys()]
    and [sep.join(values)], each with the exception Python raises when the
    value has the wrong shape. *)
Definition py_get (v : pyval) (k : string) (default : pyval) : result pyval :=
  match v with
  | VDict d => Ok (dict_get d k default)
  | _ => Raise AttributeError
  end.

Definition py_index (v : pyval) (k : string) : result pyval :=
  match v with
  | VDict d =>
      match find (fun e => key_is k (fst e)) d with
      | Some e => Ok (snd e)
      | None => Raise KeyError
      end
  | _ => Raise TypeError
  end.

Definition py_keys (v : pyval) : result (list pyval) :=
  match v with
  | VDict d => Ok (map fst d)
  | _ => Raise AttributeError
  end.

Fixpoint all_text (l : list pyval) : option (list string) :=
  match l with
  | [] => Some []
  | VStr s :: l' =>
      match all_text l' with
      | Some r => Some (s :: r)
      | None => None
      end
  | _ :: _ => None
  end.

Definition py_join (sep : string) (l : list pyval) : result string :=
  match all_text l with
  | Some parts => Ok (join sep parts)
  | None => Raise TypeError
  end.

(** The result of a parser that raises on malformed text. *)
Definition parsed (r : option pyval) : M pyval :=
  match r with
  | Some v => ret v
  | None => raise ParseError
  end.

(** ** [generate_prs_log.py] *)

Module GeneratePrsLog.
Section Script.
Context {rt : PyRuntime}.

Definition load_task_from_file (filepath : string) : M pyval :=
  try_except
    (text <- read_file filepath ;;
     if ends_with ".yaml" filepath || ends_with ".yml" filepath then
       parsed (yaml_safe_load text)
     else if ends_with ".json" filepath then
       parsed (json_load text)
     else
       ret (VDict [(VStr "task", VStr (strip text))]))
    (fun e =>
       print ("Error loading task file: " ++ exn_text e) ;;
       raise (SystemExit 1)).

Definition validate_task_data (task_data : pyval) : result pyval :=
  match task_data with
  | VStr _ => Ok (VDict [(VStr "task", task_data)])
  | VDict d =>
      if negb (dict_has d "task")
      then Raise (ValueError "Task file must contain a 'task' field")
      else Ok task_data
  | _ => Raise (ValueError "Invalid task file format")
  end.


Definition detect_project_context : M string :=
  let context_parts : list string := [] in
  has_package <- path_exists "package.json" ;;
  context_parts <-
    (if has_package : bool then
       text <- read_file "package.json" ;;
       package <- parsed (json_load text) ;;
       name <- lift (py_get package "name" VNone) ;;
       deps <- lift (py_get package "dependencies" (VDict [])) ;;
       keys <- lift (py_keys deps) ;;
       joined <- lift (py_join ", " keys) ;;
       ret (List.app context_parts
            ["Detected Node.js project (package.json):";
             "  name: " ++ py_str name;
             "  dependencies: " ++ joined])
     else ret context_parts) ;;
  has_pubspec <- path_exists "pubspec.yaml" ;;
  context_parts <-
    (if has_pubspec : bool then
       text <- read_file "pubspec.yaml" ;;
       pubspec <- parsed (yaml_safe_load text) ;;
       name <- lift (py_get pubspec "name" VNone) ;;
       deps <- lift (py_get pubspec "dependencies" (VDict [])) ;;
       keys <- lift (py_keys deps) ;;
       joined <- lift (py_join ", " keys) ;;
       ret (List.app context_parts
            ["Detected Flutter project (pubspec.yaml):";
             "  name: " ++ py_str name;
             "  dependencies: " ++ joined])
     else ret context_parts) ;;
  has_requirements <- path_exists "requirements.txt" ;;
  context_parts <-
    (if has_requirements : bool then
       text <- read_file "requirements.txt" ;;
       let reqs :=
         map strip
             (filter (fun line => negb (String.eqb (strip line) ""))
                     (split_lines text)) in
       ret (List.app context_parts
            ["Detected Python project (requirements.txt):";
             "  dependencies: " ++ join ", " reqs])
     else ret context_parts) ;;
  ret (match context_parts with
       | [] => "No known project structure detected."
       | _ => join LF context_parts
       end).

(** [client.chat(prompt)]: the prompt joins the history and the service
    answers or fails. *)
Definition ask_copilot (prompt : string) : M string :=
  fun w =>
    let history := (asked w ++ [prompt])%list in
    match service w history with
    | Some answer => (Ok answer, set_asked history w)
    | None => (Raise AssistantError, set_asked history w)
    end.

(** [datetime.strftime("%Y%m%d_%H%M%S")]. *)
Definition strftime (t : datetime) : string :=
  pad 4 (year t) ++ pad 2 (month t) ++ pad 2 (day t) ++ "_" ++
  pad 2 (hour t) ++ pad 2 (minute t) ++ pad 2 (second t).

Definition log_filename (timestamp : string) : string :=
  ".github/prompts/prs_" ++ timestamp ++ ".prompt.md".

Definition log_content (task reasoning evaluation adaptation result : string)
  : string :=
  "# PRS Prompt - " ++ task ++ LF ++
  LF ++
  "## Task" ++ LF ++
  task ++ LF ++
  LF ++
  "## Reasoning" ++ LF ++
  reasoning ++ LF ++
  LF ++
  "## Evaluation" ++ LF ++
  evaluation ++ LF ++
  LF ++
  "## Adaptation" ++ LF ++
  adaptation ++ LF ++
  LF ++
  "## Final Output Summary" ++ LF ++
  result ++ LF ++
  LF ++
  "# [GOD MODE: ON]" ++ LF.

Definition save_prs (task reasoning evaluation adaptation result : string)
  : M unit :=
  t <- now ;;
  let timestamp := strftime t in
  let filename := log_filename timestamp in
  let content := log_content task reasoning evaluation adaptation result in
  write_file filename content ;;
  print ("Saved: " ++ filename).

Definition template_content : pyval :=
  VDict [(VStr "task", VStr "Describe your task here");
         (VStr "context", VStr "Additional context or background information");
         (VStr "constraints", VStr "Any specific constraints or requirements");
         (VStr "priority", VStr "high|medium|low");
         (VStr "expected_outcome", VStr "What success looks like")].

Definition create_template (template_path : string) : M unit :=
  try_except
    ((if ends_with ".json" template_path
      then write_file template_path (json_dump template_content)
      else write_file template_path (yaml_dump template_content)) ;;
     print ("✅ Template created: " ++ template_path) ;;
     print "Edit the file and run with --file flag to process it.")
    (fun e => print ("❌ Error creating template: " ++ exn_text e)).

(** The prompt of the first call ([main], "Build context"). *)
Definition context_prompt (project_context : string)
           (task additional_context constraints : pyval) : string :=
  let full_context :=
    "Given the following project context:" ++ LF ++ project_context in
  let full_context :=
    if py_truthy additional_context
    then full_context ++ LF ++ LF ++ "Additional context:" ++ LF ++
         py_str additional_context
    else full_context in
  let full_context :=
    if py_truthy constraints
    then full_context ++ LF ++ LF ++ "Constraints:" ++ LF ++ py_str constraints
    else full_context in
  full_context ++ LF ++ LF ++ "Task: " ++ py_str task.

(** [main] from "Build context" to its end: the four phases and the log. *)
Definition run_pipeline (task additional_context constraints : pyval) : M unit :=
  project_context <- detect_project_context ;;
  let context_prompt :=
    context_prompt project_context task additional_context constraints in
  print (LF ++ "🧠 Processing task: " ++ py_str task) ;;
  print "📊 Reasoning phase..." ;;
  reasoning <- ask_copilot context_prompt ;;
  print "🔍 Evaluation phase..." ;;
  evaluation <- ask_copilot ("Evaluate the reasoning: " ++ reasoning) ;;
  print "🔄 Adaptation phase..." ;;
  adaptation <- ask_copilot ("Refactor the approach based on: " ++ evaluation) ;;
  print "✅ Final synthesis..." ;;
  final <- ask_copilot (py_str task ++ LF ++ LF ++ "Improved strategy:" ++ LF ++
                        adaptation) ;;
  save_prs (py_str task) reasoning evaluation adaptation final.

(** The parsed command line: [--file], [--task], [--template]. *)
Record arguments : Type := mk_arguments {
  arg_file : option string;
  arg_task : option string;
  arg_template : option string
}.

(** [if args.x:] holds for an option that was given and is not empty. *)
Definition given (o : option string) : option string :=
  match o with
  | Some s => if String.eqb s "" then None else Some s
  | None => None
  end.

Definition main (args : arguments) : M unit :=
  match given (arg_template args) with
  | Some template_path => create_template template_path
  | None =>
      source <-
        match given (arg_file args), given (arg_task args) with
        | Some filepath, _ =>
            task_data <- load_task_from_file filepath ;;
            task_data <- lift (validate_task_data task_data) ;;
            task <- lift (py_index task_data "task") ;;
            additional_context <- lift (py_get task_data "context" (VStr "")) ;;
            constraints <- lift (py_get task_data "constraints" (VStr "")) ;;
            ret (task, additional_context, constraints)
        | None, Some text => ret (VStr text, VStr "", VStr "")
        | None, None =>
            text <- input "Task: " ;;
            ret (VStr text, VStr "", VStr "")
        end ;;
      let '(task, additional_context, constraints) := source in
      run_pipeline task additional_context constraints
  end.

End Script.
End GeneratePrsLog.

(** ** [prs_memory_cli.py] *)

Module PrsMemoryCli.
Section Script.
Context {rt : PyRuntime}.

(** [enumerate(xs)]. *)
Definition enumerate {X : Type} (xs : list X) : list (nat * X) :=
  combine (seq 0 (List.length xs)) xs.

Definition list_logs : M (list string) :=
  found <- glob ".github/prompts" "prs_*.prompt.md" ;;
  let files := sorted found in
  for_each (enumerate files)
           (fun '(i, f) => print ("[" ++ nat_to_string (i + 1) ++ "] " ++ f)) ;;
  ret files.

Definition view_log (index : Z) : M unit :=
  files <- list_logs ;;
  if ((0 <=? index) && (index <? Z.of_nat (List.length files)))%Z then
    match nth_error files (Z.to_nat index) with
    | Some f => text <- read_file f ;; print text
    | None => raise IndexError
    end
  else print "Invalid index.".

(** The loop of [search_logs] that fills [matches]. *)
Fixpoint matching (keyword : string) (found : list string) : M (list string) :=
  match found with
  | [] => ret []
  | f :: rest =>
      text <- read_file f ;;
      matches <- matching keyword rest ;;
      ret (if contains (py_lower keyword) (py_lower text)
           then f :: matches else matches)
  end.

Definition search_logs (keyword : string) : M unit :=
  found <- glob ".github/prompts" "prs_*.prompt.md" ;;
  matches <- matching keyword found ;;
  for_each matches print.

(** [int(text)]. *)
Definition int (text : string) : M Z :=
  match py_int text with
  | Some n => ret n
  | None => raise (ValueError "invalid literal for int()")
  end.

(** One turn of the menu loop of [main]; [false] is the [break]. *)
Definition menu_turn : M bool :=
  print (LF ++ "[PRS Memory CLI]") ;;
  print "1. List logs" ;;
  print "2. View a log" ;;
  print "3. Search logs" ;;
  print "4. Exit" ;;
  choice <- input "Choose: " ;;
  if String.eqb choice "1" then
    list_logs ;; ret true
  else if String.eqb choice "2" then
    text <- input "Index: " ;;
    n <- int text ;;
    let idx := (n - 1)%Z in
    view_log idx ;; ret true
  else if String.eqb choice "3" then
    kw <- input "Keyword: " ;;
    search_logs kw ;; ret true
  else if String.eqb choice "4" then
    ret false
  else ret true.

(** [main]: the loop runs until the exit choice or an exception; [fuel]
    bounds the number of turns and [None] means it ran out. *)
Fixpoint main (fuel : nat) (w : world) : option (result unit * world) :=
  match fuel with
  | O => None
  | S fuel' =>
      match menu_turn w with
      | (Ok true, w') => main fuel' w'
      | (Ok false, w') => Some (Ok tt, w')
      | (Raise e, w') => Some (Raise e, w')
      end
  end.

End Script.
End PrsMemoryCli.

(** ** Sample worlds *)

(** A runtime whose parsers know the texts of a table and raise on every
    other text. *)
Definition table_lookup (table : list (string * pyval)) (text : string)
  : option pyval :=
  match find (fun e => String.eqb (fst e) text) table with
  | Some e => Some (snd e)
  | None => None
  end.

Definition table_runtime (json yaml : list (string * pyval)) : PyRuntime :=
  {| py_repr := fun _ => "{...}";
     py_lower := lower;
     yaml_safe_load := table_lookup yaml;
     json_load := table_lookup json;
     yaml_dump := fun _ => "task: ...";
     json_dump := fun _ => "{...}";
     exn_text := fun _ => "error";
     py_int := fun text =>
       if String.eqb text "0" then Some 0%Z
       else if String.eqb text "1" then Some 1%Z
       else if String.eqb text "2" then Some 2%Z
       else if String.eqb text "3" then Some 3%Z
       else None |}.

Definition plain_runtime : PyRuntime := table_runtime [] [].

(** An assistant that gives the answers of a list, call after call, and fails
    where the list says [None] or ends. *)
Definition scripted (answers : list (option string)) (history : list string)
  : option string :=
  match nth_error answers (List.length history - 1) with
  | Some answer => answer
  | None => None
  end.

(** A world of regular files where every path can be written. *)
Definition regular_files (fs : list (string * string))
  : list (string * entry) :=
  map (fun file => (fst file, regular (snd file))) fs.

Definition sample_world (fs : list (string * string))
           (answers : list (option string)) (lines : list string) : world :=
  mk_world (regular_files fs) (fun _ => true) [] lines
           (mk_datetime 2024 1 2 3 4 5) (scripted answers) [].

(** A [package.json] with the name "x" and the dependencies "a" and "b",
    and a runtime whose JSON parser reads it. *)
Definition DQ : string := String "034"%char EmptyString.

Definition package_json_text : string :=
  "{" ++ DQ ++ "name" ++ DQ ++ ": " ++ DQ ++ "x" ++ DQ ++ ", " ++
  DQ ++ "dependencies" ++ DQ ++ ": {" ++
  DQ ++ "a" ++ DQ ++ ": " ++ DQ ++ "1" ++ DQ ++ ", " ++
  DQ ++ "b" ++ DQ ++ ": " ++ DQ ++ "2" ++ DQ ++ "}}".

Definition package_json_value : pyval :=
  VDict [(VStr "name", VStr "x");
         (VStr "dependencies",
          VDict [(VStr "a", VStr "1"); (VStr "b", VStr "2")])].

Definition node_runtime : PyRuntime :=
  table_runtime [(package_json_text, package_json_value)] [].

(** Two logs, the later one first in the directory. *)
Definition two_logs : list (string * string) :=
  [(".github/prompts/prs_20240102_000000.prompt.md", "second");
   (".github/prompts/prs_20240101_000000.prompt.md", "first")].

(** Three logs, two of them about a deployment, and a note that is no log. *)
Definition deploy_logs : list (string * string) :=
  [(".github/prompts/prs_20240103_000000.prompt.md", "We Deploy on Friday");
   (".github/prompts/prs_20240101_000000.prompt.md", "nothing to see");
   (".github/prompts/notes.md", "how to deploy");
   (".github/prompts/prs_20240102_000000.prompt.md", "reDEPLOYed twice")].

(** The fields of the template in the order of their names, as the YAML
    printer writes them. *)
Definition template_sorted : list (pyval * pyval) :=
  [(VStr "constraints", VStr "Any specific constraints or requirements");
   (VStr "context", VStr "Additional context or background information");
   (VStr "expected_outcome", VStr "What success looks like");
   (VStr "priority", VStr "high|medium|low");
   (VStr "task", VStr "Describe your task here")].

(** ** Vocabulary of the statements *)

(** Decimal digits. *)
Definition is_digit (c : ascii) : bool :=
  let n := N_of_ascii c in ((48 <=? n) && (n <=? 57))%N.

Fixpoint all_digits (s : string) : bool :=
  match s with
  | EmptyString => true
  | String c s' => is_digit c && all_digits s'
  end.

(** A carriage return somewhere in a text. *)
Fixpoint has_cr (s : string) : bool :=
  match s with
  | EmptyString => false
  | String c s' => Ascii.eqb c "013"%char || has_cr s'
  end.

(** A text without its last character. *)
Fixpoint but_last (s : string) : string :=
  match s with
  | EmptyString => EmptyString
  | String c s' =>
      match s' with
      | EmptyString => EmptyString
      | _ => String c (but_last s')
      end
  end.

(** What stands between the text of a section of a log and the text of the
    next section: the end of the last line, a blank line and the heading
    line. *)
Definition heading_block (heading : string) : string :=
  LF ++ LF ++ "## " ++ heading ++ LF.

(** A text that is followed by [block] shows [block] before its own end:
    [block] occurs in the text, or the text ends with a start of [block]
    that the following [block] completes. *)
Definition meets_block (block text : string) : bool :=
  contains block (text ++ but_last block).

(** The paths of the log entries, in file-system order: what the pattern
    [.github/prompts/prs_*.prompt.md] matches. *)
Definition log_paths (w : world) : list string :=
  filter (glob_match ".github/prompts" "prs_*.prompt.md") (map fst (files w)).

(** The order of [sorted]: the order of texts by their bytes, which is the
    order Python compares them in. *)
Definition name_le (a b : string) : Prop := String.leb a b = true.

(** The dates and times [datetime.now()] returns, in the years that every
    platform's [%Y] writes on four digits. *)
Definition valid_datetime (t : datetime) : Prop :=
  (1000 <= year t <= 9999 /\ 1 <= month t <= 12 /\ 1 <= day t <= 31 /\
   0 <= hour t <= 23 /\ 0 <= minute t <= 59 /\ 0 <= second t <= 59)%Z.

(** Chronological order to the second: the fields compared from the year
    down to the second. *)
Definition lex (first next : comparison) : comparison :=
  match first with
  | Eq => next
  | _ => first
  end.

Definition datetime_compare (t1 t2 : datetime) : comparison :=
  lex (Z.compare (year t1) (year t2))
      (lex (Z.compare (month t1) (month t2))
           (lex (Z.compare (day t1) (day t2))
                (lex (Z.compare (hour t1) (hour t2))
                     (lex (Z.compare (minute t1) (minute t2))
                          (Z.compare (second t1) (second t2)))))).

(** The numbered lines of a listing. *)
Definition listing_line (entry : nat * string) : string :=
  "[" ++ nat_to_string (fst entry + 1) ++ "] " ++ snd entry.

Definition listing (paths : list string) : list event :=
  map (fun entry => Print (listing_line entry)) (PrsMemoryCli.enumerate paths).

(** What a turn of the menu prints before it asks for the choice. *)
Definition menu : list event :=
  [Print (LF ++ "[PRS Memory CLI]"); Print "1. List logs";
   Print "2. View a log"; Print "3. Search logs"; Print "4. Exit"].


(** The file at [path] mentions [keyword]: the test of [search_logs], on
    the lowered keyword and the lowered text. *)
Definition mentions `{PyRuntime} (w : world) (keyword path : string) : bool :=
  match read_text path (files w) with
  | Some text => contains (py_lower keyword) (py_lower text)
  | None => false
  end.

(** A text of ASCII characters only. *)
Fixpoint is_ascii (s : string) : bool :=
  match s with
  | EmptyString => true
  | String c s' => (nat_of_ascii c <? 128)%nat && is_ascii s'
  end.


(** Every log entry of a world is a file that can be read as text. *)
Definition logs_readable (w : world) : Prop :=
  forall path : string,
    In path (log_paths w) ->
    exists text : string, read_text path (files w) = Some text.

(** A section of a log: a blank line, the heading line, the text and the
    end of its last line. *)
Definition section_block (heading text : string) : string :=
  LF ++ "## " ++ heading ++ LF ++ text ++ LF.

(** The text before the first occurrence of [sep] and the text after it. *)
Fixpoint split_at (sep s : string) : option (string * string) :=
  match strip_prefix sep s with
  | Some rest => Some (EmptyString, rest)
  | None =>
      match s with
      | EmptyString => None
      | String c s' =>
          match split_at sep s' with
          | Some (before, rest) => Some (String c before, rest)
          | None => None
          end
      end
  end.

(** The text before a final [suffix]. *)
Fixpoint strip_suffix (suffix s : string) : option string :=
  if String.eqb s suffix then Some EmptyString
  else
    match s with
    | EmptyString => None
    | String c s' =>
        match strip_suffix suffix s' with
        | Some before => Some (String c before)
        | None => None
        end
    end.

(** Modelled from the spec: the re-read of a log entry section by section,
    for which the repository has no code.  Each section runs from its
    heading line to the blank line before the next heading; the last one
    runs to the blank line before the trailing marker. *)
Definition read_sections (content : string)
  : option (string * string * string * string * string) :=
  match strip_prefix "# PRS Prompt - " content with
  | None => None
  | Some after_title =>
  match split_at (LF ++ LF ++ "## Task" ++ LF) after_title with
  | None => None
  | Some (_, after_task_heading) =>
  match split_at (LF ++ LF ++ "## Reasoning" ++ LF) after_task_heading with
  | None => None
  | Some (task, after_reasoning_heading) =>
  match split_at (LF ++ LF ++ "## Evaluation" ++ LF) after_reasoning_heading with
  | None => None
  | Some (reasoning, after_evaluation_heading) =>
  match split_at (LF ++ LF ++ "## Adaptation" ++ LF) after_evaluation_heading with
  | None => None
  | Some (evaluation, after_adaptation_heading) =>
  match split_at (LF ++ LF ++ "## Final Output Summary" ++ LF)
                 after_adaptation_heading with
  | None => None
  | Some (adaptation, after_summary_heading) =>
  match strip_suffix (LF ++ LF ++ "# [GOD MODE: ON]" ++ LF)
                     after_summary_heading with
  | None => None
  | Some result => Some (task, reasoning, evaluation, adaptation, result)
  end end end end end end end.

(** A computation keeps an observation [f] of the world when running it
    never changes [f]; with [f] the identity it only reads. *)
Definition keeps {S X : Type} (f : world -> S) (m : M X) : Prop :=
  forall w, f (snd (m w)) = f w.

Definition read_only {X : Type} (m : M X) : Prop :=
  forall w, snd (m w) = w.

(** A computation is quiet on an exception [e] when a run that ends by
    raising [e] leaves the files as they were, and never raises [e] when no
    run ends that way. *)
Definition quiet_on {X : Type} (e : exn) (m : M X) : Prop :=
  forall w r w', m w = (r, w') -> r = Raise e -> files w' = files w.

Definition never_raises {X : Type} (e : exn) (m : M X) : Prop :=
  forall w, fst (m w) <> Raise e.

(** A computation reports a failed call when every run whose latest prompt
    the assistant did not answer ends by raising [AssistantError]. *)
Definition reports_failed_call {X : Type} (m : M X) : Prop :=
  forall w r w',
    m w = (r, w') ->
    asked w' <> asked w -> service w (asked w') = None ->
    r = Raise AssistantError.

(** A computation takes lines from the standard input and never puts any
    back. *)
Definition consumes_stdin {X : Type} (m : M X) : Prop :=
  forall w, List.length (stdin (snd (m w))) <= List.length (stdin w).

(** A computation only adds prompts to the history. *)
Definition grows_asked {X : Type} (m : M X) : Prop :=
  forall w, exists more, asked (snd (m w)) = (asked w ++ more)%list.

(** A block of the first prompt that is there only for a true value. *)
Definition optional_block `{PyRuntime} (label : string) (v : pyval) : string :=
  if py_truthy v then LF ++ LF ++ label ++ LF ++ py_str v else "".

(** White space at the start and at the end of a text. *)
Definition head_is_space (s : string) : bool :=
  match s with
  | EmptyString => false
  | String c _ => is_space c
  end.

Fixpoint last_is_space (s : string) : bool :=
  match s with
  | EmptyString => false
  | String c EmptyString => is_space c
  | String _ s' => last_is_space s'
  end.

(** A computation sends at most [n] prompts to the assistant. *)
Definition asks_at_most {X : Type} (n : nat) (m : M X) : Prop :=
  forall w, List.length (asked (snd (m w))) <= List.length (asked w) + n.

(** The requirements the detector reads from the text of
    [requirements.txt]. *)
Definition requirement_lines (text : string) : list string :=
  map strip
      (filter (fun line => negb (String.eqb (strip line) EmptyString))
              (split_lines text)).

(** The fields of a loaded mapping. *)
Definition dict_entries (v : pyval) : list (pyval * pyval) :=
  match v with
  | VDict d => d
  | _ => []
  end.

(** The last character of a text. *)
Fixpoint last_char (s : string) : option ascii :=
  match s with
  | EmptyString => None
  | String c EmptyString => Some c
  | String _ s' => last_char s'
  end.

(** A pattern without wildcards. *)
Fixpoint is_literal (pat : string) : bool :=
  match pat with
  | EmptyString => true
  | String c pat' =>
      negb (Ascii.eqb c "*"%char) && negb (Ascii.eqb c "?"%char) &&
      is_literal pat'
  end.

(** * Properties *)

(** ** The monad and its primitives *)

Lemma bind_ok {X Y : Type} (m : M X) (k : X -> M Y) (w w' : world) (x : X) :
  m w = (Ok x, w') -> bind m k w = k x w'.
Proof. intros H. unfold bind. now rewrite H. Qed.

Lemma bind_raise {X Y : Type} (m : M X) (k : X -> M Y) (w w' : world) (e : exn) :
  m w = (Raise e, w') -> bind m k w = (Raise e, w').
Proof. intros H. unfold bind. now rewrite H. Qed.

Lemma read_only_keeps {S X : Type} (f : world -> S) (m : M X) :
  read_only m -> keeps f m.
Proof. intros H w. now rewrite H. Qed.

Lemma keeps_ret {S X : Type} (f : world -> S) (x : X) : keeps f (ret x).
Proof. intros w. reflexivity. Qed.

Lemma keeps_raise {S X : Type} (f : world -> S) (e : exn) : keeps f (@raise X e).
Proof. intros w. reflexivity. Qed.

Lemma keeps_lift {S X : Type} (f : world -> S) (r : result X) : keeps f (lift r).
Proof. intros w. reflexivity. Qed.

Lemma keeps_bind {S X Y : Type} (f : world -> S) (m : M X) (k : X -> M Y) :
  keeps f m -> (forall x, keeps f (k x)) -> keeps f (bind m k).
Proof.
  intros Hm Hk w. unfold bind. specialize (Hm w).
  destruct (m w) as [[x | e] w1]; simpl in *.
  - now rewrite Hk.
  - assumption.
Qed.

Lemma keeps_try_except {S X : Type} (f : world -> S) (m : M X) (h : exn -> M X) :
  keeps f m -> (forall e, keeps f (h e)) -> keeps f (try_except m h).
Proof.
  intros Hm Hh w. unfold try_except. specialize (Hm w).
  destruct (m w) as [[x | e] w1]; simpl in *; [assumption |].
  destruct e; try (now rewrite Hh); assumption.
Qed.

Lemma keeps_for_each {S X : Type} (f : world -> S) (xs : list X) (body : X -> M unit) :
  (forall x, keeps f (body x)) -> keeps f (for_each xs body).
Proof.
  intros Hb. induction xs as [| x xs IH]; simpl.
  - apply keeps_ret.
  - apply keeps_bind; [apply Hb | intros _; exact IH].
Qed.

Lemma keeps_parsed {S : Type} (f : world -> S) (r : option pyval) : keeps f (parsed r).
Proof. destruct r; [apply keeps_ret | apply keeps_raise]. Qed.

Lemma read_only_path_exists (path : string) : read_only (path_exists path).
Proof. intros w. reflexivity. Qed.

Lemma read_only_read_file (path : string) : read_only (read_file path).
Proof. intros w. reflexivity. Qed.

(** A read returns the text of a readable entry. *)
Lemma read_text_open (path text : string) (fs : list (string * entry)) :
  read_text path fs = Some text -> open_read path fs = Ok text.
Proof.
  unfold read_text. intros H.
  destruct (open_read path fs); [| discriminate H].
  now inversion H.
Qed.

Lemma read_file_text (path text : string) (w : world) :
  read_text path (files w) = Some text -> read_file path w = (Ok text, w).
Proof. intros H. unfold read_file. now rewrite (read_text_open _ _ _ H). Qed.

(** What a failing read raises. *)
Lemma open_read_raises (path : string) (fs : list (string * entry)) (e : exn) :
  open_read path fs = Raise e -> e = OSError path \/ e = UnicodeDecodeError.
Proof.
  unfold open_read.
  destruct (fs_entry path fs) as [[content []] |]; cbn [readable_as];
    intros H; inversion H; auto.
Qed.

Lemma read_text_present (path text : string) (fs : list (string * entry)) :
  read_text path fs = Some text ->
  exists content : string, fs_lookup path fs = Some content.
Proof.
  unfold read_text, open_read, fs_lookup. intros H.
  destruct (fs_entry path fs) as [e |]; [| discriminate H].
  now exists (stored e).
Qed.

Lemma read_only_now : read_only now.
Proof. intros w. reflexivity. Qed.

Lemma read_only_glob (dir pattern : string) : read_only (glob dir pattern).
Proof. intros w. reflexivity. Qed.

Lemma keeps_files_print (text : string) : keeps files (print text).
Proof. intros w. reflexivity. Qed.

Lemma keeps_asked_print (text : string) : keeps asked (print text).
Proof. intros w. reflexivity. Qed.

Lemma keeps_service_print (text : string) : keeps service (print text).
Proof. intros w. reflexivity. Qed.

Lemma keeps_files_input (prompt : string) : keeps files (input prompt).
Proof. intros w. unfold input. now destruct (stdin w). Qed.

Lemma keeps_asked_input (prompt : string) : keeps asked (input prompt).
Proof. intros w. unfold input. now destruct (stdin w). Qed.

Lemma keeps_asked_write_file (path content : string) :
  keeps asked (write_file path content).
Proof. intros w. unfold write_file. now destruct (writable w path). Qed.

Lemma keeps_service_input (prompt : string) : keeps service (input prompt).
Proof. intros w. unfold input. now destruct (stdin w). Qed.

Lemma keeps_service_write_file (path content : string) :
  keeps service (write_file path content).
Proof. intros w. unfold write_file. now destruct (writable w path). Qed.

Create HintDb keeps.

#[local] Hint Resolve keeps_service_input keeps_service_write_file : keeps.

#[local] Hint Resolve keeps_ret keeps_raise keeps_lift keeps_parsed
  keeps_files_print keeps_asked_print keeps_service_print
  keeps_files_input keeps_asked_input keeps_asked_write_file : keeps.

#[local] Hint Extern 1 (keeps _ (path_exists _)) =>
  apply read_only_keeps, read_only_path_exists : keeps.
#[local] Hint Extern 1 (keeps _ (read_file _)) =>
  apply read_only_keeps, read_only_read_file : keeps.
#[local] Hint Extern 1 (keeps _ now) =>
  apply read_only_keeps, read_only_now : keeps.
#[local] Hint Extern 1 (keeps _ (glob _ _)) =>
  apply read_only_keeps, read_only_glob : keeps.

(** Walks a computation built from [bind], [if] and [match] and closes each
    leaf with the hints above. *)
Ltac keeps_step :=
  match goal with
  | |- keeps _ (bind _ _) => apply keeps_bind; [| intros ?]
  | |- keeps _ (try_except _ _) => apply keeps_try_except; [| intros ?]
  | |- keeps _ (for_each _ _) => apply keeps_for_each; intros ?
  | |- keeps _ (if ?b then _ else _) => destruct b
  | |- keeps _ (match ?x with _ => _ end) => destruct x
  | |- keeps _ _ => solve [auto with keeps]
  end.

Ltac keeps_auto := repeat keeps_step.

(** Reduces the projections of an updated world. *)
Ltac world_simpl :=
  cbn [files writable console stdin clock service asked
       set_files set_console set_stdin set_asked fst snd].

(** ** Text *)

Lemma append_nil_r (s : string) : s ++ "" = s.
Proof. induction s as [| c s IH]; simpl; [reflexivity | now rewrite IH]. Qed.

Lemma append_assoc (s t u : string) : (s ++ t) ++ u = s ++ t ++ u.
Proof. induction s as [| c s IH]; simpl; [reflexivity | now rewrite IH]. Qed.

Lemma length_append (s t : string) :
  String.length (s ++ t) = String.length s + String.length t.
Proof. induction s as [| c s IH]; simpl; [reflexivity | now rewrite IH]. Qed.

Lemma contains_unfold (needle hay : string) :
  contains needle hay =
  starts_with needle hay ||
  match hay with
  | EmptyString => false
  | String _ hay' => contains needle hay'
  end.
Proof. destruct hay; reflexivity. Qed.



(** ** The pipeline of [generate_prs_log.py] *)

Section Pipeline.
Context {rt : PyRuntime}.

Lemma detect_project_context_read_only :
  read_only GeneratePrsLog.detect_project_context.
Proof.
  change (keeps (fun w => w) GeneratePrsLog.detect_project_context).
  unfold GeneratePrsLog.detect_project_context. keeps_auto.
Qed.

Lemma ask_copilot_ok (prompt answer : string) (w : world) :
  service w (asked w ++ [prompt]) = Some answer ->
  GeneratePrsLog.ask_copilot prompt w =
  (Ok answer, set_asked (asked w ++ [prompt]) w).
Proof. intros H. unfold GeneratePrsLog.ask_copilot. now rewrite H. Qed.

Lemma keeps_files_ask_copilot (prompt : string) :
  keeps files (GeneratePrsLog.ask_copilot prompt).
Proof.
  intros w. unfold GeneratePrsLog.ask_copilot.
  now destruct (service w (asked w ++ [prompt])).
Qed.

Lemma keeps_service_ask_copilot (prompt : string) :
  keeps service (GeneratePrsLog.ask_copilot prompt).
Proof.
  intros w. unfold GeneratePrsLog.ask_copilot.
  now destruct (service w (asked w ++ [prompt])).
Qed.

Lemma keeps_detect_project_context {S : Type} (f : world -> S) :
  keeps f GeneratePrsLog.detect_project_context.
Proof. apply read_only_keeps, detect_project_context_read_only. Qed.

Lemma keeps_files_load_task_from_file (filepath : string) :
  keeps files (GeneratePrsLog.load_task_from_file filepath).
Proof. unfold GeneratePrsLog.load_task_from_file. keeps_auto. Qed.

Lemma keeps_asked_load_task_from_file (filepath : string) :
  keeps asked (GeneratePrsLog.load_task_from_file filepath).
Proof. unfold GeneratePrsLog.load_task_from_file. keeps_auto. Qed.

Lemma keeps_service_load_task_from_file (filepath : string) :
  keeps service (GeneratePrsLog.load_task_from_file filepath).
Proof. unfold GeneratePrsLog.load_task_from_file. keeps_auto. Qed.

Lemma keeps_asked_create_template (template_path : string) :
  keeps asked (GeneratePrsLog.create_template template_path).
Proof. unfold GeneratePrsLog.create_template. keeps_auto. Qed.

Lemma keeps_asked_save_prs (task reasoning evaluation adaptation result : string) :
  keeps asked (GeneratePrsLog.save_prs task reasoning evaluation adaptation result).
Proof. unfold GeneratePrsLog.save_prs. keeps_auto. Qed.

Lemma keeps_service_save_prs (task reasoning evaluation adaptation result : string) :
  keeps service (GeneratePrsLog.save_prs task reasoning evaluation adaptation result).
Proof. unfold GeneratePrsLog.save_prs. keeps_auto. Qed.

Lemma optional_block_empty_iff (label text : string) :
  optional_block label (VStr text) = "" <-> text = "".
Proof.
  unfold optional_block. simpl. destruct (String.eqb_spec text "") as [-> | Hne].
  - simpl. tauto.
  - simpl. split; [discriminate | intros ->; now elim Hne].
Qed.

Lemma context_prompt_blocks (project_context : string)
      (task additional_context constraints : pyval) :
  GeneratePrsLog.context_prompt project_context task additional_context constraints =
  "Given the following project context:" ++ LF ++ project_context ++
  optional_block "Additional context:" additional_context ++
  optional_block "Constraints:" constraints ++
  LF ++ LF ++ "Task: " ++ py_str task.
Proof.
  unfold GeneratePrsLog.context_prompt, optional_block.
  destruct (py_truthy additional_context), (py_truthy constraints);
    repeat rewrite append_assoc; repeat rewrite append_nil_r; reflexivity.
Qed.

Lemma save_prs_run (task reasoning evaluation adaptation result : string)
      (w : world) :
  let filename := GeneratePrsLog.log_filename (GeneratePrsLog.strftime (clock w)) in
  let content :=
    GeneratePrsLog.log_content task reasoning evaluation adaptation result in
  GeneratePrsLog.save_prs task reasoning evaluation adaptation result w =
  if writable w filename
  then (Ok tt,
        set_console (console w ++ [Print ("Saved: " ++ filename)])
                    (set_files (fs_store filename content (files w)) w))
  else (Raise (OSError filename), w).
Proof.
  intros filename content.
  unfold GeneratePrsLog.save_prs, bind, now, write_file, print.
  fold filename. fold content.
  destruct (writable w filename); reflexivity.
Qed.

(** When the four calls are answered, the run reaches [save_prs] with the
    four raw answers, in a world where only the console and the history of
    prompts have moved. *)
Lemma run_pipeline_answered (task additional_context constraints : pyval)
      (w : world) (ctx r1 r2 r3 r4 : string) :
  let p1 := GeneratePrsLog.context_prompt ctx task additional_context constraints in
  let p2 := "Evaluate the reasoning: " ++ r1 in
  let p3 := "Refactor the approach based on: " ++ r2 in
  let p4 := py_str task ++ LF ++ LF ++ "Improved strategy:" ++ LF ++ r3 in
  fst (GeneratePrsLog.detect_project_context w) = Ok ctx ->
  service w (asked w ++ [p1]) = Some r1 ->
  service w (asked w ++ [p1; p2]) = Some r2 ->
  service w (asked w ++ [p1; p2; p3]) = Some r3 ->
  service w (asked w ++ [p1; p2; p3; p4]) = Some r4 ->
  exists w4,
    GeneratePrsLog.run_pipeline task additional_context constraints w =
    GeneratePrsLog.save_prs (py_str task) r1 r2 r3 r4 w4 /\
    asked w4 = (asked w ++ [p1; p2; p3; p4])%list /\
    files w4 = files w /\ writable w4 = writable w /\
    clock w4 = clock w /\ service w4 = service w.
Proof.
  intros p1 p2 p3 p4 Hctx H1 H2 H3 H4.
  pose proof (detect_project_context_read_only w) as Hro.
  destruct (GeneratePrsLog.detect_project_context w) as [rc w0] eqn:Hd.
  simpl in Hctx, Hro. subst rc w0.
  unfold GeneratePrsLog.run_pipeline.
  rewrite (bind_ok _ _ _ _ _ Hd). fold p1.
  unfold bind at 1. unfold print at 1.
  unfold bind at 1. unfold print at 1.
  unfold bind at 1. erewrite ask_copilot_ok by (world_simpl; exact H1).
  unfold bind at 1. unfold print at 1.
  unfold bind at 1. fold p2.
  erewrite ask_copilot_ok
    by (world_simpl; rewrite <- app_assoc; exact H2).
  unfold bind at 1. unfold print at 1.
  unfold bind at 1. fold p3.
  erewrite ask_copilot_ok
    by (world_simpl; rewrite <- !app_assoc; exact H3).
  unfold bind at 1. unfold print at 1.
  unfold bind at 1. fold p4.
  erewrite ask_copilot_ok
    by (world_simpl; rewrite <- !app_assoc; exact H4).
  eexists. split; [reflexivity |].
  world_simpl. rewrite <- !app_assoc. repeat split; reflexivity.
Qed.

(** *** Failure of a call *)

Lemma quiet_of_keeps {X : Type} (e : exn) (m : M X) :
  keeps files m -> quiet_on e m.
Proof. intros Hk w r w' Hrun _. specialize (Hk w). now rewrite Hrun in Hk. Qed.

Lemma quiet_of_never {X : Type} (e : exn) (m : M X) :
  never_raises e m -> quiet_on e m.
Proof.
  intros Hn w r w' Hrun Hr. specialize (Hn w). rewrite Hrun in Hn.
  simpl in Hn. now elim Hn.
Qed.

Lemma quiet_bind {X Y : Type} (e : exn) (m : M X) (k : X -> M Y) :
  keeps files m -> (forall x, quiet_on e (k x)) -> quiet_on e (bind m k).
Proof.
  intros Hm Hk w r w' Hrun Hr. unfold bind in Hrun. specialize (Hm w).
  destruct (m w) as [[x | e1] w1]; simpl in Hm.
  - rewrite <- Hm. now apply (Hk x w1 r w').
  - inversion Hrun; subst. assumption.
Qed.

Lemma never_raises_save_prs (task reasoning evaluation adaptation result : string) :
  never_raises AssistantError
    (GeneratePrsLog.save_prs task reasoning evaluation adaptation result).
Proof.
  intros w. rewrite save_prs_run.
  destruct (writable w _); simpl; discriminate.
Qed.

Lemma never_raises_create_template (template_path : string) :
  never_raises AssistantError (GeneratePrsLog.create_template template_path).
Proof.
  intros w. unfold GeneratePrsLog.create_template, try_except.
  match goal with |- context [match ?body w with _ => _ end] =>
    destruct (body w) as [[[] | e] w1] end; simpl; [discriminate |].
  destruct e; simpl; discriminate.
Qed.

Lemma reports_of_keeps {X : Type} (m : M X) :
  keeps asked m -> reports_failed_call m.
Proof.
  intros Hk w r w' Hrun Hne. specialize (Hk w). rewrite Hrun in Hk.
  now elim Hne.
Qed.

Lemma reports_bind {X Y : Type} (m : M X) (k : X -> M Y) :
  reports_failed_call m -> keeps service m ->
  (forall x, reports_failed_call (k x)) ->
  reports_failed_call (bind m k).
Proof.
  intros Hm Hs Hk w r w' Hrun Hne Hnone. unfold bind in Hrun.
  specialize (Hs w). specialize (Hm w).
  destruct (m w) as [[x | e1] w1]; simpl in Hs.
  - destruct (list_eq_dec string_dec (asked w') (asked w1)) as [Heq | Hdiff].
    + rewrite Heq in Hne, Hnone.
      specialize (Hm _ _ eq_refl Hne Hnone). discriminate Hm.
    + apply (Hk x w1 r w' Hrun Hdiff). now rewrite Hs.
  - inversion Hrun; subst.
    specialize (Hm _ _ eq_refl Hne Hnone). now inversion Hm.
Qed.

Lemma reports_ask_copilot (prompt : string) :
  reports_failed_call (GeneratePrsLog.ask_copilot prompt).
Proof.
  intros w r w' Hrun _ Hnone. unfold GeneratePrsLog.ask_copilot in Hrun.
  destruct (service w (asked w ++ [prompt])) eqn:Hs;
    inversion Hrun; subst; [| reflexivity].
  simpl in Hnone. congruence.
Qed.

Lemma grows_of_keeps {X : Type} (m : M X) : keeps asked m -> grows_asked m.
Proof. intros Hk w. exists []. rewrite Hk. now rewrite app_nil_r. Qed.

Lemma grows_bind {X Y : Type} (m : M X) (k : X -> M Y) :
  grows_asked m -> (forall x, grows_asked (k x)) -> grows_asked (bind m k).
Proof.
  intros Hm Hk w. unfold bind. destruct (Hm w) as [more1 H1].
  destruct (m w) as [[x | e] w1]; simpl in *.
  - destruct (Hk x w1) as [more2 H2]. exists (more1 ++ more2)%list.
    now rewrite H2, H1, app_assoc.
  - now exists more1.
Qed.

Lemma grows_ask_copilot (prompt : string) :
  grows_asked (GeneratePrsLog.ask_copilot prompt).
Proof.
  intros w. exists [prompt]. unfold GeneratePrsLog.ask_copilot.
  now destruct (service w (asked w ++ [prompt])).
Qed.

#[local] Hint Resolve keeps_files_ask_copilot keeps_service_ask_copilot
  keeps_detect_project_context keeps_files_load_task_from_file
  keeps_asked_load_task_from_file keeps_service_load_task_from_file
  keeps_asked_create_template keeps_asked_save_prs keeps_service_save_prs
  : keeps.

Ltac quiet_step :=
  match goal with
  | |- quiet_on _ (bind _ _) => apply quiet_bind; [keeps_auto | intros ?]
  | |- quiet_on _ (GeneratePrsLog.save_prs _ _ _ _ _) =>
      apply quiet_of_never, never_raises_save_prs
  end.

Ltac reports_step :=
  match goal with
  | |- reports_failed_call (bind _ _) =>
      apply reports_bind; [| keeps_auto | intros ?]
  | |- reports_failed_call (GeneratePrsLog.ask_copilot _) =>
      apply reports_ask_copilot
  | |- reports_failed_call _ => apply reports_of_keeps; keeps_auto
  end.

Ltac grows_step :=
  match goal with
  | |- grows_asked (bind _ _) => apply grows_bind; [| intros ?]
  | |- grows_asked (GeneratePrsLog.ask_copilot _) => apply grows_ask_copilot
  | |- grows_asked _ => apply grows_of_keeps; keeps_auto
  end.

Lemma quiet_run_pipeline (task additional_context constraints : pyval) :
  quiet_on AssistantError
    (GeneratePrsLog.run_pipeline task additional_context constraints).
Proof. unfold GeneratePrsLog.run_pipeline. repeat quiet_step. Qed.

Lemma reports_run_pipeline (task additional_context constraints : pyval) :
  reports_failed_call
    (GeneratePrsLog.run_pipeline task additional_context constraints).
Proof. unfold GeneratePrsLog.run_pipeline. repeat reports_step. Qed.

Lemma quiet_main (args : GeneratePrsLog.arguments) :
  quiet_on AssistantError (GeneratePrsLog.main args).
Proof.
  unfold GeneratePrsLog.main.
  destruct (GeneratePrsLog.given (GeneratePrsLog.arg_template args)).
  - apply quiet_of_never, never_raises_create_template.
  - apply quiet_bind; [keeps_auto |].
    intros [[task additional_context] constraints]. apply quiet_run_pipeline.
Qed.

Lemma reports_main (args : GeneratePrsLog.arguments) :
  reports_failed_call (GeneratePrsLog.main args).
Proof.
  unfold GeneratePrsLog.main.
  destruct (GeneratePrsLog.given (GeneratePrsLog.arg_template args)).
  - apply reports_of_keeps. keeps_auto.
  - apply reports_bind; [apply reports_of_keeps; keeps_auto | keeps_auto |].
    intros [[task additional_context] constraints]. apply reports_run_pipeline.
Qed.

(** C1. With the project context detected and the four calls answered, the
    run makes exactly four calls, in this order: the initial prompt, then
    "Evaluate the reasoning: " followed by the first answer, then "Refactor
    the approach based on: " followed by the second answer, then the task
    text, "\n\nImproved strategy:\n" and the third answer; each answer is
    embedded as it came. *)
Theorem run_pipeline_four_calls (task_text : string)
        (additional_context constraints : pyval)
        (w : world) (ctx r1 r2 r3 r4 : string) :
  let p1 :=
    GeneratePrsLog.context_prompt ctx (VStr task_text) additional_context
                                  constraints in
  let p2 := "Evaluate the reasoning: " ++ r1 in
  let p3 := "Refactor the approach based on: " ++ r2 in
  let p4 := task_text ++ LF ++ LF ++ "Improved strategy:" ++ LF ++ r3 in
  fst (GeneratePrsLog.detect_project_context w) = Ok ctx ->
  service w (asked w ++ [p1]) = Some r1 ->
  service w (asked w ++ [p1; p2]) = Some r2 ->
  service w (asked w ++ [p1; p2; p3]) = Some r3 ->
  service w (asked w ++ [p1; p2; p3; p4]) = Some r4 ->
  asked (snd (GeneratePrsLog.run_pipeline (VStr task_text) additional_context
                                          constraints w)) =
  (asked w ++ [p1; p2; p3; p4])%list.
Proof.
  intros p1 p2 p3 p4 Hctx H1 H2 H3 H4.
  destruct (run_pipeline_answered (VStr task_text) additional_context
              constraints w ctx r1 r2 r3 r4 Hctx H1 H2 H3 H4)
    as (w4 & Hrun & Hasked & _).
  rewrite Hrun, keeps_asked_save_prs. exact Hasked.
Qed.

(** C7. A run in which a call to the assistant fails writes no log: when
    [main] ends with the assistant's failure, or when the latest prompt it
    sent got no answer, the files are what they were before the run. *)
Theorem no_log_when_a_call_fails (args : GeneratePrsLog.arguments)
        (w w' : world) (r : result unit) :
  GeneratePrsLog.main args w = (r, w') ->
  (r = Raise AssistantError -> files w' = files w) /\
  (asked w' <> asked w -> service w (asked w') = None ->
   r = Raise AssistantError /\ files w' = files w).
Proof.
  intros Hrun.
  assert (Hquiet : r = Raise AssistantError -> files w' = files w)
    by exact (quiet_main args w r w' Hrun).
  split; [exact Hquiet |].
  intros Hne Hnone.
  assert (Hr : r = Raise AssistantError)
    by exact (reports_main args w r w' Hrun Hne Hnone).
  split; [exact Hr | exact (Hquiet Hr)].
Qed.

(** C9. The first prompt the run sends is the detected project context
    under its heading, then the "Additional context" block, then the
    "Constraints" block, then the task text under "Task: "; each of the two
    blocks is there only when its field is true, and for a text field it is
    empty exactly when the text is empty. *)
Theorem initial_prompt_structure (task additional_context constraints : pyval)
        (w : world) (ctx : string) :
  let first_prompt :=
    "Given the following project context:" ++ LF ++ ctx ++
    optional_block "Additional context:" additional_context ++
    optional_block "Constraints:" constraints ++
    LF ++ LF ++ "Task: " ++ py_str task in
  fst (GeneratePrsLog.detect_project_context w) = Ok ctx ->
  (exists later,
      asked (snd (GeneratePrsLog.run_pipeline task additional_context
                                              constraints w)) =
      (asked w ++ first_prompt :: later)%list) /\
  (forall label text : string,
      optional_block label (VStr text) = "" <-> text = "").
Proof.
  intros first_prompt Hctx. split; [| apply optional_block_empty_iff].
  unfold first_prompt. rewrite <- context_prompt_blocks.
  pose proof (detect_project_context_read_only w) as Hro.
  destruct (GeneratePrsLog.detect_project_context w) as [rc w0] eqn:Hd.
  simpl in Hctx, Hro. subst rc w0.
  unfold GeneratePrsLog.run_pipeline.
  rewrite (bind_ok _ _ _ _ _ Hd).
  unfold bind at 1. unfold print at 1.
  unfold bind at 1. unfold print at 1.
  unfold bind at 1. unfold GeneratePrsLog.ask_copilot at 1. world_simpl.
  destruct (service w _) as [answer |].
  - match goal with |- context [snd (?k ?w1)] =>
      assert (Hg : grows_asked k) by (repeat grows_step);
      destruct (Hg w1) as [more Hmore]; rewrite Hmore
    end.
    world_simpl. exists more. now rewrite <- app_assoc.
  - world_simpl. now exists [].
Qed.

End Pipeline.

Lemma run_pipeline_four_calls_witness :
  asked (snd (@GeneratePrsLog.run_pipeline plain_runtime
                (VStr "ship it") (VStr "") (VStr "")
                (sample_world [] [Some "r1"; Some "r2"; Some "r3"; Some "r4"] []))) =
  ["Given the following project context:" ++ LF ++
   "No known project structure detected." ++ LF ++ LF ++ "Task: ship it";
   "Evaluate the reasoning: r1";
   "Refactor the approach based on: r2";
   "ship it" ++ LF ++ LF ++ "Improved strategy:" ++ LF ++ "r3"].
Proof.
  apply (@run_pipeline_four_calls plain_runtime "ship it"
           (VStr "") (VStr "")
           (sample_world [] [Some "r1"; Some "r2"; Some "r3"; Some "r4"] [])
           "No known project structure detected." "r1" "r2" "r3" "r4");
    reflexivity.
Defined.

Lemma no_log_when_a_call_fails_witness :
  fst (@GeneratePrsLog.main plain_runtime
         (GeneratePrsLog.mk_arguments None (Some "ship it") None)
         (sample_world [] [Some "r1"; None] [])) = Raise AssistantError /\
  files (snd (@GeneratePrsLog.main plain_runtime
                (GeneratePrsLog.mk_arguments None (Some "ship it") None)
                (sample_world [] [Some "r1"; None] []))) = [].
Proof.
  pose (args := GeneratePrsLog.mk_arguments None (Some "ship it") None).
  pose (w := sample_world [] [Some "r1"; None] []).
  destruct (@no_log_when_a_call_fails plain_runtime args w
              (snd (@GeneratePrsLog.main plain_runtime args w))
              (fst (@GeneratePrsLog.main plain_runtime args w)))
    as [_ Hfailed].
  - now destruct (@GeneratePrsLog.main plain_runtime args w).
  - apply Hfailed.
    + vm_compute. discriminate.
    + reflexivity.
Defined.

Lemma initial_prompt_structure_witness :
  exists later,
    asked (snd (@GeneratePrsLog.run_pipeline plain_runtime
                  (VStr "ship it") (VStr "") (VStr "keep it small")
                  (sample_world [] [Some "r1"; None] []))) =
    ("Given the following project context:" ++ LF ++
     "No known project structure detected." ++ LF ++ LF ++
     "Constraints:" ++ LF ++ "keep it small" ++ LF ++ LF ++
     "Task: ship it") :: later.
Proof.
  apply (@initial_prompt_structure plain_runtime (VStr "ship it") (VStr "")
           (VStr "keep it small") (sample_world [] [Some "r1"; None] [])
           "No known project structure detected.").
  reflexivity.
Defined.

(** ** Properties of task validation *)

Lemma key_is_task_iff (k : string) (v : pyval) :
  key_is k v = true <-> v = VStr k.
Proof.
  destruct v; simpl; try (split; [discriminate | intros H; discriminate H]).
  rewrite String.eqb_eq. split; [intros ->; reflexivity | intros H; now inversion H].
Qed.

Lemma dict_has_iff (d : list (pyval * pyval)) (k : string) :
  dict_has d k = true <-> exists v, In (VStr k, v) d.
Proof.
  unfold dict_has. rewrite existsb_exists. split.
  - intros [[key v] [Hin Hk]]. simpl in Hk. apply key_is_task_iff in Hk.
    subst key. now exists v.
  - intros [v Hin]. exists (VStr k, v). split; [assumption |].
    simpl. now apply String.eqb_refl.
Qed.

(** C3. [validate_task_data] turns a bare text into the mapping
    [{task: text}], returns a mapping that has the key ['task'] unchanged,
    fails with "Task file must contain a 'task' field" on a mapping without
    that key, and fails with "Invalid task file format" on every value that is
    neither a text nor a mapping. *)
Theorem validate_task_data_spec :
  (forall text : string,
      GeneratePrsLog.validate_task_data (VStr text) = Ok (VDict [(VStr "task", VStr text)])) /\
  (forall d : list (pyval * pyval),
      (exists v, In (VStr "task", v) d) ->
      GeneratePrsLog.validate_task_data (VDict d) = Ok (VDict d)) /\
  (forall d : list (pyval * pyval),
      (forall v, ~ In (VStr "task", v) d) ->
      GeneratePrsLog.validate_task_data (VDict d) =
      Raise (ValueError "Task file must contain a 'task' field")) /\
  (forall v : pyval,
      is_str v = false -> is_dict v = false ->
      GeneratePrsLog.validate_task_data v = Raise (ValueError "Invalid task file format")).
Proof.
  repeat split.
  - intros d Hex. apply dict_has_iff in Hex.
    unfold GeneratePrsLog.validate_task_data; simpl. now rewrite Hex.
  - intros d Hno. unfold GeneratePrsLog.validate_task_data; simpl.
    destruct (dict_has d "task") eqn:Hhas; [| reflexivity].
    apply dict_has_iff in Hhas. destruct Hhas as [v Hin]. now elim (Hno v).
  - intros v Hs Hd. destruct v; try reflexivity; discriminate.
Qed.

Lemma validate_task_data_spec_witness :
  GeneratePrsLog.validate_task_data (VDict [(VStr "context", VStr "c"); (VStr "task", VStr "t")]) =
    Ok (VDict [(VStr "context", VStr "c"); (VStr "task", VStr "t")]) /\
  GeneratePrsLog.validate_task_data (VDict [(VStr "context", VStr "c")]) =
    Raise (ValueError "Task file must contain a 'task' field") /\
  GeneratePrsLog.validate_task_data (VList [VStr "task"]) =
    Raise (ValueError "Invalid task file format").
Proof.
  destruct validate_task_data_spec as (_ & Hhas & Hmiss & Hshape).
  split; [| split].
  - apply Hhas. exists (VStr "t"). simpl. right. left. reflexivity.
  - apply Hmiss. intros v [H | []]. discriminate H.
  - apply Hshape; reflexivity.
Defined.

(** ** The context detector *)

Section Detector.
Context {rt : PyRuntime}.

(** C8. With none of the three manifests in the directory the detector
    returns the one sentence "No known project structure detected."; with
    only a [package.json] that holds the name "x" and the dependencies "a"
    and "b", it returns a text with "Detected Node.js project", "x" and
    "a, b", the dependencies in the order the file declares them. *)
Theorem detect_project_context_spec :
  (forall w : world,
      fs_lookup "package.json" (files w) = None ->
      fs_lookup "pubspec.yaml" (files w) = None ->
      fs_lookup "requirements.txt" (files w) = None ->
      GeneratePrsLog.detect_project_context w =
      (Ok "No known project structure detected.", w)) /\
  (forall (w : world) (text : string),
      read_text "package.json" (files w) = Some text ->
      json_load text =
      Some (VDict [(VStr "name", VStr "x");
                   (VStr "dependencies",
                    VDict [(VStr "a", VStr "1"); (VStr "b", VStr "2")])]) ->
      fs_lookup "pubspec.yaml" (files w) = None ->
      fs_lookup "requirements.txt" (files w) = None ->
      exists out : string,
        GeneratePrsLog.detect_project_context w = (Ok out, w) /\
        out = "Detected Node.js project (package.json):" ++ LF ++
              "  name: x" ++ LF ++ "  dependencies: a, b" /\
        contains "Detected Node.js project" out = true /\
        contains "x" out = true /\
        contains "a, b" out = true).
Proof.
  split.
  - intros w Hp Hy Hr.
    unfold GeneratePrsLog.detect_project_context, bind, path_exists.
    rewrite Hp; simpl. rewrite Hy; simpl. rewrite Hr; reflexivity.
  - intros w text Hp Hjson Hy Hr.
    eexists. split; [| split; [reflexivity |]].
    + destruct (read_text_present _ _ _ Hp) as [content Hraw].
      pose proof (read_text_open _ _ _ Hp) as Hopen.
      unfold GeneratePrsLog.detect_project_context, bind, path_exists,
        read_file.
      repeat (first [rewrite Hraw | rewrite Hopen | rewrite Hjson
                    | rewrite Hy | rewrite Hr];
              simpl).
      reflexivity.
    + repeat split; reflexivity.
Qed.

End Detector.

Lemma detect_project_context_spec_witness :
  @GeneratePrsLog.detect_project_context node_runtime
     (sample_world [("README.md", "hello")] [] []) =
  (Ok "No known project structure detected.",
   sample_world [("README.md", "hello")] [] []) /\
  exists out : string,
    @GeneratePrsLog.detect_project_context node_runtime
       (sample_world [("package.json", package_json_text)] [] []) =
    (Ok out, sample_world [("package.json", package_json_text)] [] []) /\
    out = "Detected Node.js project (package.json):" ++ LF ++
          "  name: x" ++ LF ++ "  dependencies: a, b" /\
    contains "Detected Node.js project" out = true /\
    contains "x" out = true /\
    contains "a, b" out = true.
Proof.
  destruct (@detect_project_context_spec node_runtime) as [Hnone Hnode].
  split.
  - apply Hnone; reflexivity.
  - apply (Hnode _ package_json_text); reflexivity.
Defined.

(** ** The log writer *)

Lemma strip_prefix_app (p rest : string) : strip_prefix p (p ++ rest) = Some rest.
Proof.
  induction p as [| c p IH]; simpl; [reflexivity |].
  now rewrite Ascii.eqb_refl.
Qed.

Lemma strip_prefix_sound (p s rest : string) :
  strip_prefix p s = Some rest -> s = p ++ rest.
Proof.
  revert s. induction p as [| c p IH]; intros s H; simpl in *.
  - now inversion H.
  - destruct s as [| d s]; [discriminate |].
    destruct (Ascii.eqb_spec c d) as [-> | Hne]; [| discriminate].
    now rewrite (IH s H).
Qed.

Lemma eqb_longer (s t : string) :
  String.length s <> String.length t -> String.eqb s t = false.
Proof. intros H. apply String.eqb_neq. intros ->. now elim H. Qed.

Lemma strip_suffix_app (suffix s : string) :
  strip_suffix suffix (s ++ suffix) = Some s.
Proof.
  induction s as [| c s IH]; simpl.
  - destruct suffix; simpl; [reflexivity |].
    now rewrite Ascii.eqb_refl, String.eqb_refl.
  - rewrite IH.
    destruct suffix as [| d suffix]; [reflexivity |].
    destruct (Ascii.eqb c d); [| reflexivity].
    rewrite eqb_longer; [reflexivity |].
    rewrite length_append. simpl. lia.
Qed.

Lemma split_at_unfold (sep s : string) :
  split_at sep s =
  match strip_prefix sep s with
  | Some rest => Some (EmptyString, rest)
  | None =>
      match s with
      | EmptyString => None
      | String c s' =>
          match split_at sep s' with
          | Some (before, rest) => Some (String c before, rest)
          | None => None
          end
      end
  end.
Proof. destruct s; reflexivity. Qed.

Lemma split_at_sound (sep s before rest : string) :
  split_at sep s = Some (before, rest) -> s = before ++ sep ++ rest.
Proof.
  revert before.
  induction s as [| c s IH]; intros before H; rewrite split_at_unfold in H.
  - destruct (strip_prefix sep "") as [r |] eqn:E; [| discriminate H].
    inversion H; subst. now apply strip_prefix_sound in E.
  - destruct (strip_prefix sep (String c s)) as [r |] eqn:E.
    + inversion H; subst. now apply strip_prefix_sound in E.
    + destruct (split_at sep s) as [[b r] |] eqn:E2; [| discriminate H].
      inversion H; subst. cbn [String.append]. f_equal. now apply IH.
Qed.

Lemma strip_suffix_unfold (suffix s : string) :
  strip_suffix suffix s =
  if String.eqb s suffix then Some EmptyString
  else
    match s with
    | EmptyString => None
    | String c s' =>
        match strip_suffix suffix s' with
        | Some before => Some (String c before)
        | None => None
        end
    end.
Proof. destruct s; reflexivity. Qed.

Lemma strip_suffix_sound (suffix s before : string) :
  strip_suffix suffix s = Some before -> s = before ++ suffix.
Proof.
  revert before.
  induction s as [| c s IH]; intros before H; rewrite strip_suffix_unfold in H.
  - destruct (String.eqb_spec "" suffix) as [<- | Hne]; [| discriminate H].
    now inversion H.
  - destruct (String.eqb_spec (String c s) suffix) as [<- | Hne].
    + now inversion H.
    + destruct (strip_suffix suffix s) as [b |] eqn:E; [| discriminate H].
      inversion H; subst. cbn [String.append]. f_equal. now apply IH.
Qed.

Lemma append_inv_head (p a b : string) : p ++ a = p ++ b -> a = b.
Proof.
  induction p as [| c p IH]; cbn [String.append]; intros H; [exact H |].
  apply IH. now inversion H.
Qed.

Lemma append_inv_tail (a b z : string) : a ++ z = b ++ z -> a = b.
Proof.
  revert b. induction a as [| c a IH]; intros [| d b] H;
    cbn [String.append] in H.
  - reflexivity.
  - apply (f_equal String.length) in H. cbn [String.length] in H.
    rewrite length_append in H. lia.
  - apply (f_equal String.length) in H. cbn [String.length] in H.
    rewrite length_append in H. lia.
  - inversion H; subst. f_equal. now apply IH.
Qed.

Lemma but_last_snoc (s : string) :
  s <> "" -> exists c : ascii, s = but_last s ++ String c "".
Proof.
  induction s as [| c s IH]; intros H; [now elim H |].
  destruct s as [| d s].
  - now exists c.
  - destruct IH as [l Hl]; [discriminate |].
    exists l. change (but_last (String c (String d s)))
      with (String c (but_last (String d s))).
    cbn [String.append]. now rewrite <- Hl.
Qed.

Lemma length_but_last (s : string) :
  s <> "" -> S (String.length (but_last s)) = String.length s.
Proof.
  intros H. destruct (but_last_snoc s H) as [l Hl].
  rewrite Hl at 2. rewrite length_append. cbn [String.length]. lia.
Qed.

Lemma starts_with_app_long (d x y : string) :
  String.length d <= String.length x ->
  starts_with d (x ++ y) = starts_with d x.
Proof.
  unfold starts_with. revert x.
  induction d as [| c d IH]; intros x Hlen; [reflexivity |].
  destruct x as [| e x]; cbn [String.length] in Hlen; [lia |].
  cbn [String.append strip_prefix].
  destruct (Ascii.eqb c e); [| reflexivity].
  apply IH. lia.
Qed.

Lemma starts_with_short (d x : string) :
  String.length x < String.length d -> starts_with d x = false.
Proof.
  unfold starts_with. revert x.
  induction d as [| c d IH]; intros x Hlen; cbn [String.length] in Hlen;
    [lia |].
  destruct x as [| e x]; [reflexivity |].
  cbn [strip_prefix String.length] in *.
  destruct (Ascii.eqb c e); [| reflexivity].
  apply IH. lia.
Qed.

Lemma contains_short (d x : string) :
  String.length x < String.length d -> contains d x = false.
Proof.
  induction x as [| e x IH]; intros Hlen; rewrite contains_unfold;
    rewrite (starts_with_short _ _ Hlen); [reflexivity |].
  apply IH. cbn [String.length] in Hlen. lia.
Qed.

(** Whether a block starts where a text starts that the block follows is
    settled before the block's last character. *)
Lemma starts_with_before (block text rest : string) :
  block <> "" -> text <> "" ->
  starts_with block (text ++ block ++ rest) =
  starts_with block (text ++ but_last block).
Proof.
  intros Hblock Htext.
  destruct (but_last_snoc block Hblock) as [l Hl].
  replace (text ++ block ++ rest)
    with ((text ++ but_last block) ++ String l rest).
  - apply starts_with_app_long.
    rewrite length_append. pose proof (length_but_last block Hblock).
    destruct text; [now elim Htext |]. cbn [String.length]. lia.
  - rewrite append_assoc. f_equal.
    replace (block ++ rest) with ((but_last block ++ String l "") ++ rest)
      by now rewrite <- Hl.
    now rewrite append_assoc.
Qed.

(** A block after a text is found where the text ends exactly when the text
    does not meet the block. *)
Lemma split_at_found (block text rest : string) :
  block <> "" ->
  meets_block block text = false ->
  split_at block (text ++ block ++ rest) = Some (text, rest).
Proof.
  intros Hblock. unfold meets_block.
  induction text as [| c text IH]; intros H.
  - cbn [String.append]. now rewrite split_at_unfold, strip_prefix_app.
  - cbn [String.append] in H. rewrite contains_unfold in H.
    apply orb_false_elim in H. destruct H as [Hhere Hlater].
    change (String c (text ++ but_last block))
      with (String c text ++ but_last block) in Hhere.
    rewrite <- (starts_with_before block (String c text) rest) in Hhere
      by (assumption || discriminate).
    unfold starts_with in Hhere.
    rewrite split_at_unfold.
    destruct (strip_prefix block (String c text ++ block ++ rest));
      [discriminate Hhere |].
    cbn [String.append]. now rewrite (IH Hlater).
Qed.

Lemma split_at_first (block text rest rest' : string) :
  block <> "" ->
  split_at block (text ++ block ++ rest) = Some (text, rest') ->
  meets_block block text = false.
Proof.
  intros Hblock. unfold meets_block.
  induction text as [| c text IH]; intros H.
  - cbn [String.append]. apply contains_short.
    pose proof (length_but_last block Hblock). lia.
  - cbn [String.append]. rewrite contains_unfold.
    change (String c (text ++ but_last block))
      with (String c text ++ but_last block).
    rewrite <- (starts_with_before block (String c text) rest)
      by (assumption || discriminate).
    rewrite split_at_unfold in H. unfold starts_with.
    destruct (strip_prefix block (String c text ++ block ++ rest));
      [discriminate H |].
    cbn [String.append] in H.
    destruct (split_at block (text ++ block ++ rest)) as [[b r] |] eqn:E;
      [| discriminate H].
    inversion H; subst. now apply IH.
Qed.

Lemma digit_code (n : Z) :
  N_of_ascii (digit n) = Z.to_N (48 + n mod 10).
Proof.
  unfold digit.
  pose proof (Z.mod_pos_bound n 10 ltac:(reflexivity)) as Hlt.
  apply N_ascii_embedding. lia.
Qed.

Lemma digit_is_digit (n : Z) : is_digit (digit n) = true.
Proof.
  unfold is_digit. rewrite digit_code.
  pose proof (Z.mod_pos_bound n 10 ltac:(reflexivity)) as Hlt.
  apply andb_true_intro. split; apply N.leb_le; lia.
Qed.

Lemma length_pad (width : nat) (n : Z) : String.length (pad width n) = width.
Proof.
  revert n. induction width as [| k IH]; intros n; [reflexivity |].
  cbn [pad]. rewrite length_append, IH. cbn [String.length]. lia.
Qed.

Lemma all_digits_app (a b : string) :
  all_digits (a ++ b) = all_digits a && all_digits b.
Proof.
  induction a as [| c a IH]; simpl; [reflexivity |].
  now rewrite IH, andb_assoc.
Qed.

Lemma all_digits_pad (width : nat) (n : Z) : all_digits (pad width n) = true.
Proof.
  revert n. induction width as [| k IH]; intros n; [reflexivity |].
  cbn [pad]. rewrite all_digits_app, IH.
  cbn [all_digits andb]. now rewrite digit_is_digit.
Qed.

Lemma fs_entry_store (path content : string) (fs : list (string * entry)) :
  fs_entry path (fs_store path content fs) = Some (regular content).
Proof.
  induction fs as [| [p e] fs IH]; simpl.
  - now rewrite String.eqb_refl.
  - destruct (String.eqb p path) eqn:E; simpl; now rewrite E.
Qed.

Lemma fs_lookup_store (path content : string) (fs : list (string * entry)) :
  fs_lookup path (fs_store path content fs) = Some content.
Proof. unfold fs_lookup. now rewrite fs_entry_store. Qed.

(** A file that was written can be read. *)
Lemma read_text_store (path content : string) (fs : list (string * entry)) :
  read_text path (fs_store path content fs) =
  Some (universal_newlines content).
Proof. unfold read_text, open_read. now rewrite fs_entry_store. Qed.

(** The name of a log: an eight-digit date, an underscore and a six-digit
    time between [prs_] and [.prompt.md]. *)
Lemma strftime_shape (t : datetime) :
  exists date time : string,
    GeneratePrsLog.strftime t = date ++ "_" ++ time /\
    String.length date = 8 /\ String.length time = 6 /\
    all_digits date = true /\ all_digits time = true.
Proof.
  exists (pad 4 (year t) ++ pad 2 (month t) ++ pad 2 (day t)).
  exists (pad 2 (hour t) ++ pad 2 (minute t) ++ pad 2 (second t)).
  unfold GeneratePrsLog.strftime.
  repeat rewrite length_append. repeat rewrite all_digits_app.
  repeat rewrite length_pad. repeat rewrite all_digits_pad.
  repeat rewrite append_assoc. repeat split; reflexivity.
Qed.

Lemma heading_block_nonempty (heading : string) : heading_block heading <> "".
Proof. discriminate. Qed.

(** What the reader gets back from a log: the five texts exactly when none
    of the first four meets the block of the heading that follows it, the
    task not that of its own heading either, which follows the task in the
    title line. *)
Lemma read_sections_inv (content task reasoning evaluation adaptation result
                         : string) :
  read_sections content =
  Some (task, reasoning, evaluation, adaptation, result) ->
  exists title after_task after_reasoning after_evaluation after_adaptation,
    content = "# PRS Prompt - " ++ title ++ heading_block "Task" ++ after_task /\
    split_at (heading_block "Task")
             (title ++ heading_block "Task" ++ after_task) =
    Some (title, after_task) /\
    after_task = task ++ heading_block "Reasoning" ++ after_reasoning /\
    split_at (heading_block "Reasoning") after_task =
    Some (task, after_reasoning) /\
    after_reasoning =
    reasoning ++ heading_block "Evaluation" ++ after_evaluation /\
    split_at (heading_block "Evaluation") after_reasoning =
    Some (reasoning, after_evaluation) /\
    after_evaluation =
    evaluation ++ heading_block "Adaptation" ++ after_adaptation /\
    split_at (heading_block "Adaptation") after_evaluation =
    Some (evaluation, after_adaptation) /\
    after_adaptation =
    adaptation ++ heading_block "Final Output Summary" ++
    result ++ LF ++ LF ++ "# [GOD MODE: ON]" ++ LF /\
    split_at (heading_block "Final Output Summary") after_adaptation =
    Some (adaptation, result ++ LF ++ LF ++ "# [GOD MODE: ON]" ++ LF).
Proof.
  unfold read_sections. intros H.
  destruct (strip_prefix "# PRS Prompt - " content) as [y0 |] eqn:E0;
    [| discriminate H].
  change (LF ++ LF ++ "## Task" ++ LF) with (heading_block "Task") in H.
  change (LF ++ LF ++ "## Reasoning" ++ LF)
    with (heading_block "Reasoning") in H.
  change (LF ++ LF ++ "## Evaluation" ++ LF)
    with (heading_block "Evaluation") in H.
  change (LF ++ LF ++ "## Adaptation" ++ LF)
    with (heading_block "Adaptation") in H.
  change (LF ++ LF ++ "## Final Output Summary" ++ LF)
    with (heading_block "Final Output Summary") in H.
  destruct (split_at (heading_block "Task") y0) as [[x y1] |] eqn:E1;
    [| discriminate H].
  destruct (split_at (heading_block "Reasoning") y1) as [[t y2] |] eqn:E2;
    [| discriminate H].
  destruct (split_at (heading_block "Evaluation") y2) as [[r y3] |] eqn:E3;
    [| discriminate H].
  destruct (split_at (heading_block "Adaptation") y3) as [[e y4] |] eqn:E4;
    [| discriminate H].
  destruct (split_at (heading_block "Final Output Summary") y4)
    as [[a y5] |] eqn:E5; [| discriminate H].
  destruct (strip_suffix (LF ++ LF ++ "# [GOD MODE: ON]" ++ LF) y5)
    as [f |] eqn:E6; [| discriminate H].
  inversion H; subst t r e a f. clear H.
  apply strip_prefix_sound in E0.
  apply strip_suffix_sound in E6.
  pose proof (split_at_sound _ _ _ _ E1) as S1.
  pose proof (split_at_sound _ _ _ _ E2) as S2.
  pose proof (split_at_sound _ _ _ _ E3) as S3.
  pose proof (split_at_sound _ _ _ _ E4) as S4.
  pose proof (split_at_sound _ _ _ _ E5) as S5.
  exists x, y1, y2, y3, y4.
  subst y5.
  repeat match goal with |- _ /\ _ => split end;
    try assumption.
  - now rewrite E0, S1.
  - now rewrite <- S1.
Qed.

Lemma read_sections_log_content
      (task reasoning evaluation adaptation result : string) :
  read_sections
    (GeneratePrsLog.log_content task reasoning evaluation adaptation result) =
  Some (task, reasoning, evaluation, adaptation, result) <->
  meets_block (heading_block "Task") task = false /\
  meets_block (heading_block "Reasoning") task = false /\
  meets_block (heading_block "Evaluation") reasoning = false /\
  meets_block (heading_block "Adaptation") evaluation = false /\
  meets_block (heading_block "Final Output Summary") adaptation = false.
Proof.
  assert (Hshape : forall rest : string,
    GeneratePrsLog.log_content task reasoning evaluation adaptation result =
    "# PRS Prompt - " ++ task ++ heading_block "Task" ++
    task ++ heading_block "Reasoning" ++
    reasoning ++ heading_block "Evaluation" ++
    evaluation ++ heading_block "Adaptation" ++
    adaptation ++ heading_block "Final Output Summary" ++
    result ++ LF ++ LF ++ "# [GOD MODE: ON]" ++ LF) by reflexivity.
  specialize (Hshape "").
  split.
  - intros H.
    destruct (read_sections_inv _ _ _ _ _ _ H)
      as (x & y1 & y2 & y3 & y4 & C & E1 & S2 & E2 & S3 & E3 & S4 & E4 &
          S5 & E5).
    rewrite S5 in S4, E5. rewrite S4 in S3, E4. rewrite S3 in S2, E3.
    rewrite S2 in C, E1, E2.
    rewrite Hshape in C. apply append_inv_head in C.
    rewrite <- (append_assoc task), <- (append_assoc x) in C.
    rewrite <- (append_assoc (task ++ _)), <- (append_assoc (x ++ _)) in C.
    assert (Hx : x = task).
    { symmetry.
      apply (append_inv_tail _ _ (heading_block "Task" ++ task ++
               heading_block "Reasoning" ++ reasoning ++
               heading_block "Evaluation" ++ evaluation ++
               heading_block "Adaptation" ++ adaptation ++
               heading_block "Final Output Summary" ++
               result ++ LF ++ LF ++ "# [GOD MODE: ON]" ++ LF)).
      repeat rewrite append_assoc in C. repeat rewrite append_assoc.
      exact C. }
    subst x.
    repeat split;
      eapply split_at_first;
      try apply heading_block_nonempty; eassumption.
  - intros (H1 & H2 & H3 & H4 & H5).
    rewrite Hshape. unfold read_sections. rewrite strip_prefix_app.
    change (LF ++ LF ++ "## Task" ++ LF) with (heading_block "Task").
    change (LF ++ LF ++ "## Reasoning" ++ LF)
      with (heading_block "Reasoning").
    change (LF ++ LF ++ "## Evaluation" ++ LF)
      with (heading_block "Evaluation").
    change (LF ++ LF ++ "## Adaptation" ++ LF)
      with (heading_block "Adaptation").
    change (LF ++ LF ++ "## Final Output Summary" ++ LF)
      with (heading_block "Final Output Summary").
    rewrite (split_at_found _ _ _ (heading_block_nonempty _) H1).
    rewrite (split_at_found _ _ _ (heading_block_nonempty _) H2).
    rewrite (split_at_found _ _ _ (heading_block_nonempty _) H3).
    rewrite (split_at_found _ _ _ (heading_block_nonempty _) H4).
    rewrite (split_at_found _ _ _ (heading_block_nonempty _) H5).
    change (result ++ LF ++ LF ++ "# [GOD MODE: ON]" ++ LF)
      with (result ++ (LF ++ LF ++ "# [GOD MODE: ON]" ++ LF)).
    now rewrite strip_suffix_app.
Qed.

Lemma universal_newlines_id (s : string) :
  has_cr s = false -> universal_newlines s = s.
Proof.
  induction s as [| c s IH]; intros H; [reflexivity |].
  cbn [has_cr] in H. apply orb_false_elim in H. destruct H as [Hc Hs].
  cbn [universal_newlines]. rewrite Hc. now rewrite (IH Hs).
Qed.

Lemma has_cr_app (a b : string) : has_cr (a ++ b) = has_cr a || has_cr b.
Proof.
  induction a as [| c a IH]; [reflexivity |].
  cbn [String.append has_cr]. now rewrite IH, orb_assoc.
Qed.

(** A text read from a file holds no carriage return. *)
Lemma has_cr_universal_newlines (s : string) :
  has_cr (universal_newlines s) = false.
Proof.
  assert (H : forall (n : nat) (t : string),
             String.length t <= n -> has_cr (universal_newlines t) = false).
  { induction n as [| n IH]; intros t Hlen.
    - destruct t; [reflexivity | cbn [String.length] in Hlen; lia].
    - destruct t as [| c t]; [reflexivity |].
      cbn [String.length] in Hlen. cbn [universal_newlines].
      destruct (Ascii.eqb c "013"%char) eqn:Ec.
      + destruct t as [| d t]; [reflexivity |].
        cbn [String.length] in Hlen.
        destruct (Ascii.eqb d "010"%char); cbn [has_cr Ascii.eqb Bool.eqb orb];
          apply IH; cbn [String.length]; lia.
      + cbn [has_cr]. rewrite Ec. apply IH. lia. }
  now apply (H (String.length s)).
Qed.

Lemma has_cr_log_content (task reasoning evaluation adaptation result : string) :
  has_cr (GeneratePrsLog.log_content task reasoning evaluation adaptation
                                     result) =
  has_cr task || has_cr reasoning || has_cr evaluation || has_cr adaptation ||
  has_cr result.
Proof.
  unfold GeneratePrsLog.log_content.
  repeat rewrite has_cr_app.
  change (has_cr "# PRS Prompt - ") with false.
  change (has_cr LF) with false.
  change (has_cr "## Task") with false.
  change (has_cr "## Reasoning") with false.
  change (has_cr "## Evaluation") with false.
  change (has_cr "## Adaptation") with false.
  change (has_cr "## Final Output Summary") with false.
  change (has_cr "# [GOD MODE: ON]") with false.
  cbn [orb].
  repeat rewrite orb_false_r.
  destruct (has_cr task), (has_cr reasoning), (has_cr evaluation),
    (has_cr adaptation), (has_cr result); reflexivity.
Qed.

Lemma log_content_blocks (task reasoning evaluation adaptation result : string) :
  GeneratePrsLog.log_content task reasoning evaluation adaptation result =
  "# PRS Prompt - " ++ task ++ LF ++
  section_block "Task" task ++
  section_block "Reasoning" reasoning ++
  section_block "Evaluation" evaluation ++
  section_block "Adaptation" adaptation ++
  section_block "Final Output Summary" result ++
  LF ++ "# [GOD MODE: ON]" ++ LF.
Proof.
  unfold GeneratePrsLog.log_content, section_block, LF.
  cbn [String.append]. repeat rewrite append_assoc.
  cbn [String.append]. reflexivity.
Qed.

(** The five texts come back from the file read again exactly when none
    holds a carriage return and none of the first four meets the block of
    the next heading. *)
Lemma read_sections_reread
      (task reasoning evaluation adaptation result : string) :
  read_sections
    (universal_newlines
       (GeneratePrsLog.log_content task reasoning evaluation adaptation
                                   result)) =
  Some (task, reasoning, evaluation, adaptation, result) <->
  (has_cr task = false /\ has_cr reasoning = false /\
   has_cr evaluation = false /\ has_cr adaptation = false /\
   has_cr result = false) /\
  meets_block (heading_block "Task") task = false /\
  meets_block (heading_block "Reasoning") task = false /\
  meets_block (heading_block "Evaluation") reasoning = false /\
  meets_block (heading_block "Adaptation") evaluation = false /\
  meets_block (heading_block "Final Output Summary") adaptation = false.
Proof.
  assert (Hclean :
    has_cr task = false /\ has_cr reasoning = false /\
    has_cr evaluation = false /\ has_cr adaptation = false /\
    has_cr result = false ->
    universal_newlines
      (GeneratePrsLog.log_content task reasoning evaluation adaptation
                                  result) =
    GeneratePrsLog.log_content task reasoning evaluation adaptation result).
  { intros (Ct & Cr & Ce & Ca & Cf). apply universal_newlines_id.
    rewrite has_cr_log_content, Ct, Cr, Ce, Ca, Cf. reflexivity. }
  split.
  - intros H.
    assert (Hcr :
      has_cr task = false /\ has_cr reasoning = false /\
      has_cr evaluation = false /\ has_cr adaptation = false /\
      has_cr result = false).
    { destruct (read_sections_inv _ _ _ _ _ _ H)
        as (x & y1 & y2 & y3 & y4 & C & _ & S2 & _ & S3 & _ & S4 & _ &
            S5 & _).
      pose proof (has_cr_universal_newlines
                    (GeneratePrsLog.log_content task reasoning evaluation
                                                adaptation result)) as Hno.
      rewrite C, S2, S3, S4, S5 in Hno.
      repeat rewrite has_cr_app in Hno.
      repeat (apply orb_false_elim in Hno;
              let Ha := fresh "Ha" in destruct Hno as [Ha Hno]).
      repeat split; assumption. }
    split; [exact Hcr |].
    rewrite (Hclean Hcr) in H.
    exact (proj1 (read_sections_log_content _ _ _ _ _) H).
  - intros [Hcr Hmeets].
    rewrite (Hclean Hcr).
    exact (proj2 (read_sections_log_content _ _ _ _ _) Hmeets).
Qed.

(** C2, as the code has it.  Where the file can be written, [save_prs]
    stores under [.github/prompts/prs_<date>_<time>.prompt.md], with an
    eight-digit date and a six-digit time taken from the clock, the title
    line, the five texts verbatim in their sections Task, Reasoning,
    Evaluation, Adaptation and Final Output Summary, and the trailing marker
    line; reading the file again and taking its sections returns the five
    texts exactly when none of them holds a carriage return and none of the
    first four meets the block of the heading that follows it in the file
    (for the task, the Task heading after the title line and the Reasoning
    heading). *)
Theorem save_prs_log_entry
        (task reasoning evaluation adaptation result : string) (w : world) :
  let filename := GeneratePrsLog.log_filename (GeneratePrsLog.strftime (clock w)) in
  let content :=
    GeneratePrsLog.log_content task reasoning evaluation adaptation result in
  let saved :=
    GeneratePrsLog.save_prs task reasoning evaluation adaptation result w in
  writable w filename = true ->
  (exists date time : string,
      filename = ".github/prompts/prs_" ++ date ++ "_" ++ time ++ ".prompt.md" /\
      String.length date = 8 /\ String.length time = 6 /\
      all_digits date = true /\ all_digits time = true) /\
  fst saved = Ok tt /\
  fs_lookup filename (files (snd saved)) = Some content /\
  read_text filename (files (snd saved)) = Some (universal_newlines content) /\
  content =
    "# PRS Prompt - " ++ task ++ LF ++
    section_block "Task" task ++
    section_block "Reasoning" reasoning ++
    section_block "Evaluation" evaluation ++
    section_block "Adaptation" adaptation ++
    section_block "Final Output Summary" result ++
    LF ++ "# [GOD MODE: ON]" ++ LF /\
  (read_sections (universal_newlines content) =
   Some (task, reasoning, evaluation, adaptation, result) <->
   (has_cr task = false /\ has_cr reasoning = false /\
    has_cr evaluation = false /\ has_cr adaptation = false /\
    has_cr result = false) /\
   meets_block (heading_block "Task") task = false /\
   meets_block (heading_block "Reasoning") task = false /\
   meets_block (heading_block "Evaluation") reasoning = false /\
   meets_block (heading_block "Adaptation") evaluation = false /\
   meets_block (heading_block "Final Output Summary") adaptation = false).
Proof.
  intros filename content saved Hw.
  assert (Hfiles : files (snd saved) = fs_store filename content (files w)).
  { unfold saved. rewrite save_prs_run. fold filename. rewrite Hw.
    reflexivity. }
  split; [| split; [| split; [| split; [| split]]]].
  - destruct (strftime_shape (clock w)) as (date & time & Hts & Hshape).
    exists date, time. split; [| exact Hshape].
    unfold filename, GeneratePrsLog.log_filename. rewrite Hts.
    now repeat rewrite append_assoc.
  - unfold saved. rewrite save_prs_run. fold filename. now rewrite Hw.
  - rewrite Hfiles. apply fs_lookup_store.
  - rewrite Hfiles. apply read_text_store.
  - apply log_content_blocks.
  - apply read_sections_reread.
Qed.

Lemma save_prs_log_entry_witness :
  fs_lookup ".github/prompts/prs_20240102_030405.prompt.md"
    (files (snd (GeneratePrsLog.save_prs
                   "ship it" ("Plan:" ++ LF ++ "# Step 1" ++ LF ++ "do it")
                   "fine" "adapt" "done"
                   (sample_world [] [] [])))) =
  Some (GeneratePrsLog.log_content
          "ship it" ("Plan:" ++ LF ++ "# Step 1" ++ LF ++ "do it")
          "fine" "adapt" "done") /\
  read_sections
    (universal_newlines
       (GeneratePrsLog.log_content
          "ship it" ("Plan:" ++ LF ++ "# Step 1" ++ LF ++ "do it")
          "fine" "adapt" "done")) =
  Some ("ship it", "Plan:" ++ LF ++ "# Step 1" ++ LF ++ "do it",
        "fine", "adapt", "done").
Proof.
  destruct (save_prs_log_entry
              "ship it" ("Plan:" ++ LF ++ "# Step 1" ++ LF ++ "do it")
              "fine" "adapt" "done"
              (sample_world [] [] []) eq_refl)
    as (_ & _ & Hstored & _ & _ & Hread).
  split; [exact Hstored | apply Hread; repeat split; reflexivity].
Defined.

(** C2 as stated fails: a reasoning text that holds the Evaluation heading
    gives the same file as another split of the same lines between the two
    sections, so no way of taking the sections from the file read again
    returns every input; and a carriage return in a text is read back as a
    line feed, so two texts that differ there read the same. *)
Lemma log_round_trip_fails :
  GeneratePrsLog.log_content
    "t" ("x" ++ LF ++ LF ++ "## Evaluation" ++ LF ++ "y") "z" "a" "f" =
  GeneratePrsLog.log_content
    "t" "x" ("y" ++ LF ++ LF ++ "## Evaluation" ++ LF ++ "z") "a" "f" /\
  universal_newlines
    (GeneratePrsLog.log_content
       "t" ("x" ++ String "013"%char "y") "z" "a" "f") =
  universal_newlines
    (GeneratePrsLog.log_content "t" ("x" ++ LF ++ "y") "z" "a" "f") /\
  ~ (exists read : string -> option (string * string * string * string * string),
        forall task reasoning evaluation adaptation result : string,
          read (universal_newlines
                  (GeneratePrsLog.log_content task reasoning evaluation
                                              adaptation result)) =
          Some (task, reasoning, evaluation, adaptation, result)).
Proof.
  assert (Hsame :
    GeneratePrsLog.log_content
      "t" ("x" ++ LF ++ LF ++ "## Evaluation" ++ LF ++ "y") "z" "a" "f" =
    GeneratePrsLog.log_content
      "t" "x" ("y" ++ LF ++ LF ++ "## Evaluation" ++ LF ++ "z") "a" "f")
    by reflexivity.
  split; [exact Hsame | split; [vm_compute; reflexivity |]].
  intros [read Hread].
  pose proof (Hread "t" ("x" ++ LF ++ LF ++ "## Evaluation" ++ LF ++ "y")
                    "z" "a" "f") as H1.
  pose proof (Hread "t" "x" ("y" ++ LF ++ LF ++ "## Evaluation" ++ LF ++ "z")
                    "a" "f") as H2.
  rewrite Hsame, H2 in H1. discriminate H1.
Qed.

(** ** The log browser *)

Lemma set_console_id (w : world) : set_console (console w) w = w.
Proof. now destruct w. Qed.

Lemma set_console_set_console (c1 c2 : list event) (w : world) :
  set_console c2 (set_console c1 w) = set_console c2 w.
Proof. reflexivity. Qed.

Lemma set_console_set_stdin (c : list event) (i : list string) (w : world) :
  set_console c (set_stdin i w) = set_stdin i (set_console c w).
Proof. reflexivity. Qed.

Lemma set_stdin_set_stdin (i1 i2 : list string) (w : world) :
  set_stdin i2 (set_stdin i1 w) = set_stdin i2 w.
Proof. reflexivity. Qed.

Lemma for_each_print {X : Type} (body : X -> M unit) (line : X -> string)
      (xs : list X) (w : world) :
  (forall x, body x = print (line x)) ->
  for_each xs body w =
  (Ok tt, set_console (console w ++ map (fun x => Print (line x)) xs) w).
Proof.
  intros Hbody. revert w. induction xs as [| x xs IH]; intros w; simpl.
  - now rewrite app_nil_r, set_console_id.
  - unfold bind. rewrite Hbody. unfold print at 1. rewrite IH.
    world_simpl. unfold set_console. world_simpl.
    now rewrite <- app_assoc.
Qed.

Lemma list_logs_run (w : world) :
  PrsMemoryCli.list_logs w =
  (Ok (sorted (log_paths w)),
   set_console (console w ++ listing (sorted (log_paths w))) w).
Proof.
  unfold PrsMemoryCli.list_logs, bind, glob. fold (log_paths w).
  rewrite (for_each_print _ listing_line); [reflexivity |].
  now intros [i f].
Qed.

(** *** Sorting *)

Lemma leb_trans (a b c : string) :
  String.leb a b = true -> String.leb b c = true -> String.leb a c = true.
Proof.
  unfold String.leb. revert b c.
  induction a as [| x a IH]; intros [| y b] [| z c];
    cbn [String.compare]; try easy.
  unfold Ascii.compare.
  destruct (N.compare_spec (N_of_ascii x) (N_of_ascii y)) as [Hxy | Hxy | Hxy];
    destruct (N.compare_spec (N_of_ascii y) (N_of_ascii z)) as [Hyz | Hyz | Hyz];
    destruct (N.compare_spec (N_of_ascii x) (N_of_ascii z)) as [Hxz | Hxz | Hxz];
    try easy; try lia.
  apply IH.
Qed.

Lemma insert_sorted_perm (x : string) (l : list string) :
  Permutation (insert_sorted x l) (x :: l).
Proof.
  induction l as [| y l IH]; simpl; [reflexivity |].
  destruct (String.leb x y); [reflexivity |].
  rewrite IH. apply perm_swap.
Qed.

Lemma sorted_perm (l : list string) : Permutation (sorted l) l.
Proof.
  induction l as [| x l IH]; simpl; [reflexivity |].
  rewrite insert_sorted_perm. now constructor.
Qed.

Lemma insert_sorted_sorted (x : string) (l : list string) :
  StronglySorted name_le l -> StronglySorted name_le (insert_sorted x l).
Proof.
  induction l as [| y l IH]; intros Hs; simpl.
  - constructor; constructor.
  - inversion Hs as [| y' l' Hl Hy]; subst.
    destruct (String.leb x y) eqn:Hxy.
    + constructor; [exact Hs |].
      constructor; [exact Hxy |].
      eapply Forall_impl; [| exact Hy].
      intros z Hz. now apply (leb_trans x y z).
    + constructor; [now apply IH |].
      rewrite insert_sorted_perm. constructor; [| exact Hy].
      destruct (String.leb_total x y) as [H | H]; [congruence | exact H].
Qed.

Lemma sorted_sorted (l : list string) : StronglySorted name_le (sorted l).
Proof.
  induction l as [| x l IH]; simpl; [constructor |].
  now apply insert_sorted_sorted.
Qed.

(** *** The order of the log names *)

Lemma compare_refl (s : string) : String.compare s s = Eq.
Proof.
  induction s as [| c s IH]; cbn [String.compare]; [reflexivity |].
  unfold Ascii.compare. now rewrite N.compare_refl.
Qed.

Lemma lex_eq_r (c : comparison) : lex c Eq = c.
Proof. now destruct c. Qed.

Lemma compare_app_same_length (a a' b b' : string) :
  String.length a = String.length a' ->
  String.compare (a ++ b) (a' ++ b') =
  lex (String.compare a a') (String.compare b b').
Proof.
  revert a'. induction a as [| x a IH]; intros [| y a'] Hlen;
    try discriminate Hlen.
  - reflexivity.
  - cbn [String.append String.compare].
    destruct (Ascii.compare x y); try reflexivity.
    apply IH. now inversion Hlen.
Qed.

Lemma compare_digit (a b : Z) :
  Ascii.compare (digit a) (digit b) = Z.compare (a mod 10) (b mod 10).
Proof.
  unfold Ascii.compare. rewrite !digit_code.
  pose proof (Z.mod_pos_bound a 10 ltac:(reflexivity)) as Ha.
  pose proof (Z.mod_pos_bound b 10 ltac:(reflexivity)) as Hb.
  rewrite Z2N.inj_compare by lia.
  apply Z.add_compare_mono_l.
Qed.

Lemma compare_div_mod (a b : Z) :
  lex (Z.compare (a / 10) (b / 10)) (Z.compare (a mod 10) (b mod 10)) =
  Z.compare a b.
Proof.
  pose proof (Z.div_mod a 10 ltac:(discriminate)) as Ha.
  pose proof (Z.div_mod b 10 ltac:(discriminate)) as Hb.
  pose proof (Z.mod_pos_bound a 10 ltac:(reflexivity)) as Hma.
  pose proof (Z.mod_pos_bound b 10 ltac:(reflexivity)) as Hmb.
  destruct (Z.compare_spec (a / 10) (b / 10));
    destruct (Z.compare_spec (a mod 10) (b mod 10));
    destruct (Z.compare_spec a b); cbn [lex]; try reflexivity; lia.
Qed.

(** Numbers written on the same width compare as texts the way they
    compare as numbers. *)
Lemma compare_pad (width : nat) (a b : Z) :
  (0 <= a < 10 ^ Z.of_nat width)%Z -> (0 <= b < 10 ^ Z.of_nat width)%Z ->
  String.compare (pad width a) (pad width b) = Z.compare a b.
Proof.
  revert a b. induction width as [| k IH]; intros a b Ha Hb.
  - cbn in Ha, Hb. assert (a = b) as -> by lia.
    now rewrite Z.compare_refl.
  - cbn [pad].
    rewrite compare_app_same_length by now rewrite !length_pad.
    rewrite Nat2Z.inj_succ, Z.pow_succ_r in Ha, Hb by lia.
    rewrite IH by (split; [apply Z.div_pos | apply Z.div_lt_upper_bound]; lia).
    cbn [String.compare]. rewrite compare_digit.
    rewrite <- (compare_div_mod a b).
    now destruct (a mod 10 ?= b mod 10)%Z.
Qed.

Lemma valid_datetime_bounds (t : datetime) :
  valid_datetime t ->
  (0 <= year t < 10 ^ Z.of_nat 4 /\ 0 <= month t < 10 ^ Z.of_nat 2 /\
   0 <= day t < 10 ^ Z.of_nat 2 /\ 0 <= hour t < 10 ^ Z.of_nat 2 /\
   0 <= minute t < 10 ^ Z.of_nat 2 /\ 0 <= second t < 10 ^ Z.of_nat 2)%Z.
Proof.
  unfold valid_datetime.
  change (10 ^ Z.of_nat 4)%Z with 10000%Z.
  change (10 ^ Z.of_nat 2)%Z with 100%Z. lia.
Qed.

(** The names of two logs compare the way their timestamps do. *)
Lemma log_filename_compare (t1 t2 : datetime) :
  valid_datetime t1 -> valid_datetime t2 ->
  String.compare (GeneratePrsLog.log_filename (GeneratePrsLog.strftime t1))
                 (GeneratePrsLog.log_filename (GeneratePrsLog.strftime t2)) =
  datetime_compare t1 t2.
Proof.
  intros H1 H2.
  apply valid_datetime_bounds in H1. apply valid_datetime_bounds in H2.
  destruct H1 as (Hy1 & Hm1 & Hd1 & Hh1 & Hi1 & Hs1).
  destruct H2 as (Hy2 & Hm2 & Hd2 & Hh2 & Hi2 & Hs2).
  unfold GeneratePrsLog.log_filename, GeneratePrsLog.strftime, datetime_compare.
  repeat rewrite append_assoc.
  repeat (rewrite compare_app_same_length
            by (rewrite ?length_pad; reflexivity)).
  repeat rewrite compare_pad by assumption.
  repeat rewrite compare_refl. cbn [lex].
  now rewrite lex_eq_r.
Qed.

Lemma sorted_pair (a b : string) (l : list string) :
  String.leb a b = true -> Permutation l [a; b] -> sorted l = [a; b].
Proof.
  intros Hab Hperm. apply Permutation_sym, Permutation_length_2_inv in Hperm.
  destruct Hperm as [-> | ->]; simpl.
  - now rewrite Hab.
  - destruct (String.leb b a) eqn:Hba; [| reflexivity].
    now rewrite (String.leb_antisym a b Hab Hba).
Qed.

Section Browser.
Context {rt : PyRuntime}.

(** C4. [list_logs] returns the matching paths sorted by name, each printed
    with its 1-based number; the names of two logs are in that order
    exactly when their timestamps are in chronological order; a directory
    with just the logs of 2024-01-01 and 2024-01-02 (midnight) is listed in
    that order. *)
Theorem list_logs_chronological :
  (forall w : world,
      exists paths : list string,
        PrsMemoryCli.list_logs w =
        (Ok paths, set_console (console w ++ listing paths) w) /\
        StronglySorted name_le paths /\
        Permutation paths (log_paths w)) /\
  (forall t1 t2 : datetime,
      valid_datetime t1 -> valid_datetime t2 ->
      (name_le (GeneratePrsLog.log_filename (GeneratePrsLog.strftime t1))
               (GeneratePrsLog.log_filename (GeneratePrsLog.strftime t2)) <->
       datetime_compare t1 t2 <> Gt)) /\
  (forall w : world,
      Permutation (log_paths w)
                  [".github/prompts/prs_20240101_000000.prompt.md";
                   ".github/prompts/prs_20240102_000000.prompt.md"] ->
      PrsMemoryCli.list_logs w =
      (Ok [".github/prompts/prs_20240101_000000.prompt.md";
           ".github/prompts/prs_20240102_000000.prompt.md"],
       set_console
         (console w ++
          [Print "[1] .github/prompts/prs_20240101_000000.prompt.md";
           Print "[2] .github/prompts/prs_20240102_000000.prompt.md"]) w)).
Proof.
  split; [| split].
  - intros w. exists (sorted (log_paths w)).
    split; [apply list_logs_run |].
    split; [apply sorted_sorted | apply sorted_perm].
  - intros t1 t2 H1 H2. unfold name_le, String.leb.
    rewrite (log_filename_compare t1 t2 H1 H2).
    destruct (datetime_compare t1 t2); split; congruence.
  - intros w Hperm. rewrite list_logs_run.
    rewrite (sorted_pair ".github/prompts/prs_20240101_000000.prompt.md"
               ".github/prompts/prs_20240102_000000.prompt.md"
               (log_paths w) eq_refl Hperm).
    reflexivity.
Qed.

End Browser.

Lemma list_logs_chronological_witness :
  name_le
    (GeneratePrsLog.log_filename
       (GeneratePrsLog.strftime (mk_datetime 2024 1 1 23 59 59)))
    (GeneratePrsLog.log_filename
       (GeneratePrsLog.strftime (mk_datetime 2024 1 2 0 0 0))) /\
  fst (PrsMemoryCli.list_logs
         (sample_world
            [(".github/prompts/prs_20240102_000000.prompt.md", "second");
             (".github/prompts/notes.md", "other");
             (".github/prompts/prs_20240101_000000.prompt.md", "first")]
            [] [])) =
  Ok [".github/prompts/prs_20240101_000000.prompt.md";
      ".github/prompts/prs_20240102_000000.prompt.md"].
Proof.
  destruct list_logs_chronological as (_ & Horder & Hpair).
  split.
  - apply Horder.
    + unfold valid_datetime; simpl; lia.
    + unfold valid_datetime; simpl; lia.
    + discriminate.
  - rewrite Hpair; [reflexivity |]. apply perm_swap.
Defined.

(** *** Searching *)





Section Searching.
Context {rt : PyRuntime}.


(** The loop over the entries found reads each of them: it gives the
    entries that mention the keyword when all can be read. *)
Lemma matching_run (keyword : string) (found : list string) (w : world) :
  (forall path, In path found ->
                exists text, read_text path (files w) = Some text) ->
  PrsMemoryCli.matching keyword found w =
  (Ok (filter (mentions w keyword) found), w).
Proof.
  induction found as [| f found IH]; intros Hin; [reflexivity |].
  cbn [PrsMemoryCli.matching filter]. unfold bind at 1, mentions at 1.
  destruct (Hin f (or_introl eq_refl)) as [text Htext].
  rewrite (read_file_text _ _ _ Htext), Htext.
  unfold bind at 1. rewrite IH by (intros p Hp; apply Hin; now right).
  reflexivity.
Qed.

Lemma search_logs_run (keyword : string) (w : world) :
  logs_readable w ->
  PrsMemoryCli.search_logs keyword w =
  (Ok tt,
   set_console
     (console w ++ map Print (filter (mentions w keyword) (log_paths w))) w).
Proof.
  intros Hread.
  unfold PrsMemoryCli.search_logs, bind at 1, glob. fold (log_paths w).
  unfold bind. rewrite matching_run by exact Hread.
  now apply for_each_print.
Qed.

Lemma deploy_logs_readable : logs_readable (sample_world deploy_logs [] []).
Proof.
  intros path Hin. vm_compute in Hin.
  destruct Hin as [<- | [<- | [<- | []]]]; eexists; vm_compute; reflexivity.
Qed.


End Searching.


(** *** Viewing *)

Lemma view_log_run (index : Z) (w : world) :
  PrsMemoryCli.view_log index w =
  let paths := sorted (log_paths w) in
  let listed := set_console (console w ++ listing paths) w in
  if ((0 <=? index) && (index <? Z.of_nat (List.length paths)))%Z then
    match nth_error paths (Z.to_nat index) with
    | Some path =>
        match open_read path (files w) with
        | Ok text =>
            (Ok tt,
             set_console (console w ++ listing paths ++ [Print text]) w)
        | Raise e => (Raise e, listed)
        end
    | None => (Raise IndexError, listed)
    end
  else
    (Ok tt,
     set_console (console w ++ listing paths ++ [Print "Invalid index."]) w).
Proof.
  unfold PrsMemoryCli.view_log, bind. rewrite list_logs_run.
  cbv zeta.
  destruct ((0 <=? index) && (index <? Z.of_nat _))%Z.
  - destruct (nth_error _ _) as [path |]; [| reflexivity].
    unfold read_file. world_simpl.
    destruct (open_read path (files w)); [| reflexivity].
    unfold print, set_console. world_simpl. now rewrite <- app_assoc.
  - unfold print, set_console. world_simpl. now rewrite <- app_assoc.
Qed.

Section Viewing.
Context {rt : PyRuntime}.

(** C6, as the code has it.  [view_log] takes a position counted from 0 in
    the sorted listing, and the menu passes the number the user entered
    minus one.  It prints the numbered listing first; then, for a position
    inside the listing, the whole content of the entry there when it can be
    read (and what reading it raises passes on after the listing when it
    cannot), and for any other position (below 0, or not below the number
    of logs) "Invalid index.", without an exception and without any other
    change to the world. *)
Theorem view_log_zero_based (w : world) (index : Z) :
  let paths := sorted (log_paths w) in
  ((0 <= index < Z.of_nat (List.length paths))%Z ->
   exists path : string,
     nth_error paths (Z.to_nat index) = Some path /\
     (forall text : string,
         read_text path (files w) = Some text ->
         PrsMemoryCli.view_log index w =
         (Ok tt,
          set_console (console w ++ listing paths ++ [Print text]) w)) /\
     (read_text path (files w) = None ->
      exists e : exn,
        PrsMemoryCli.view_log index w =
        (Raise e, set_console (console w ++ listing paths) w))) /\
  ((index < 0 \/ Z.of_nat (List.length paths) <= index)%Z ->
   PrsMemoryCli.view_log index w =
   (Ok tt,
    set_console (console w ++ listing paths ++ [Print "Invalid index."]) w)) /\
  (forall (entry : string) (n : Z) (rest : list string),
      stdin w = "2" :: entry :: rest ->
      py_int entry = Some n ->
      PrsMemoryCli.menu_turn w =
      bind (PrsMemoryCli.view_log (n - 1)) (fun _ => ret true)
           (set_stdin rest
              (set_console
                 (console w ++ menu ++ [Prompt "Choose: "; Prompt "Index: "])
                 w))).
Proof.
  intros paths. split; [| split].
  - intros Hin.
    assert (Hrange :
      ((0 <=? index) && (index <? Z.of_nat (List.length paths)))%Z = true)
      by (apply andb_true_intro; split;
          [apply Z.leb_le | apply Z.ltb_lt]; lia).
    destruct (nth_error paths (Z.to_nat index)) as [path |] eqn:Hnth.
    + exists path. split; [reflexivity |]. split.
      * intros text Htext. rewrite view_log_run. fold paths. cbv zeta.
        now rewrite Hrange, Hnth, (read_text_open _ _ _ Htext).
      * intros Hnone. rewrite view_log_run. fold paths. cbv zeta.
        rewrite Hrange, Hnth. unfold read_text in Hnone.
        destruct (open_read path (files w)) as [text | e];
          [discriminate Hnone | now exists e].
    + apply nth_error_None in Hnth. lia.
  - intros Hout. rewrite view_log_run. fold paths. cbv zeta.
    replace ((0 <=? index) && (index <? Z.of_nat (List.length paths)))%Z
      with false; [reflexivity |].
    symmetry. apply andb_false_iff.
    destruct Hout; [left; apply Z.leb_gt | right; apply Z.ltb_ge]; lia.
  - intros entry n rest Hstdin Hint.
    unfold PrsMemoryCli.menu_turn.
    do 5 (unfold bind at 1; unfold print at 1).
    unfold bind at 1. unfold input at 1. world_simpl. rewrite Hstdin.
    cbn [String.eqb Ascii.eqb Bool.eqb].
    unfold bind at 1. unfold input at 1. world_simpl.
    unfold bind at 1. unfold PrsMemoryCli.int. rewrite Hint. unfold ret at 1.
    repeat rewrite set_console_set_console.
    rewrite set_console_set_stdin, set_stdin_set_stdin.
    repeat rewrite set_console_set_console.
    unfold menu. repeat rewrite <- app_assoc. reflexivity.
Qed.

End Viewing.

Lemma view_log_zero_based_witness :
  console (snd (PrsMemoryCli.view_log 0 (sample_world two_logs [] []))) =
  [Print "[1] .github/prompts/prs_20240101_000000.prompt.md";
   Print "[2] .github/prompts/prs_20240102_000000.prompt.md";
   Print "first"] /\
  PrsMemoryCli.view_log 5 (sample_world two_logs [] []) =
  (Ok tt,
   set_console
     [Print "[1] .github/prompts/prs_20240101_000000.prompt.md";
      Print "[2] .github/prompts/prs_20240102_000000.prompt.md";
      Print "Invalid index."]
     (sample_world two_logs [] [])) /\
  fst (@PrsMemoryCli.menu_turn plain_runtime
         (sample_world two_logs [] ["2"; "1"])) = Ok true.
Proof.
  split; [| split].
  - destruct (@view_log_zero_based plain_runtime
                (sample_world two_logs [] []) 0) as (Hin & _ & _).
    assert (Hrange :
      (0 <= 0 < Z.of_nat (List.length
                            (sorted (log_paths (sample_world two_logs [] [])))))%Z)
      by (vm_compute; split; congruence).
    destruct (Hin Hrange) as (path & Hnth & Hrun & _).
    inversion Hnth; subst path.
    rewrite (Hrun "first" eq_refl). reflexivity.
  - destruct (@view_log_zero_based plain_runtime
                (sample_world two_logs [] []) 5) as (_ & Hout & _).
    rewrite Hout; [reflexivity |]. right. vm_compute. congruence.
  - destruct (@view_log_zero_based plain_runtime
                (sample_world two_logs [] ["2"; "1"]) 0) as (_ & _ & Hmenu).
    rewrite (Hmenu "1" 1%Z [] eq_refl eq_refl). reflexivity.
Defined.

(** C6 as stated fails on a directory with two logs.  The number 2 that the
    listing shows for the second log is out of range for [view_log], which
    shows that log for the position 1; and for an index out of range the
    error message comes after the whole listing. *)
Lemma view_log_one_based_fails :
  console (snd (PrsMemoryCli.view_log 2 (sample_world two_logs [] []))) =
  [Print "[1] .github/prompts/prs_20240101_000000.prompt.md";
   Print "[2] .github/prompts/prs_20240102_000000.prompt.md";
   Print "Invalid index."] /\
  console (snd (PrsMemoryCli.view_log 1 (sample_world two_logs [] []))) =
  [Print "[1] .github/prompts/prs_20240101_000000.prompt.md";
   Print "[2] .github/prompts/prs_20240102_000000.prompt.md";
   Print "second"] /\
  console (snd (PrsMemoryCli.view_log 5 (sample_world two_logs [] []))) <>
  [Print "Invalid index."].
Proof. split; [reflexivity | split; [reflexivity | discriminate]]. Qed.

(** ** Writer and reader agree on the names *)

Lemma fnmatch_star (pat a b : string) :
  fnmatch pat b = true -> fnmatch (String "*"%char pat) (a ++ b) = true.
Proof.
  intros Hb. induction a as [| c a IH].
  - destruct b; cbn; cbn in Hb; now rewrite Hb.
  - cbn in IH |- *. rewrite IH. apply orb_true_r.
Qed.

Lemma fnmatch_literal (c : ascii) (pat s : string) :
  c <> "*"%char -> fnmatch (String c pat) (String c s) = fnmatch pat s.
Proof.
  intros Hc. cbn [fnmatch].
  apply Ascii.eqb_neq in Hc. rewrite Hc.
  now rewrite Ascii.eqb_refl, orb_true_r.
Qed.

Lemma starts_with_char (c x : ascii) (rest : string) :
  starts_with (String c EmptyString) (String x rest) = Ascii.eqb c x.
Proof. unfold starts_with. cbn [strip_prefix]. now destruct (Ascii.eqb c x). Qed.

Lemma contains_char_app (c : ascii) (a b : string) :
  contains (String c EmptyString) (a ++ b) =
  contains (String c EmptyString) a || contains (String c EmptyString) b.
Proof.
  induction a as [| x a IH].
  - reflexivity.
  - cbn [String.append]. rewrite (contains_unfold _ (String x (a ++ b))).
    rewrite (contains_unfold _ (String x a)).
    rewrite !starts_with_char, IH. now rewrite orb_assoc.
Qed.

Lemma all_digits_no_slash (s : string) :
  all_digits s = true -> contains "/" s = false.
Proof.
  induction s as [| c s IH]; intros H; [reflexivity |].
  cbn [all_digits] in H. apply andb_true_iff in H. destruct H as [Hc Hs].
  rewrite contains_unfold, starts_with_char, (IH Hs).
  destruct (Ascii.eqb_spec "/"%char c) as [<- | Hne]; [discriminate Hc | reflexivity].
Qed.

Lemma strftime_no_slash (t : datetime) :
  contains "/" (GeneratePrsLog.strftime t) = false.
Proof.
  destruct (strftime_shape t) as (date & time & -> & _ & _ & Hd & Ht).
  rewrite !contains_char_app.
  now rewrite (all_digits_no_slash _ Hd), (all_digits_no_slash _ Ht).
Qed.

(** Every name the writer composes matches the pattern of the readers. *)
Lemma glob_match_log_filename (t : datetime) :
  glob_match ".github/prompts" "prs_*.prompt.md"
             (GeneratePrsLog.log_filename (GeneratePrsLog.strftime t)) = true.
Proof.
  pose proof (strftime_no_slash t) as Hslash.
  unfold glob_match, GeneratePrsLog.log_filename.
  generalize dependent (GeneratePrsLog.strftime t). intros ts Hslash.
  change (".github/prompts/prs_" ++ ts ++ ".prompt.md")
    with ((".github/prompts" ++ "/") ++ "prs_" ++ ts ++ ".prompt.md").
  rewrite strip_prefix_app.
  apply andb_true_intro. split.
  - rewrite !contains_char_app, Hslash. reflexivity.
  - change ("prs_" ++ ts ++ ".prompt.md")
      with (String "p" (String "r" (String "s" (String "_"
              (ts ++ ".prompt.md"))))).
    change "prs_*.prompt.md"
      with (String "p" (String "r" (String "s" (String "_"
              (String "*" ".prompt.md"))))).
    rewrite !fnmatch_literal by discriminate.
    now apply fnmatch_star.
Qed.

Lemma fs_store_in (path content : string) (fs : list (string * entry)) :
  In path (map fst (fs_store path content fs)).
Proof.
  induction fs as [| [p c] fs IH]; simpl; [now left |].
  destruct (String.eqb_spec p path) as [-> | Hne]; simpl; [now left | now right].
Qed.

Lemma save_prs_files (task reasoning evaluation adaptation result : string)
      (w : world) :
  fst (GeneratePrsLog.save_prs task reasoning evaluation adaptation result w) =
  Ok tt ->
  files (snd (GeneratePrsLog.save_prs task reasoning evaluation adaptation
                                      result w)) =
  fs_store (GeneratePrsLog.log_filename (GeneratePrsLog.strftime (clock w)))
           (GeneratePrsLog.log_content task reasoning evaluation adaptation
                                       result)
           (files w).
Proof.
  rewrite save_prs_run. cbv zeta.
  destruct (writable w _); [reflexivity | discriminate].
Qed.

Section Agreement.
Context {rt : PyRuntime}.

(** C10. Every name the writer composes matches the pattern
    [.github/prompts/prs_*.prompt.md] of the three readers; so a log that
    was saved is among the paths the readers enumerate, [list_logs] returns
    it, [view_log] shows its content at its position in the listing, and,
    where the other log entries can be read as well, [search_logs] prints
    its path for every keyword whose lowered text its lowered content
    holds. *)
Theorem saved_log_is_listed
        (task reasoning evaluation adaptation result : string) (w : world) :
  let filename := GeneratePrsLog.log_filename (GeneratePrsLog.strftime (clock w)) in
  let content :=
    GeneratePrsLog.log_content task reasoning evaluation adaptation result in
  let saved :=
    snd (GeneratePrsLog.save_prs task reasoning evaluation adaptation result w) in
  fst (GeneratePrsLog.save_prs task reasoning evaluation adaptation result w) =
  Ok tt ->
  glob_match ".github/prompts" "prs_*.prompt.md" filename = true /\
  In filename (log_paths saved) /\
  (exists paths : list string,
      fst (PrsMemoryCli.list_logs saved) = Ok paths /\ In filename paths) /\
  (exists index : nat,
      nth_error (sorted (log_paths saved)) index = Some filename /\
      PrsMemoryCli.view_log (Z.of_nat index) saved =
      (Ok tt,
       set_console
         (console saved ++ listing (sorted (log_paths saved)) ++
          [Print (universal_newlines content)])
         saved)) /\
  (forall keyword : string,
      logs_readable saved ->
      contains (py_lower keyword) (py_lower (universal_newlines content)) =
      true ->
      In (Print filename)
         (console (snd (PrsMemoryCli.search_logs keyword saved)))).
Proof.
  intros filename content saved Hok.
  pose proof (glob_match_log_filename (clock w)) as Hmatch. fold filename in Hmatch.
  pose proof (save_prs_files _ _ _ _ _ w Hok) as Hfiles.
  fold saved filename content in Hfiles.
  assert (Hstored : read_text filename (files saved) =
                    Some (universal_newlines content))
    by (rewrite Hfiles; apply read_text_store).
  assert (Hpaths : In filename (log_paths saved)).
  { unfold log_paths. apply filter_In. split; [| exact Hmatch].
    rewrite Hfiles. apply fs_store_in. }
  assert (Hsorted : In filename (sorted (log_paths saved)))
    by (apply (Permutation_in filename (Permutation_sym (sorted_perm _)));
        exact Hpaths).
  split; [exact Hmatch |]. split; [exact Hpaths |]. split; [| split].
  - exists (sorted (log_paths saved)). now rewrite list_logs_run.
  - destruct (In_nth_error _ _ Hsorted) as [index Hnth].
    exists index. split; [exact Hnth |].
    rewrite view_log_run. cbv zeta.
    rewrite Nat2Z.id, Hnth, (read_text_open _ _ _ Hstored).
    assert (Hlt : index < List.length (sorted (log_paths saved)))
      by (apply nth_error_Some; congruence).
    replace ((0 <=? Z.of_nat index) &&
             (Z.of_nat index <? Z.of_nat (List.length (sorted (log_paths saved)))))%Z
      with true; [reflexivity |].
    symmetry. apply andb_true_intro.
    split; [apply Z.leb_le | apply Z.ltb_lt]; lia.
  - intros keyword Hread Hocc. rewrite (search_logs_run _ _ Hread). world_simpl.
    apply in_or_app. right. apply in_map. apply filter_In.
    split; [exact Hpaths |].
    unfold mentions. now rewrite Hstored.
Qed.

End Agreement.

Lemma saved_log_is_listed_witness :
  fst (PrsMemoryCli.list_logs
         (snd (GeneratePrsLog.save_prs "ship it" "think" "fine" "adapt" "done"
                 (sample_world two_logs [] [])))) =
  Ok [".github/prompts/prs_20240101_000000.prompt.md";
      ".github/prompts/prs_20240102_000000.prompt.md";
      ".github/prompts/prs_20240102_030405.prompt.md"] /\
  In (Print ".github/prompts/prs_20240102_030405.prompt.md")
     (console (snd (@PrsMemoryCli.search_logs plain_runtime "THINK"
                      (snd (GeneratePrsLog.save_prs
                              "ship it" "think" "fine" "adapt" "done"
                              (sample_world two_logs [] [])))))).
Proof.
  destruct (@saved_log_is_listed plain_runtime
              "ship it" "think" "fine" "adapt" "done"
              (sample_world two_logs [] []) eq_refl)
    as (_ & _ & _ & _ & Hsearch).
  split; [reflexivity |].
  apply Hsearch.
  - intros path Hin. vm_compute in Hin.
    destruct Hin as [<- | [<- | [<- | []]]]; eexists; vm_compute; reflexivity.
  - vm_compute. reflexivity.
Defined.

(** ** The menu loop *)

Section Menu.
Context {rt : PyRuntime}.

Lemma keeps_stdin_print (text : string) : keeps stdin (print text).
Proof. intros w. reflexivity. Qed.

#[local] Hint Resolve keeps_stdin_print : keeps.

Lemma keeps_stdin_matching (keyword : string) (found : list string) :
  keeps stdin (PrsMemoryCli.matching keyword found).
Proof.
  induction found as [| f found IH]; cbn [PrsMemoryCli.matching]; keeps_auto.
Qed.

#[local] Hint Resolve keeps_stdin_matching : keeps.

Lemma keeps_stdin_list_logs : keeps stdin PrsMemoryCli.list_logs.
Proof. unfold PrsMemoryCli.list_logs. keeps_auto. Qed.

#[local] Hint Resolve keeps_stdin_list_logs : keeps.

Lemma keeps_stdin_view_log (index : Z) : keeps stdin (PrsMemoryCli.view_log index).
Proof. unfold PrsMemoryCli.view_log. keeps_auto. Qed.

Lemma keeps_stdin_search_logs (keyword : string) :
  keeps stdin (PrsMemoryCli.search_logs keyword).
Proof. unfold PrsMemoryCli.search_logs. keeps_auto. Qed.

#[local] Hint Resolve keeps_stdin_view_log keeps_stdin_search_logs : keeps.

Lemma consumes_of_keeps {X : Type} (m : M X) : keeps stdin m -> consumes_stdin m.
Proof. intros Hk w. now rewrite Hk. Qed.

Lemma consumes_bind {X Y : Type} (m : M X) (k : X -> M Y) :
  consumes_stdin m -> (forall x, consumes_stdin (k x)) ->
  consumes_stdin (bind m k).
Proof.
  intros Hm Hk w. unfold bind. specialize (Hm w).
  destruct (m w) as [[x | e] w1]; simpl in *; [| exact Hm].
  specialize (Hk x w1). lia.
Qed.

Lemma consumes_input (prompt : string) : consumes_stdin (input prompt).
Proof.
  intros w. unfold input.
  destruct (stdin w) as [| line rest] eqn:E; world_simpl; rewrite ?E; simpl; lia.
Qed.

Ltac consumes_step :=
  match goal with
  | |- consumes_stdin (bind _ _) => apply consumes_bind; [| intros ?]
  | |- consumes_stdin (input _) => apply consumes_input
  | |- consumes_stdin (if ?b then _ else _) => destruct b
  | |- consumes_stdin (match ?x with _ => _ end) => destruct x
  | |- consumes_stdin _ => apply consumes_of_keeps; keeps_auto
  end.

(** A turn of the menu that does not raise takes at least the line of the
    choice from the standard input. *)
Lemma menu_turn_takes_a_line (w w' : world) (again : bool) :
  PrsMemoryCli.menu_turn w = (Ok again, w') ->
  List.length (stdin w') < List.length (stdin w).
Proof.
  unfold PrsMemoryCli.menu_turn.
  do 5 (unfold bind at 1; unfold print at 1).
  unfold bind at 1. unfold input at 1. world_simpl.
  destruct (stdin w) as [| choice rest] eqn:Hstdin; [discriminate |].
  match goal with |- ?k ?w1 = _ -> _ =>
    assert (Hk : consumes_stdin k)
      by (unfold PrsMemoryCli.int; repeat consumes_step);
    intros Hrun; specialize (Hk w1); rewrite Hrun in Hk
  end.
  simpl in Hk |- *. lia.
Qed.

(** The loop of [main] ends, by the exit choice or by an exception, within
    one turn per line of the standard input and one more. *)
Lemma main_ends (fuel : nat) (w : world) :
  List.length (stdin w) < fuel ->
  exists (r : result unit) (w' : world), PrsMemoryCli.main fuel w = Some (r, w').
Proof.
  revert w. induction fuel as [| fuel IH]; intros w Hfuel; [lia |].
  cbn [PrsMemoryCli.main].
  destruct (PrsMemoryCli.menu_turn w) as [[[|] | e] w1] eqn:Hturn.
  - apply IH. apply menu_turn_takes_a_line in Hturn. lia.
  - now exists (Ok tt), w1.
  - now exists (Raise e), w1.
Qed.

End Menu.

(** * Further properties of the scripts *)

(** ** Loading and validating a task *)

Section Loading.
Context {rt : PyRuntime}.

(** X1. [load_task_from_file] either returns the loaded value and changes
    nothing, or prints one line "Error loading task file: ..." and exits
    with status 1: a missing file or a malformed one never raises anything
    else, and the files stay as they were. *)
Theorem load_task_from_file_value_or_exit (filepath : string) (w : world) :
  (exists v : pyval, GeneratePrsLog.load_task_from_file filepath w = (Ok v, w)) \/
  (exists e : exn,
      GeneratePrsLog.load_task_from_file filepath w =
      (Raise (SystemExit 1),
       set_console
         (console w ++ [Print ("Error loading task file: " ++ exn_text e)]) w)).
Proof.
  unfold GeneratePrsLog.load_task_from_file, try_except, bind, read_file.
  destruct (open_read filepath (files w)) as [text | e] eqn:Hopen.
  - destruct (ends_with ".yaml" filepath || ends_with ".yml" filepath).
    + unfold parsed. destruct (yaml_safe_load text) as [v |].
      * left. now exists v.
      * right. now exists ParseError.
    + destruct (ends_with ".json" filepath).
      * unfold parsed. destruct (json_load text) as [v |].
        -- left. now exists v.
        -- right. now exists ParseError.
      * left. now eexists.
  - right. destruct (open_read_raises _ _ _ Hopen) as [-> | ->].
    + now exists (OSError filepath).
    + now exists UnicodeDecodeError.
Qed.

Lemma lstrip_head (s : string) : head_is_space (lstrip s) = false.
Proof.
  induction s as [| c s IH]; [reflexivity |].
  cbn [lstrip]. destruct (is_space c) eqn:Hc; [exact IH |].
  cbn [head_is_space]. exact Hc.
Qed.

Lemma rstrip_head (s : string) :
  head_is_space s = false -> head_is_space (rstrip s) = false.
Proof.
  destruct s as [| c s]; [reflexivity |].
  cbn [head_is_space rstrip]. intros Hc.
  destruct (rstrip s); [now rewrite Hc |]; exact Hc.
Qed.

Lemma rstrip_last (s : string) : last_is_space (rstrip s) = false.
Proof.
  induction s as [| c s IH]; [reflexivity |].
  cbn [rstrip]. destruct (rstrip s) as [| d r] eqn:Hr.
  - destruct (is_space c) eqn:Hc; [reflexivity |].
    cbn [last_is_space]. exact Hc.
  - exact IH.
Qed.

Lemma lstrip_id (s : string) : head_is_space s = false -> lstrip s = s.
Proof.
  destruct s as [| c s]; [reflexivity |].
  cbn [head_is_space lstrip]. now intros ->.
Qed.

Lemma rstrip_id (s : string) : last_is_space s = false -> rstrip s = s.
Proof.
  induction s as [| c s IH]; [reflexivity |].
  destruct s as [| d s].
  - cbn [last_is_space rstrip]. now intros ->.
  - intros H. change (last_is_space (String d s) = false) in H.
    cbn [rstrip] in IH |- *. now rewrite (IH H).
Qed.

(** What [strip] returns has no white space at either end, and stripping it
    again changes nothing. *)
Lemma strip_clean (s : string) :
  head_is_space (strip s) = false /\ last_is_space (strip s) = false /\
  strip (strip s) = strip s.
Proof.
  assert (Hh : head_is_space (strip s) = false)
    by (apply rstrip_head, lstrip_head).
  assert (Hl : last_is_space (strip s) = false) by apply rstrip_last.
  repeat split; try assumption.
  unfold strip at 1. now rewrite (lstrip_id _ Hh), (rstrip_id _ Hl).
Qed.

(** X2. A readable file whose name ends neither in [.yaml], [.yml] nor
    [.json] is taken as plain text: where its text is made of ASCII
    characters, loading it and validating the result gives the mapping whose
    only field [task] is the text of the file without the white space around
    it, so the task never starts or ends with white space. *)
Theorem load_plain_text_task (filepath text : string) (w : world) :
  ends_with ".yaml" filepath = false ->
  ends_with ".yml" filepath = false ->
  ends_with ".json" filepath = false ->
  read_text filepath (files w) = Some text ->
  is_ascii text = true ->
  bind (GeneratePrsLog.load_task_from_file filepath)
       (fun task_data => lift (GeneratePrsLog.validate_task_data task_data)) w =
  (Ok (VDict [(VStr "task", VStr (strip text))]), w) /\
  head_is_space (strip text) = false /\
  last_is_space (strip text) = false.
Proof.
  intros Hyaml Hyml Hjson Hread _.
  destruct (strip_clean text) as (Hh & Hl & _).
  split; [| split; assumption].
  unfold GeneratePrsLog.load_task_from_file, try_except, bind, read_file.
  now rewrite (read_text_open _ _ _ Hread), Hyaml, Hyml, Hjson.
Qed.

Lemma existsb_find {X : Type} (f : X -> bool) (l : list X) :
  existsb f l = true -> exists x, find f l = Some x.
Proof.
  induction l as [| y l IH]; simpl; [discriminate |].
  destruct (f y); [now exists y | exact IH].
Qed.

(** X3. A value that passed [validate_task_data] is a mapping with the key
    [task]: taking its [task] cannot fail, reading an optional field with
    [get] cannot fail, and validating it again returns it unchanged. *)
Theorem validated_task_has_task (task_data valid : pyval) :
  GeneratePrsLog.validate_task_data task_data = Ok valid ->
  (exists task : pyval, py_index valid "task" = Ok task) /\
  (forall (key : string) (default : pyval),
      exists value : pyval, py_get valid key default = Ok value) /\
  GeneratePrsLog.validate_task_data valid = Ok valid.
Proof.
  unfold GeneratePrsLog.validate_task_data.
  destruct task_data as [| b | z | s | l | d | t x]; try discriminate.
  - intros H. inversion H; subst valid. repeat split.
    + now exists (VStr s).
    + intros key default. now eexists.
  - destruct (dict_has d "task") eqn:Hhas; [| discriminate].
    intros H. inversion H; subst valid. repeat split.
    + unfold py_index. destruct (existsb_find _ _ Hhas) as [e ->].
      now exists (snd e).
    + intros key default. now eexists.
    + cbn. now rewrite Hhas.
Qed.

End Loading.

Lemma load_plain_text_task_witness :
  bind (@GeneratePrsLog.load_task_from_file plain_runtime "task.txt")
       (fun task_data => lift (GeneratePrsLog.validate_task_data task_data))
       (sample_world [("task.txt", "  ship it " ++ LF)] [] []) =
  (Ok (VDict [(VStr "task", VStr "ship it")]),
   sample_world [("task.txt", "  ship it " ++ LF)] [] []).
Proof.
  exact (proj1 (@load_plain_text_task plain_runtime "task.txt"
                  ("  ship it " ++ LF)
                  (sample_world [("task.txt", "  ship it " ++ LF)] [] [])
                  eq_refl eq_refl eq_refl eq_refl eq_refl)).
Defined.

Lemma validated_task_has_task_witness :
  py_index (VDict [(VStr "context", VStr "c"); (VStr "task", VStr "t")]) "task" =
  Ok (VStr "t").
Proof.
  destruct (validated_task_has_task
              (VDict [(VStr "context", VStr "c"); (VStr "task", VStr "t")])
              (VDict [(VStr "context", VStr "c"); (VStr "task", VStr "t")])
              eq_refl) as [[task Htask] _].
  rewrite Htask. f_equal. cbn in Htask. now inversion Htask.
Defined.

(** ** Frames of the two scripts *)

#[local] Hint Extern 3 (keeps _ (print _)) => (intros ?; reflexivity) : keeps.
#[local] Hint Extern 3 (keeps _ (input _)) =>
  (let w := fresh "w" in
   intros w; unfold input; destruct (stdin w); reflexivity) : keeps.
#[local] Hint Extern 3 (keeps _ (write_file _ _)) =>
  (let w := fresh "w" in
   intros w; unfold write_file; destruct (writable w _); reflexivity) : keeps.
#[local] Hint Extern 3 (keeps _ (GeneratePrsLog.ask_copilot _)) =>
  (let w := fresh "w" in
   intros w; unfold GeneratePrsLog.ask_copilot;
   destruct (service w _); reflexivity) : keeps.
#[local] Hint Extern 3 (keeps _ GeneratePrsLog.detect_project_context) =>
  apply keeps_detect_project_context : keeps.
#[local] Hint Extern 4 (keeps _ (GeneratePrsLog.save_prs _ _ _ _ _)) =>
  (unfold GeneratePrsLog.save_prs; keeps_auto) : keeps.
#[local] Hint Extern 4 (keeps _ (GeneratePrsLog.load_task_from_file _)) =>
  (unfold GeneratePrsLog.load_task_from_file; keeps_auto) : keeps.
#[local] Hint Extern 4 (keeps _ (GeneratePrsLog.create_template _)) =>
  (unfold GeneratePrsLog.create_template; keeps_auto) : keeps.
#[local] Hint Extern 4 (keeps _ (GeneratePrsLog.run_pipeline _ _ _)) =>
  (unfold GeneratePrsLog.run_pipeline; keeps_auto) : keeps.

Lemma fs_lookup_store_other (path other content : string)
      (fs : list (string * entry)) :
  other <> path ->
  fs_lookup other (fs_store path content fs) = fs_lookup other fs.
Proof.
  intros Hne. unfold fs_lookup.
  assert (H : fs_entry other (fs_store path content fs) = fs_entry other fs).
  { induction fs as [| [p c] fs IH]; simpl.
    - destruct (String.eqb_spec path other) as [-> | _];
        [now elim Hne | reflexivity].
    - destruct (String.eqb_spec p path) as [-> | Hp]; simpl.
      + destruct (String.eqb_spec path other) as [-> | _];
          [now elim Hne | reflexivity].
      + now rewrite IH. }
  now rewrite H.
Qed.

(** ** Writing a template *)

Section Template.
Context {rt : PyRuntime}.

Lemma create_template_run (template_path : string) (w : world) :
  let dump :=
    if ends_with ".json" template_path
    then json_dump GeneratePrsLog.template_content
    else yaml_dump GeneratePrsLog.template_content in
  GeneratePrsLog.create_template template_path w =
  if writable w template_path then
    (Ok tt,
     set_console
       (console w ++
        [Print ("✅ Template created: " ++ template_path);
         Print "Edit the file and run with --file flag to process it."])
       (set_files (fs_store template_path dump (files w)) w))
  else
    (Ok tt,
     set_console
       (console w ++
        [Print ("❌ Error creating template: " ++ exn_text (OSError template_path))])
       w).
Proof.
  intros dump.
  unfold GeneratePrsLog.create_template, try_except, bind, write_file.
  destruct (ends_with ".json" template_path); subst dump;
    destruct (writable w template_path); try reflexivity;
    unfold print, set_console; world_simpl; now rewrite <- app_assoc.
Qed.

(** X4. [create_template] never raises: where the file can be written it
    stores the JSON text for a path ending in [.json] and the YAML text for
    any other path; where it cannot, it prints one error line and writes
    nothing.  No other file is touched either way. *)
Theorem create_template_never_raises (template_path : string) (w : world) :
  fst (GeneratePrsLog.create_template template_path w) = Ok tt /\
  (forall other : string,
      other <> template_path ->
      fs_lookup other (files (snd (GeneratePrsLog.create_template template_path w))) =
      fs_lookup other (files w)) /\
  (writable w template_path = true ->
   fs_lookup template_path
             (files (snd (GeneratePrsLog.create_template template_path w))) =
   Some (if ends_with ".json" template_path
         then json_dump GeneratePrsLog.template_content
         else yaml_dump GeneratePrsLog.template_content)) /\
  (writable w template_path = false ->
   files (snd (GeneratePrsLog.create_template template_path w)) = files w /\
   console (snd (GeneratePrsLog.create_template template_path w)) =
   (console w ++
    [Print ("❌ Error creating template: " ++
            exn_text (OSError template_path))])%list).
Proof.
  rewrite create_template_run. cbv zeta.
  destruct (writable w template_path); world_simpl.
  - split; [reflexivity |]. split; [| split].
    + intros other Hne. now apply fs_lookup_store_other.
    + intros _. apply fs_lookup_store.
    + discriminate.
  - split; [reflexivity |]. split; [| split].
    + reflexivity.
    + discriminate.
    + intros _. now split.
Qed.

(** X5. With [--template] given and not empty, [main] only writes the
    template, whatever [--file] and [--task] say: no task is loaded, the
    assistant is not called, nothing is read from the standard input and
    the run does not fail. *)
Theorem main_template_only (args : GeneratePrsLog.arguments)
        (template_path : string) (w : world) :
  GeneratePrsLog.given (GeneratePrsLog.arg_template args) = Some template_path ->
  GeneratePrsLog.main args w = GeneratePrsLog.create_template template_path w /\
  fst (GeneratePrsLog.main args w) = Ok tt /\
  asked (snd (GeneratePrsLog.main args w)) = asked w /\
  stdin (snd (GeneratePrsLog.main args w)) = stdin w.
Proof.
  intros Hgiven. unfold GeneratePrsLog.main. rewrite Hgiven.
  split; [reflexivity |].
  rewrite create_template_run. cbv zeta.
  destruct (writable w template_path); repeat split.
Qed.

End Template.

Lemma create_template_never_raises_witness :
  fs_lookup "task.json"
    (files (snd (@GeneratePrsLog.create_template plain_runtime "task.json"
                   (sample_world two_logs [] [])))) = Some "{...}" /\
  fs_lookup ".github/prompts/prs_20240101_000000.prompt.md"
    (files (snd (@GeneratePrsLog.create_template plain_runtime "task.json"
                   (sample_world two_logs [] [])))) = Some "first".
Proof.
  destruct (@create_template_never_raises plain_runtime "task.json"
              (sample_world two_logs [] [])) as (_ & Hother & Hwritten & _).
  split.
  - apply Hwritten. reflexivity.
  - rewrite Hother; [reflexivity | discriminate].
Defined.

Lemma main_template_only_witness :
  asked (snd (@GeneratePrsLog.main plain_runtime
                (GeneratePrsLog.mk_arguments (Some "task.yaml") (Some "ship it")
                                             (Some "new.yaml"))
                (sample_world [] [Some "r1"] ["typed"]))) = [] /\
  stdin (snd (@GeneratePrsLog.main plain_runtime
                (GeneratePrsLog.mk_arguments (Some "task.yaml") (Some "ship it")
                                             (Some "new.yaml"))
                (sample_world [] [Some "r1"] ["typed"]))) = ["typed"].
Proof.
  destruct (@main_template_only plain_runtime
              (GeneratePrsLog.mk_arguments (Some "task.yaml") (Some "ship it")
                                           (Some "new.yaml"))
              "new.yaml" (sample_world [] [Some "r1"] ["typed"]) eq_refl)
    as (_ & _ & Hasked & Hstdin).
  split; [exact Hasked | exact Hstdin].
Defined.

(** ** How much a run asks and reads *)

Section Budget.
Context {rt : PyRuntime}.

Lemma asks_of_keeps {X : Type} (n : nat) (m : M X) :
  keeps asked m -> asks_at_most n m.
Proof. intros Hk w. rewrite Hk. lia. Qed.

Lemma asks_bind_keep {X Y : Type} (n : nat) (m : M X) (k : X -> M Y) :
  keeps asked m -> (forall x, asks_at_most n (k x)) ->
  asks_at_most n (bind m k).
Proof.
  intros Hm Hk w. unfold bind. specialize (Hm w).
  destruct (m w) as [[x | e] w1]; simpl in *.
  - specialize (Hk x w1). rewrite Hm in Hk. exact Hk.
  - rewrite Hm. lia.
Qed.

Lemma asks_bind_ask {Y : Type} (n : nat) (prompt : string) (k : string -> M Y) :
  (forall answer, asks_at_most n (k answer)) ->
  asks_at_most (S n) (bind (GeneratePrsLog.ask_copilot prompt) k).
Proof.
  intros Hk w. unfold bind, GeneratePrsLog.ask_copilot.
  destruct (service w (asked w ++ [prompt])) as [answer |].
  - specialize (Hk answer (set_asked (asked w ++ [prompt]) w)).
    cbn [asked set_asked snd] in Hk. rewrite length_app in Hk.
    simpl in Hk. lia.
  - world_simpl. rewrite length_app. simpl. lia.
Qed.

Ltac asks_step :=
  match goal with
  | |- asks_at_most (S _) (bind (GeneratePrsLog.ask_copilot _) _) =>
      apply asks_bind_ask; intros ?
  | |- asks_at_most _ (bind _ _) =>
      apply asks_bind_keep; [keeps_auto | intros ?]
  | |- asks_at_most _ _ => apply asks_of_keeps; keeps_auto
  end.

Lemma asks_run_pipeline (task additional_context constraints : pyval) :
  asks_at_most 4 (GeneratePrsLog.run_pipeline task additional_context constraints).
Proof. unfold GeneratePrsLog.run_pipeline. repeat asks_step. Qed.

(** X6. Whatever the arguments, the files, the input and the answers, one
    run of [main] sends at most four prompts to the assistant. *)
Theorem main_asks_at_most_four (args : GeneratePrsLog.arguments) (w : world) :
  List.length (asked (snd (GeneratePrsLog.main args w))) <=
  List.length (asked w) + 4.
Proof.
  revert w. change (asks_at_most 4 (GeneratePrsLog.main args)).
  unfold GeneratePrsLog.main.
  destruct (GeneratePrsLog.given (GeneratePrsLog.arg_template args)).
  - apply asks_of_keeps. keeps_auto.
  - apply asks_bind_keep; [keeps_auto |].
    intros [[task additional_context] constraints]. apply asks_run_pipeline.
Qed.

(** X7. [main] reads the standard input only when neither [--template] nor
    [--file] nor [--task] is given (or all given are empty), and then it
    takes exactly the first line as the task; in every other run the input
    is left as it was. *)
Theorem main_reads_input_only_without_task (args : GeneratePrsLog.arguments)
        (w : world) :
  (GeneratePrsLog.given (GeneratePrsLog.arg_template args) <> None \/
   GeneratePrsLog.given (GeneratePrsLog.arg_file args) <> None \/
   GeneratePrsLog.given (GeneratePrsLog.arg_task args) <> None ->
   stdin (snd (GeneratePrsLog.main args w)) = stdin w) /\
  (GeneratePrsLog.given (GeneratePrsLog.arg_template args) = None ->
   GeneratePrsLog.given (GeneratePrsLog.arg_file args) = None ->
   GeneratePrsLog.given (GeneratePrsLog.arg_task args) = None ->
   forall (line : string) (rest : list string),
     stdin w = line :: rest ->
     GeneratePrsLog.main args w =
     GeneratePrsLog.run_pipeline (VStr line) (VStr "") (VStr "")
       (set_stdin rest (set_console (console w ++ [Prompt "Task: "]) w)) /\
     stdin (snd (GeneratePrsLog.main args w)) = rest).
Proof.
  split.
  - intros Hgiven. revert w.
    change (keeps stdin (GeneratePrsLog.main args)).
    unfold GeneratePrsLog.main.
    destruct (GeneratePrsLog.given (GeneratePrsLog.arg_template args));
      [keeps_auto |].
    destruct (GeneratePrsLog.given (GeneratePrsLog.arg_file args));
      [keeps_auto |].
    destruct (GeneratePrsLog.given (GeneratePrsLog.arg_task args));
      [keeps_auto |].
    exfalso. destruct Hgiven as [H | [H | H]]; now apply H.
  - intros Ht Hf Hk line rest Hstdin.
    assert (Hrun :
      GeneratePrsLog.main args w =
      GeneratePrsLog.run_pipeline (VStr line) (VStr "") (VStr "")
        (set_stdin rest (set_console (console w ++ [Prompt "Task: "]) w))).
    { unfold GeneratePrsLog.main. rewrite Ht, Hf, Hk.
      unfold bind at 1. unfold bind at 1. unfold input. now rewrite Hstdin. }
    split; [exact Hrun |]. rewrite Hrun.
    assert (Hkeep : keeps stdin
      (GeneratePrsLog.run_pipeline (VStr line) (VStr "") (VStr "")))
      by keeps_auto.
    now rewrite Hkeep.
Qed.

End Budget.

Lemma main_reads_input_only_without_task_witness :
  stdin (snd (@GeneratePrsLog.main plain_runtime
                (GeneratePrsLog.mk_arguments None (Some "ship it") None)
                (sample_world [] [Some "r1"] ["typed"; "more"]))) =
  ["typed"; "more"] /\
  stdin (snd (@GeneratePrsLog.main plain_runtime
                (GeneratePrsLog.mk_arguments None (Some "") None)
                (sample_world [] [Some "r1"] ["typed"; "more"]))) = ["more"].
Proof.
  split.
  - apply (@main_reads_input_only_without_task plain_runtime
             (GeneratePrsLog.mk_arguments None (Some "ship it") None)).
    right. right. discriminate.
  - apply (proj2 (@main_reads_input_only_without_task plain_runtime
                    (GeneratePrsLog.mk_arguments None (Some "") None)
                    (sample_world [] [Some "r1"] ["typed"; "more"]))
                 eq_refl eq_refl eq_refl "typed" ["more"] eq_refl).
Defined.

(** ** More on the context detector *)

Section DetectorEdges.
Context {rt : PyRuntime}.

Ltac detect_run :=
  unfold GeneratePrsLog.detect_project_context, bind, path_exists, read_file.

Lemma read_text_stored (path text : string) (fs : list (string * entry)) :
  read_text path fs = Some text ->
  exists content, fs_lookup path fs = Some content /\
                  open_read path fs = Ok text.
Proof.
  intros H. destruct (read_text_present _ _ _ H) as [content Hraw].
  exists content. split; [exact Hraw | now apply read_text_open].
Qed.

(** X8. A manifest that is there but malformed makes the whole detection
    fail, whatever the other manifests hold: a [package.json] that does not
    parse raises the parser's error, one that parses to something other than
    a mapping, or whose [dependencies] is not a mapping, raises
    [AttributeError]; a [pubspec.yaml] that does not parse does the same
    when there is no [package.json]. *)
Theorem detect_fails_on_malformed_manifest :
  (forall (w : world) (text : string),
      read_text "package.json" (files w) = Some text ->
      json_load text = None ->
      GeneratePrsLog.detect_project_context w = (Raise ParseError, w)) /\
  (forall (w : world) (text : string) (v : pyval),
      read_text "package.json" (files w) = Some text ->
      json_load text = Some v ->
      is_dict v = false ->
      GeneratePrsLog.detect_project_context w = (Raise AttributeError, w)) /\
  (forall (w : world) (text : string) (d : list (pyval * pyval)),
      read_text "package.json" (files w) = Some text ->
      json_load text = Some (VDict d) ->
      is_dict (dict_get d "dependencies" (VDict [])) = false ->
      GeneratePrsLog.detect_project_context w = (Raise AttributeError, w)) /\
  (forall (w : world) (text : string),
      fs_lookup "package.json" (files w) = None ->
      read_text "pubspec.yaml" (files w) = Some text ->
      yaml_safe_load text = None ->
      GeneratePrsLog.detect_project_context w = (Raise ParseError, w)).
Proof.
  split; [| split; [| split]].
  - intros w text Hread Hjson.
    destruct (read_text_stored _ _ _ Hread) as (content & Hraw & Htext).
    detect_run.
    repeat (first [rewrite Hraw | rewrite Htext | rewrite Hjson]; simpl).
    reflexivity.
  - intros w text v Hread Hjson Hshape.
    destruct (read_text_stored _ _ _ Hread) as (content & Hraw & Htext).
    detect_run.
    repeat (first [rewrite Hraw | rewrite Htext | rewrite Hjson]; simpl).
    destruct v; try discriminate Hshape; reflexivity.
  - intros w text d Hread Hjson Hshape.
    destruct (read_text_stored _ _ _ Hread) as (content & Hraw & Htext).
    detect_run.
    repeat (first [rewrite Hraw | rewrite Htext | rewrite Hjson]; simpl).
    destruct (dict_get d "dependencies" (VDict []));
      try discriminate Hshape; reflexivity.
  - intros w text Hnode Hread Hyaml.
    destruct (read_text_stored _ _ _ Hread) as (content & Hraw & Htext).
    detect_run.
    repeat (first [rewrite Hnode | rewrite Hraw | rewrite Htext | rewrite Hyaml];
            simpl).
    reflexivity.
Qed.

Lemma requirement_lines_clean (text r : string) :
  In r (requirement_lines text) ->
  r <> "" /\ head_is_space r = false /\ last_is_space r = false.
Proof.
  unfold requirement_lines. intros Hin.
  apply in_map_iff in Hin. destruct Hin as (line & <- & Hline).
  apply filter_In in Hline. destruct Hline as [_ Hne].
  destruct (strip_clean line) as (Hh & Hl & _).
  split; [| split; assumption].
  apply negb_true_iff, String.eqb_neq in Hne. exact Hne.
Qed.

(** X9. With only a [requirements.txt] in the directory, readable and made
    of ASCII characters, the detector reports a Python project and lists,
    joined by ", ", the lines of the file that are not blank, each without
    the white space around it; so every requirement listed is non-empty and
    has no white space at its ends, and an empty file still reports a Python
    project, with no dependency. *)
Theorem detect_requirements_only (w : world) (text : string) :
  fs_lookup "package.json" (files w) = None ->
  fs_lookup "pubspec.yaml" (files w) = None ->
  read_text "requirements.txt" (files w) = Some text ->
  is_ascii text = true ->
  GeneratePrsLog.detect_project_context w =
  (Ok ("Detected Python project (requirements.txt):" ++ LF ++
       "  dependencies: " ++ join ", " (requirement_lines text)), w) /\
  (forall r : string,
      In r (requirement_lines text) ->
      r <> "" /\ head_is_space r = false /\ last_is_space r = false) /\
  (text = "" -> requirement_lines text = []).
Proof.
  intros Hnode Hflutter Hread _.
  destruct (read_text_stored _ _ _ Hread) as (content & Hraw & Htext).
  split; [| split].
  - detect_run.
    repeat (first [rewrite Hnode | rewrite Hflutter | rewrite Hraw
                  | rewrite Htext];
            cbn beta iota zeta delta [ret lift fst snd]).
    reflexivity.
  - apply requirement_lines_clean.
  - intros ->. reflexivity.
Qed.

(** X10. The detector only reads: whether it returns a summary or raises,
    the files, the console, the input and the history of prompts are what
    they were. *)
Theorem detect_project_context_changes_nothing (w : world) :
  snd (GeneratePrsLog.detect_project_context w) = w.
Proof. apply detect_project_context_read_only. Qed.

End DetectorEdges.

Lemma detect_fails_on_malformed_manifest_witness :
  @GeneratePrsLog.detect_project_context node_runtime
    (sample_world [("requirements.txt", "flask"); ("package.json", "{oops")]
                  [] []) =
  (Raise ParseError,
   sample_world [("requirements.txt", "flask"); ("package.json", "{oops")]
                [] []) /\
  @GeneratePrsLog.detect_project_context
    (table_runtime [("[1]", VList [VInt 1])] [])
    (sample_world [("package.json", "[1]")] [] []) =
  (Raise AttributeError, sample_world [("package.json", "[1]")] [] []).
Proof.
  split.
  - destruct (@detect_fails_on_malformed_manifest node_runtime) as (Hparse & _).
    apply (Hparse _ "{oops"); reflexivity.
  - destruct (@detect_fails_on_malformed_manifest
                (table_runtime [("[1]", VList [VInt 1])] []))
      as (_ & Hshape & _).
    apply (Hshape _ "[1]" (VList [VInt 1])); reflexivity.
Defined.

Lemma detect_requirements_only_witness :
  @GeneratePrsLog.detect_project_context plain_runtime
    (sample_world
       [("requirements.txt",
         "flask" ++ LF ++ "   " ++ LF ++ "  requests==2.0 " ++ LF)] [] []) =
  (Ok ("Detected Python project (requirements.txt):" ++ LF ++
       "  dependencies: flask, requests==2.0"),
   sample_world
     [("requirements.txt",
       "flask" ++ LF ++ "   " ++ LF ++ "  requests==2.0 " ++ LF)] [] []).
Proof.
  exact (proj1 (@detect_requirements_only plain_runtime
                  (sample_world
                     [("requirements.txt",
                       "flask" ++ LF ++ "   " ++ LF ++ "  requests==2.0 " ++ LF)]
                     [] [])
                  ("flask" ++ LF ++ "   " ++ LF ++ "  requests==2.0 " ++ LF)
                  eq_refl eq_refl eq_refl eq_refl)).
Defined.

(** ** More on the log writer *)

Lemma fs_store_names (path content : string) (fs : list (string * entry)) :
  In path (map fst fs) -> map fst (fs_store path content fs) = map fst fs.
Proof.
  induction fs as [| [p c] fs IH]; simpl; [tauto |].
  intros Hin. destruct (String.eqb_spec p path) as [-> | Hne]; [reflexivity |].
  simpl. f_equal. apply IH. destruct Hin as [H | H]; [now elim Hne | exact H].
Qed.

(** X11. Two logs saved within the same second go to the same file: the
    later transcript replaces the earlier one, the directory holds the same
    names as after the first save, and no other file changes. *)
Theorem save_prs_same_second_overwrites
        (task1 reasoning1 evaluation1 adaptation1 result1 : string)
        (task2 reasoning2 evaluation2 adaptation2 result2 : string)
        (w : world) :
  let filename := GeneratePrsLog.log_filename (GeneratePrsLog.strftime (clock w)) in
  let first :=
    snd (GeneratePrsLog.save_prs task1 reasoning1 evaluation1 adaptation1
                                 result1 w) in
  let second :=
    snd (GeneratePrsLog.save_prs task2 reasoning2 evaluation2 adaptation2
                                 result2 first) in
  writable w filename = true ->
  fs_lookup filename (files second) =
  Some (GeneratePrsLog.log_content task2 reasoning2 evaluation2 adaptation2
                                   result2) /\
  map fst (files second) = map fst (files first) /\
  (forall other : string,
      other <> filename ->
      fs_lookup other (files second) = fs_lookup other (files w)).
Proof.
  intros filename first second Hw.
  assert (Hfirst : first =
    set_console (console w ++ [Print ("Saved: " ++ filename)])
      (set_files
         (fs_store filename
            (GeneratePrsLog.log_content task1 reasoning1 evaluation1
                                        adaptation1 result1) (files w)) w)).
  { unfold first. rewrite save_prs_run. fold filename. now rewrite Hw. }
  assert (Hsecond : files second =
    fs_store filename
      (GeneratePrsLog.log_content task2 reasoning2 evaluation2 adaptation2
                                  result2)
      (files first)).
  { unfold second. rewrite save_prs_run. cbv zeta.
    rewrite Hfirst. world_simpl. fold filename. now rewrite Hw. }
  rewrite Hsecond. split; [apply fs_lookup_store |]. split.
  - apply fs_store_names. rewrite Hfirst. world_simpl. apply fs_store_in.
  - intros other Hne. rewrite (fs_lookup_store_other _ _ _ _ Hne).
    rewrite Hfirst. world_simpl. now apply fs_lookup_store_other.
Qed.

Lemma save_prs_same_second_overwrites_witness :
  map fst
    (files (snd (GeneratePrsLog.save_prs "b" "r" "e" "a" "f"
                   (snd (GeneratePrsLog.save_prs "a" "r" "e" "a" "f"
                           (sample_world two_logs [] [])))))) =
  [".github/prompts/prs_20240102_000000.prompt.md";
   ".github/prompts/prs_20240101_000000.prompt.md";
   ".github/prompts/prs_20240102_030405.prompt.md"] /\
  fs_lookup ".github/prompts/prs_20240102_030405.prompt.md"
    (files (snd (GeneratePrsLog.save_prs "b" "r" "e" "a" "f"
                   (snd (GeneratePrsLog.save_prs "a" "r" "e" "a" "f"
                           (sample_world two_logs [] [])))))) =
  Some (GeneratePrsLog.log_content "b" "r" "e" "a" "f").
Proof.
  destruct (save_prs_same_second_overwrites "a" "r" "e" "a" "f"
              "b" "r" "e" "a" "f" (sample_world two_logs [] []) eq_refl)
    as (Hlast & Hnames & _).
  split; [rewrite Hnames; reflexivity | exact Hlast].
Defined.

Lemma lex_eq (first next : comparison) :
  lex first next = Eq -> first = Eq /\ next = Eq.
Proof. destruct first; simpl; intros H; try discriminate; now split. Qed.

(** X12. Runs at two different seconds write to two different files: for
    valid dates and times, equal log names mean equal timestamps. *)
Theorem log_filename_injective (t1 t2 : datetime) :
  valid_datetime t1 -> valid_datetime t2 ->
  GeneratePrsLog.log_filename (GeneratePrsLog.strftime t1) =
  GeneratePrsLog.log_filename (GeneratePrsLog.strftime t2) ->
  t1 = t2.
Proof.
  intros H1 H2 Hname.
  pose proof (log_filename_compare t1 t2 H1 H2) as Hcmp.
  rewrite Hname, compare_refl in Hcmp. symmetry in Hcmp.
  unfold datetime_compare in Hcmp.
  repeat (apply lex_eq in Hcmp;
          let H := fresh "Hfield" in destruct Hcmp as [H Hcmp];
          apply Z.compare_eq in H).
  apply Z.compare_eq in Hcmp.
  destruct t1, t2; simpl in *. congruence.
Qed.

Lemma log_filename_injective_witness :
  mk_datetime 2024 1 2 3 4 5 = mk_datetime 2024 1 2 3 4 5.
Proof.
  apply log_filename_injective.
  - unfold valid_datetime; simpl; lia.
  - unfold valid_datetime; simpl; lia.
  - reflexivity.
Defined.

Section Unwritable.
Context {rt : PyRuntime}.

(** X13. The log is written last: when the four calls are answered but the
    log file cannot be written, the run fails with the error of the write
    after all four prompts were sent, and no file has changed. *)
Theorem run_fails_when_log_unwritable
        (task additional_context constraints : pyval)
        (w : world) (ctx r1 r2 r3 r4 : string) :
  let p1 := GeneratePrsLog.context_prompt ctx task additional_context constraints in
  let p2 := "Evaluate the reasoning: " ++ r1 in
  let p3 := "Refactor the approach based on: " ++ r2 in
  let p4 := py_str task ++ LF ++ LF ++ "Improved strategy:" ++ LF ++ r3 in
  let filename := GeneratePrsLog.log_filename (GeneratePrsLog.strftime (clock w)) in
  let run := GeneratePrsLog.run_pipeline task additional_context constraints w in
  fst (GeneratePrsLog.detect_project_context w) = Ok ctx ->
  service w (asked w ++ [p1]) = Some r1 ->
  service w (asked w ++ [p1; p2]) = Some r2 ->
  service w (asked w ++ [p1; p2; p3]) = Some r3 ->
  service w (asked w ++ [p1; p2; p3; p4]) = Some r4 ->
  writable w filename = false ->
  fst run = Raise (OSError filename) /\
  asked (snd run) = (asked w ++ [p1; p2; p3; p4])%list /\
  files (snd run) = files w.
Proof.
  intros p1 p2 p3 p4 filename run Hctx H1 H2 H3 H4 Hw.
  destruct (run_pipeline_answered task additional_context constraints w
              ctx r1 r2 r3 r4 Hctx H1 H2 H3 H4)
    as (w4 & Hrun & Hasked & Hfiles & Hwritable & Hclock & _).
  unfold run. rewrite Hrun, save_prs_run. cbv zeta.
  rewrite Hclock, Hwritable. fold filename. rewrite Hw.
  now repeat split.
Qed.

End Unwritable.

Lemma run_fails_when_log_unwritable_witness :
  fst (@GeneratePrsLog.run_pipeline plain_runtime
         (VStr "ship it") (VStr "") (VStr "")
         (mk_world [] (fun _ => false) [] [] (mk_datetime 2024 1 2 3 4 5)
                   (scripted [Some "r1"; Some "r2"; Some "r3"; Some "r4"]) [])) =
  Raise (OSError ".github/prompts/prs_20240102_030405.prompt.md").
Proof.
  apply (@run_fails_when_log_unwritable plain_runtime
           (VStr "ship it") (VStr "") (VStr "")
           (mk_world [] (fun _ => false) [] [] (mk_datetime 2024 1 2 3 4 5)
                     (scripted [Some "r1"; Some "r2"; Some "r3"; Some "r4"]) [])
           "No known project structure detected." "r1" "r2" "r3" "r4");
    reflexivity.
Defined.

(** ** More on the log browser *)

Lemma read_only_matching {rt : PyRuntime} (keyword : string)
      (found : list string) :
  read_only (PrsMemoryCli.matching keyword found).
Proof.
  change (keeps (fun w => w) (PrsMemoryCli.matching keyword found)).
  induction found as [| f found IH]; cbn [PrsMemoryCli.matching]; keeps_auto.
Qed.

#[local] Hint Extern 3 (keeps _ (PrsMemoryCli.matching _ _)) =>
  apply read_only_keeps, read_only_matching : keeps.
#[local] Hint Extern 4 (keeps _ PrsMemoryCli.list_logs) =>
  (unfold PrsMemoryCli.list_logs; keeps_auto) : keeps.
#[local] Hint Extern 4 (keeps _ (PrsMemoryCli.view_log _)) =>
  (unfold PrsMemoryCli.view_log; keeps_auto) : keeps.
#[local] Hint Extern 4 (keeps _ (PrsMemoryCli.search_logs _)) =>
  (unfold PrsMemoryCli.search_logs; keeps_auto) : keeps.
#[local] Hint Extern 4 (keeps _ (PrsMemoryCli.int _)) =>
  (unfold PrsMemoryCli.int; keeps_auto) : keeps.

Section BrowserLoop.
Context {rt : PyRuntime}.

Lemma keeps_files_menu_turn : keeps files PrsMemoryCli.menu_turn.
Proof. unfold PrsMemoryCli.menu_turn. keeps_auto. Qed.

Lemma keeps_asked_menu_turn : keeps asked PrsMemoryCli.menu_turn.
Proof. unfold PrsMemoryCli.menu_turn. keeps_auto. Qed.

(** X14. The browser never writes and never calls the assistant: however
    many turns the menu loop takes and however it ends, the files and the
    history of prompts are what they were. *)
Theorem browser_never_writes (fuel : nat) (w w' : world) (r : result unit) :
  PrsMemoryCli.main fuel w = Some (r, w') ->
  files w' = files w /\ asked w' = asked w.
Proof.
  revert w. induction fuel as [| fuel IH]; intros w Hrun; [discriminate |].
  cbn [PrsMemoryCli.main] in Hrun.
  pose proof (keeps_files_menu_turn w) as Hf.
  pose proof (keeps_asked_menu_turn w) as Ha.
  destruct (PrsMemoryCli.menu_turn w) as [[[|] | e] w1]; simpl in Hf, Ha.
  - destruct (IH w1 Hrun) as [Hf' Ha']. split; congruence.
  - inversion Hrun; subst. now split.
  - inversion Hrun; subst. now split.
Qed.

(** X15. The menu loop ends: with more turns allowed than there are lines on
    the standard input it stops, by the exit choice or by an exception (the
    end of the input at the latest); and allowing more turns than it needs
    does not change its outcome. *)
Theorem menu_loop_ends (fuel : nat) (w : world) :
  (List.length (stdin w) < fuel ->
   exists (r : result unit) (w' : world),
     PrsMemoryCli.main fuel w = Some (r, w')) /\
  (forall (more : nat) (outcome : result unit * world),
      PrsMemoryCli.main fuel w = Some outcome ->
      PrsMemoryCli.main (fuel + more) w = Some outcome).
Proof.
  split.
  - revert w. induction fuel as [| fuel IH]; intros w Hfuel; [lia |].
    cbn [PrsMemoryCli.main].
    destruct (PrsMemoryCli.menu_turn w) as [[[|] | e] w1] eqn:Hturn.
    + apply IH. apply menu_turn_takes_a_line in Hturn. lia.
    + now exists (Ok tt), w1.
    + now exists (Raise e), w1.
  - intros more outcome. revert w.
    induction fuel as [| fuel IH]; intros w Hrun; [discriminate |].
    cbn [PrsMemoryCli.main Nat.add] in Hrun |- *.
    destruct (PrsMemoryCli.menu_turn w) as [[[|] | e] w1];
      [now apply IH | exact Hrun | exact Hrun].
Qed.

End BrowserLoop.

Lemma browser_never_writes_witness :
  exists (r : result unit) (w' : world),
    @PrsMemoryCli.main plain_runtime 5
       (sample_world two_logs [] ["1"; "3"; "first"; "4"; "1"]) = Some (r, w') /\
    files w' = regular_files two_logs.
Proof.
  destruct (@PrsMemoryCli.main plain_runtime 5
              (sample_world two_logs [] ["1"; "3"; "first"; "4"; "1"]))
    as [[r w'] |] eqn:Hrun.
  - exists r, w'. split; [reflexivity |].
    exact (proj1 (@browser_never_writes plain_runtime 5 _ w' r Hrun)).
  - vm_compute in Hrun. discriminate Hrun.
Defined.

Lemma menu_loop_ends_witness :
  exists (r : result unit) (w' : world),
    @PrsMemoryCli.main plain_runtime 3 (sample_world two_logs [] ["9"; "1"]) =
    Some (r, w').
Proof.
  apply (proj1 (@menu_loop_ends plain_runtime 3
                  (sample_world two_logs [] ["9"; "1"]))).
  simpl. lia.
Defined.

Section MenuChoices.
Context {rt : PyRuntime}.

(** A turn of the menu up to the choice it read. *)
Lemma menu_turn_choice (w : world) (choice : string) (rest : list string) :
  stdin w = choice :: rest ->
  PrsMemoryCli.menu_turn w =
  (if String.eqb choice "1" then
     PrsMemoryCli.list_logs ;; ret true
   else if String.eqb choice "2" then
     text <- input "Index: " ;;
     n <- PrsMemoryCli.int text ;;
     PrsMemoryCli.view_log (n - 1) ;; ret true
   else if String.eqb choice "3" then
     kw <- input "Keyword: " ;;
     PrsMemoryCli.search_logs kw ;; ret true
   else if String.eqb choice "4" then ret false
   else ret true)
    (set_stdin rest
       (set_console (console w ++ menu ++ [Prompt "Choose: "]) w)).
Proof.
  intros Hstdin. unfold PrsMemoryCli.menu_turn.
  do 5 (unfold bind at 1; unfold print at 1).
  unfold bind at 1. unfold input at 1. world_simpl. rewrite Hstdin.
  repeat rewrite set_console_set_console.
  unfold menu. repeat rewrite <- app_assoc. reflexivity.
Qed.

(** X16. The choice "4" ends the loop at once and leaves the rest of the
    input unread; a choice other than "1", "2", "3" and "4" is ignored: the
    turn prints the menu, reads the choice and changes nothing else. *)
Theorem menu_exit_and_unknown_choice (w : world) (choice : string)
        (rest : list string) :
  stdin w = choice :: rest ->
  (choice = "4" ->
   forall fuel : nat,
     PrsMemoryCli.main (S fuel) w =
     Some (Ok tt,
           set_stdin rest
             (set_console (console w ++ menu ++ [Prompt "Choose: "]) w))) /\
  (choice <> "1" -> choice <> "2" -> choice <> "3" -> choice <> "4" ->
   PrsMemoryCli.menu_turn w =
   (Ok true,
    set_stdin rest
      (set_console (console w ++ menu ++ [Prompt "Choose: "]) w))).
Proof.
  intros Hstdin. split.
  - intros -> fuel. cbn [PrsMemoryCli.main].
    now rewrite (menu_turn_choice w "4" rest Hstdin).
  - intros H1 H2 H3 H4. rewrite (menu_turn_choice w choice rest Hstdin).
    apply String.eqb_neq in H1, H2, H3, H4. now rewrite H1, H2, H3, H4.
Qed.

(** X17. Two inputs end the browser with an exception.  The end of the
    standard input at the menu raises [EOFError]; an index that [int()]
    rejects raises [ValueError] before anything is listed or shown. *)
Theorem menu_fatal_inputs (w : world) (fuel : nat) :
  (stdin w = [] ->
   PrsMemoryCli.main (S fuel) w =
   Some (Raise EOFError,
         set_console (console w ++ menu ++ [Prompt "Choose: "]) w)) /\
  (forall (entry : string) (rest : list string),
      stdin w = "2" :: entry :: rest ->
      py_int entry = None ->
      exists msg : string,
        PrsMemoryCli.main (S fuel) w =
        Some (Raise (ValueError msg),
              set_stdin rest
                (set_console
                   (console w ++ menu ++ [Prompt "Choose: "; Prompt "Index: "])
                   w))).
Proof.
  split.
  - intros Hstdin. cbn [PrsMemoryCli.main]. unfold PrsMemoryCli.menu_turn.
    do 5 (unfold bind at 1; unfold print at 1).
    unfold bind at 1. unfold input at 1. world_simpl. rewrite Hstdin.
    repeat rewrite set_console_set_console.
    unfold menu. repeat rewrite <- app_assoc. reflexivity.
  - intros entry rest Hstdin Hint. eexists.
    cbn [PrsMemoryCli.main].
    rewrite (menu_turn_choice w "2" (entry :: rest) Hstdin).
    cbn [String.eqb Ascii.eqb Bool.eqb].
    unfold bind at 1. unfold input at 1. world_simpl.
    unfold bind at 1. unfold PrsMemoryCli.int. rewrite Hint. unfold raise.
    rewrite set_console_set_stdin, set_stdin_set_stdin.
    rewrite set_console_set_console.
    repeat rewrite <- app_assoc. reflexivity.
Qed.

End MenuChoices.

Lemma menu_exit_and_unknown_choice_witness :
  @PrsMemoryCli.main plain_runtime 1 (sample_world two_logs [] ["4"; "1"]) =
  Some (Ok tt,
        set_stdin ["1"]
          (set_console (menu ++ [Prompt "Choose: "])
                       (sample_world two_logs [] ["4"; "1"]))) /\
  fst (@PrsMemoryCli.menu_turn plain_runtime
         (sample_world two_logs [] ["list"; "1"])) = Ok true.
Proof.
  split.
  - apply (proj1 (@menu_exit_and_unknown_choice plain_runtime
                    (sample_world two_logs [] ["4"; "1"]) "4" ["1"] eq_refl)
                 eq_refl 0).
  - rewrite (proj2 (@menu_exit_and_unknown_choice plain_runtime
                      (sample_world two_logs [] ["list"; "1"]) "list" ["1"]
                      eq_refl));
      [reflexivity | discriminate | discriminate | discriminate | discriminate].
Defined.

Lemma menu_fatal_inputs_witness :
  @PrsMemoryCli.main plain_runtime 1 (sample_world two_logs [] []) =
  Some (Raise EOFError,
        set_console (menu ++ [Prompt "Choose: "]) (sample_world two_logs [] [])) /\
  exists msg : string,
    fst (@PrsMemoryCli.menu_turn plain_runtime
           (sample_world two_logs [] ["2"; "one"])) = Raise (ValueError msg).
Proof.
  destruct (@menu_fatal_inputs plain_runtime (sample_world two_logs [] []) 0)
    as [Heof _].
  destruct (@menu_fatal_inputs plain_runtime
              (sample_world two_logs [] ["2"; "one"]) 0) as [_ Hbad].
  split; [exact (Heof eq_refl) |].
  destruct (Hbad "one" [] eq_refl eq_refl) as [msg Hrun].
  exists msg. cbn [PrsMemoryCli.main] in Hrun.
  destruct (@PrsMemoryCli.menu_turn plain_runtime
              (sample_world two_logs [] ["2"; "one"])) as [[[|] | e] w1];
    [discriminate Hrun | discriminate Hrun | now inversion Hrun].
Defined.

Lemma filter_all {X : Type} (f : X -> bool) (l : list X) :
  (forall x, In x l -> f x = true) -> filter f l = l.
Proof.
  induction l as [| x l IH]; intros H; simpl; [reflexivity |].
  rewrite (H x (or_introl eq_refl)). f_equal. apply IH.
  intros y Hy. apply H. now right.
Qed.

Lemma contains_empty (hay : string) : contains "" hay = true.
Proof. rewrite contains_unfold. reflexivity. Qed.

Section SearchEdges.
Context {rt : PyRuntime}.

(** X18. An empty keyword matches every log: where every log entry can be
    read and the empty text lowered is the empty text, [search_logs] prints
    the path of each log, in the order the file system gives them. *)
Theorem search_logs_empty_keyword (w : world) :
  logs_readable w ->
  py_lower "" = "" ->
  PrsMemoryCli.search_logs "" w =
  (Ok tt, set_console (console w ++ map Print (log_paths w)) w).
Proof.
  intros Hread Hempty.
  rewrite (search_logs_run _ _ Hread). rewrite filter_all; [reflexivity |].
  intros path Hin. unfold mentions.
  destruct (Hread path Hin) as [text ->].
  rewrite Hempty. apply contains_empty.
Qed.

(** The first entry that cannot be read stops the loop of [search_logs]. *)
Lemma matching_first_failure (keyword : string) (found : list string)
      (w : world) :
  (exists path, In path found /\ read_text path (files w) = None) ->
  exists (path : string) (e : exn),
    In path found /\ open_read path (files w) = Raise e /\
    PrsMemoryCli.matching keyword found w = (Raise e, w).
Proof.
  induction found as [| f found IH]; intros (path & Hin & Hnone);
    [destruct Hin |].
  cbn [PrsMemoryCli.matching]. unfold bind at 1, read_file.
  destruct (open_read f (files w)) as [text | e] eqn:Hf.
  - assert (Hnext : exists p, In p found /\ read_text p (files w) = None).
    { destruct Hin as [-> | Hin]; [| now exists path].
      unfold read_text in Hnone. rewrite Hf in Hnone. discriminate Hnone. }
    destruct (IH Hnext) as (p & e & Hp & He & Hrun).
    exists p, e. split; [now right |]. split; [exact He |].
    unfold bind. now rewrite Hrun.
  - exists f, e. split; [now left |]. now split.
Qed.

(** X25. One log entry that cannot be read (a directory with a matching
    name, a file without read permission, bytes that are no text) makes
    [search_logs] fail for every keyword: it raises what reading that entry
    raises, an [OSError] or a [UnicodeDecodeError], and prints nothing, not
    even the logs that match. *)
Theorem search_logs_unreadable_entry (keyword : string) (w : world) :
  (exists path : string,
      In path (log_paths w) /\ read_text path (files w) = None) ->
  exists (path : string) (e : exn),
    In path (log_paths w) /\
    open_read path (files w) = Raise e /\
    (e = OSError path \/ e = UnicodeDecodeError) /\
    PrsMemoryCli.search_logs keyword w = (Raise e, w).
Proof.
  intros Hbad.
  destruct (matching_first_failure keyword (log_paths w) w Hbad)
    as (path & e & Hin & He & Hrun).
  exists path, e. split; [exact Hin |]. split; [exact He |].
  split; [exact (open_read_raises _ _ _ He) |].
  unfold PrsMemoryCli.search_logs, bind at 1, glob. fold (log_paths w).
  unfold bind. now rewrite Hrun.
Qed.

End SearchEdges.

Lemma search_logs_empty_keyword_witness :
  @PrsMemoryCli.search_logs plain_runtime ""
    (sample_world deploy_logs [] []) =
  (Ok tt,
   set_console
     [Print ".github/prompts/prs_20240103_000000.prompt.md";
      Print ".github/prompts/prs_20240101_000000.prompt.md";
      Print ".github/prompts/prs_20240102_000000.prompt.md"]
     (sample_world deploy_logs [] [])).
Proof.
  exact (@search_logs_empty_keyword plain_runtime
           (sample_world deploy_logs [] []) deploy_logs_readable eq_refl).
Defined.

Lemma search_logs_unreadable_entry_witness :
  @PrsMemoryCli.search_logs plain_runtime "deploy"
    (set_files
       [(".github/prompts/prs_20240103_000000.prompt.md",
         regular "We Deploy on Friday");
        (".github/prompts/prs_old.prompt.md", mk_entry "" IsADirectory)]
       (sample_world [] [] [])) =
  (Raise (OSError ".github/prompts/prs_old.prompt.md"),
   set_files
     [(".github/prompts/prs_20240103_000000.prompt.md",
       regular "We Deploy on Friday");
      (".github/prompts/prs_old.prompt.md", mk_entry "" IsADirectory)]
     (sample_world [] [] [])).
Proof.
  destruct (@search_logs_unreadable_entry plain_runtime "deploy"
              (set_files
                 [(".github/prompts/prs_20240103_000000.prompt.md",
                   regular "We Deploy on Friday");
                  (".github/prompts/prs_old.prompt.md",
                   mk_entry "" IsADirectory)]
                 (sample_world [] [] [])))
    as (path & e & Hin & He & _ & Hrun).
  - exists ".github/prompts/prs_old.prompt.md".
    split; [vm_compute; auto | reflexivity].
  - rewrite Hrun. f_equal. f_equal.
    vm_compute in Hin. destruct Hin as [<- | [<- | []]].
    + vm_compute in He. discriminate He.
    + vm_compute in He. now inversion He.
Defined.

(** Two sorted lists with the same elements are the same list. *)
Lemma sorted_unique (a b : list string) :
  StronglySorted name_le a -> StronglySorted name_le b ->
  Permutation a b -> a = b.
Proof.
  revert b. induction a as [| x a IH]; intros b Ha Hb Hperm.
  - apply Permutation_nil in Hperm. now subst.
  - destruct b as [| y b].
    + apply Permutation_sym, Permutation_nil in Hperm. discriminate.
    + inversion Ha as [| x' a' Ha' Hx]; subst.
      inversion Hb as [| y' b' Hb' Hy]; subst.
      assert (Hxy : x = y).
      { assert (Hin_y : In y (x :: a))
          by (apply (Permutation_in y (Permutation_sym Hperm)); now left).
        assert (Hin_x : In x (y :: b))
          by (apply (Permutation_in x Hperm); now left).
        destruct Hin_y as [-> | Hin_y]; [reflexivity |].
        destruct Hin_x as [-> | Hin_x]; [reflexivity |].
        rewrite Forall_forall in Hx, Hy.
        apply String.leb_antisym; [apply Hx | apply Hy]; assumption. }
      subst y. f_equal. apply IH; try assumption.
      now apply Permutation_cons_inv in Hperm.
Qed.

(** X19. What [list_logs] returns does not depend on the order in which the
    file system enumerates the directory: two directories with the same log
    files, in any order, give the same list. *)
Theorem list_logs_ignores_directory_order (w1 w2 : world) :
  Permutation (log_paths w1) (log_paths w2) ->
  fst (PrsMemoryCli.list_logs w1) = fst (PrsMemoryCli.list_logs w2).
Proof.
  intros Hperm. rewrite !list_logs_run. cbn [fst]. f_equal.
  apply sorted_unique; try apply sorted_sorted.
  rewrite (sorted_perm (log_paths w1)), Hperm.
  symmetry. apply sorted_perm.
Qed.

Lemma list_logs_ignores_directory_order_witness :
  fst (PrsMemoryCli.list_logs (sample_world two_logs [] [])) =
  fst (PrsMemoryCli.list_logs (sample_world (rev two_logs) [] [])).
Proof.
  apply list_logs_ignores_directory_order. apply perm_swap.
Defined.

(** ** A template and the loader *)

Lemma ends_with_unfold (suffix s : string) :
  ends_with suffix s =
  String.eqb s suffix ||
  match s with
  | EmptyString => false
  | String _ s' => ends_with suffix s'
  end.
Proof. destruct s; reflexivity. Qed.

Lemma ends_with_last (suffix s : string) :
  suffix <> "" -> ends_with suffix s = true -> last_char s = last_char suffix.
Proof.
  intros Hne. induction s as [| c s IH]; rewrite ends_with_unfold; intros H;
    apply orb_true_iff in H; destruct H as [H | H].
  - apply String.eqb_eq in H. now subst.
  - discriminate.
  - apply String.eqb_eq in H. now subst.
  - specialize (IH H). destruct s as [| d s].
    + rewrite ends_with_unfold in H. rewrite orb_false_r in H.
      apply String.eqb_eq in H. now elim Hne.
    + exact IH.
Qed.

Lemma json_is_not_yaml (path : string) :
  ends_with ".json" path = true ->
  ends_with ".yaml" path = false /\ ends_with ".yml" path = false.
Proof.
  intros Hjson. apply ends_with_last in Hjson; [| discriminate].
  split.
  - destruct (ends_with ".yaml" path) eqn:H; [| reflexivity].
    apply ends_with_last in H; [| discriminate]. rewrite Hjson in H.
    discriminate H.
  - destruct (ends_with ".yml" path) eqn:H; [| reflexivity].
    apply ends_with_last in H; [| discriminate]. rewrite Hjson in H.
    discriminate H.
Qed.

Lemma yaml_is_not_json (path : string) :
  ends_with ".yaml" path = true \/ ends_with ".yml" path = true ->
  ends_with ".json" path = false.
Proof.
  intros Hyaml. destruct (ends_with ".json" path) eqn:H; [| reflexivity].
  apply json_is_not_yaml in H. destruct H as [H1 H2].
  destruct Hyaml; congruence.
Qed.

Lemma find_unique {X : Type} (f : X -> bool) (l : list X) (x : X) :
  In x l -> f x = true ->
  (forall y, In y l -> f y = true -> y = x) ->
  find f l = Some x.
Proof.
  induction l as [| a l IH]; intros Hin Hx Huniq; [destruct Hin |].
  cbn [find]. destruct (f a) eqn:Ha.
  - f_equal. apply Huniq; [now left | exact Ha].
  - apply IH; [| exact Hx | intros y Hy; apply Huniq; now right].
    destruct Hin as [-> | Hin]; [congruence | exact Hin].
Qed.

(** A field of the template is found under its name in every mapping that
    holds the fields of the template, in whatever order. *)
Lemma template_field (loaded : list (pyval * pyval)) (k : string) (v : pyval) :
  Permutation loaded (dict_entries GeneratePrsLog.template_content) ->
  In (VStr k, v) (dict_entries GeneratePrsLog.template_content) ->
  find (fun e => key_is k (fst e)) loaded = Some (VStr k, v).
Proof.
  intros Hperm Hin. apply find_unique.
  - exact (Permutation_in _ (Permutation_sym Hperm) Hin).
  - cbn [fst key_is]. apply String.eqb_refl.
  - intros y Hy Hkey. apply (Permutation_in _ Hperm) in Hy.
    cbn [dict_entries GeneratePrsLog.template_content In] in Hy, Hin.
    repeat (destruct Hy as [<- | Hy]; [
      repeat (destruct Hin as [Hin | Hin];
              [inversion Hin; subst; try reflexivity; discriminate Hkey |]);
      destruct Hin |]).
    destruct Hy.
Qed.

Section TemplateLoad.
Context {rt : PyRuntime}.

Lemma read_text_after_template (template_path : string) (w : world) :
  writable w template_path = true ->
  read_text template_path
            (files (snd (GeneratePrsLog.create_template template_path w))) =
  Some (universal_newlines
          (if ends_with ".json" template_path
           then json_dump GeneratePrsLog.template_content
           else yaml_dump GeneratePrsLog.template_content)).
Proof.
  intros Hw. rewrite create_template_run. cbv zeta. rewrite Hw. world_simpl.
  apply read_text_store.
Qed.

(** X20. A template can be loaded back: where the parser reads from what
    the printer wrote a mapping with the fields of the template, in the
    order of the template or in any other (the YAML printer sorts the keys),
    the file that [create_template] writes to a path ending in [.json],
    [.yaml] or [.yml] is loaded by [load_task_from_file] as that mapping; it
    passes the validation, and its task, context and constraints are the
    placeholders of the template. *)
Theorem template_round_trip (template_path : string) (w : world)
        (loaded : list (pyval * pyval)) :
  let written := snd (GeneratePrsLog.create_template template_path w) in
  writable w template_path = true ->
  Permutation loaded (dict_entries GeneratePrsLog.template_content) ->
  (ends_with ".json" template_path = true ->
   json_load (universal_newlines (json_dump GeneratePrsLog.template_content)) =
   Some (VDict loaded) ->
   GeneratePrsLog.load_task_from_file template_path written =
   (Ok (VDict loaded), written)) /\
  (ends_with ".yaml" template_path = true \/
   ends_with ".yml" template_path = true ->
   yaml_safe_load (universal_newlines (yaml_dump GeneratePrsLog.template_content)) =
   Some (VDict loaded) ->
   GeneratePrsLog.load_task_from_file template_path written =
   (Ok (VDict loaded), written)) /\
  GeneratePrsLog.validate_task_data (VDict loaded) = Ok (VDict loaded) /\
  py_index (VDict loaded) "task" = Ok (VStr "Describe your task here") /\
  py_get (VDict loaded) "context" (VStr "") =
  Ok (VStr "Additional context or background information") /\
  py_get (VDict loaded) "constraints" (VStr "") =
  Ok (VStr "Any specific constraints or requirements").
Proof.
  intros written Hw Hperm.
  pose proof (read_text_after_template template_path w Hw) as Hread.
  fold written in Hread. apply read_text_open in Hread.
  assert (Htask := template_field loaded "task" _ Hperm
                     (or_introl eq_refl)).
  assert (Hcontext := template_field loaded "context" _ Hperm
                        (or_intror (or_introl eq_refl))).
  assert (Hconstraints := template_field loaded "constraints" _ Hperm
                            (or_intror (or_intror (or_introl eq_refl)))).
  split; [| split; [| split; [| split; [| split]]]].
  - intros Hjson Hparse. destruct (json_is_not_yaml _ Hjson) as [Hy1 Hy2].
    rewrite Hjson in Hread.
    unfold GeneratePrsLog.load_task_from_file, try_except, bind, read_file.
    rewrite Hread, Hy1, Hy2, Hjson. cbn [orb]. unfold parsed.
    now rewrite Hparse.
  - intros Hyaml Hparse. rewrite (yaml_is_not_json _ Hyaml) in Hread.
    unfold GeneratePrsLog.load_task_from_file, try_except, bind, read_file.
    rewrite Hread.
    replace (ends_with ".yaml" template_path || ends_with ".yml" template_path)
      with true by (symmetry; apply orb_true_iff; exact Hyaml).
    unfold parsed. now rewrite Hparse.
  - unfold GeneratePrsLog.validate_task_data.
    replace (dict_has loaded "task") with true; [reflexivity |].
    symmetry. unfold dict_has. apply existsb_exists.
    exists (VStr "task", VStr "Describe your task here"). split.
    + apply find_some in Htask. tauto.
    + reflexivity.
  - unfold py_index. now rewrite Htask.
  - unfold py_get, dict_get. now rewrite Hcontext.
  - unfold py_get, dict_get. now rewrite Hconstraints.
Qed.

(** X21. A template written to a path with another ending is not loaded as
    a template: [create_template] writes the YAML text there, and
    [load_task_from_file] takes a file with such a name as plain text, so the
    whole YAML text, without the white space around it, comes back as the
    task. *)
Theorem template_with_other_ending_is_plain_text (template_path : string)
        (w : world) :
  let written := snd (GeneratePrsLog.create_template template_path w) in
  writable w template_path = true ->
  ends_with ".json" template_path = false ->
  ends_with ".yaml" template_path = false ->
  ends_with ".yml" template_path = false ->
  GeneratePrsLog.load_task_from_file template_path written =
  (Ok (VDict [(VStr "task",
               VStr (strip (universal_newlines
                              (yaml_dump GeneratePrsLog.template_content))))]),
   written).
Proof.
  intros written Hw Hjson Hyaml Hyml.
  pose proof (read_text_after_template template_path w Hw) as Hread.
  fold written in Hread. rewrite Hjson in Hread. apply read_text_open in Hread.
  unfold GeneratePrsLog.load_task_from_file, try_except, bind, read_file.
  now rewrite Hread, Hyaml, Hyml, Hjson.
Qed.

End TemplateLoad.

Lemma template_sorted_perm :
  Permutation template_sorted (dict_entries GeneratePrsLog.template_content).
Proof.
  unfold template_sorted. cbn [dict_entries GeneratePrsLog.template_content].
  apply (Permutation_cons_app
           [(VStr "task", VStr "Describe your task here");
            (VStr "context", VStr "Additional context or background information")]
           [(VStr "priority", VStr "high|medium|low");
            (VStr "expected_outcome", VStr "What success looks like")]).
  cbn [List.app].
  apply (Permutation_cons_app
           [(VStr "task", VStr "Describe your task here")]
           [(VStr "priority", VStr "high|medium|low");
            (VStr "expected_outcome", VStr "What success looks like")]).
  cbn [List.app].
  apply (Permutation_cons_app
           [(VStr "task", VStr "Describe your task here");
            (VStr "priority", VStr "high|medium|low")] []).
  cbn [List.app]. apply perm_swap.
Qed.

Lemma template_round_trip_witness :
  @GeneratePrsLog.load_task_from_file
    (table_runtime [("{...}", GeneratePrsLog.template_content)]
                   [("task: ...", VDict template_sorted)])
    "task.yaml"
    (snd (@GeneratePrsLog.create_template
            (table_runtime [("{...}", GeneratePrsLog.template_content)]
                           [("task: ...", VDict template_sorted)])
            "task.yaml" (sample_world [] [] []))) =
  (Ok (VDict template_sorted),
   snd (@GeneratePrsLog.create_template
          (table_runtime [("{...}", GeneratePrsLog.template_content)]
                         [("task: ...", VDict template_sorted)])
          "task.yaml" (sample_world [] [] []))) /\
  @GeneratePrsLog.load_task_from_file
    (table_runtime [("{...}", GeneratePrsLog.template_content)]
                   [("task: ...", VDict template_sorted)])
    "task.json"
    (snd (@GeneratePrsLog.create_template
            (table_runtime [("{...}", GeneratePrsLog.template_content)]
                           [("task: ...", VDict template_sorted)])
            "task.json" (sample_world [] [] []))) =
  (Ok GeneratePrsLog.template_content,
   snd (@GeneratePrsLog.create_template
          (table_runtime [("{...}", GeneratePrsLog.template_content)]
                         [("task: ...", VDict template_sorted)])
          "task.json" (sample_world [] [] []))) /\
  py_index (VDict template_sorted) "task" =
  Ok (VStr "Describe your task here").
Proof.
  split; [| split].
  - apply (proj1 (proj2 (@template_round_trip
             (table_runtime [("{...}", GeneratePrsLog.template_content)]
                            [("task: ...", VDict template_sorted)])
             "task.yaml" (sample_world [] [] []) template_sorted
             eq_refl template_sorted_perm)));
      [left; reflexivity | reflexivity].
  - apply (proj1 (@template_round_trip
             (table_runtime [("{...}", GeneratePrsLog.template_content)]
                            [("task: ...", VDict template_sorted)])
             "task.json" (sample_world [] [] [])
             (dict_entries GeneratePrsLog.template_content)
             eq_refl (Permutation_refl _)));
      reflexivity.
  - apply (proj1 (proj2 (proj2 (proj2 (@template_round_trip plain_runtime
             "task.yaml" (sample_world [] [] []) template_sorted
             eq_refl template_sorted_perm))))).
Defined.

Lemma template_with_other_ending_is_plain_text_witness :
  fst (@GeneratePrsLog.load_task_from_file plain_runtime "task.txt"
         (snd (@GeneratePrsLog.create_template plain_runtime "task.txt"
                 (sample_world [] [] [])))) =
  Ok (VDict [(VStr "task", VStr "task: ...")]).
Proof.
  rewrite (@template_with_other_ending_is_plain_text plain_runtime "task.txt"
             (sample_world [] [] []) eq_refl eq_refl eq_refl eq_refl).
  reflexivity.
Defined.

(** ** Which files the readers see *)

Lemma fnmatch_star_unfold (pat s : string) :
  fnmatch (String "*"%char pat) s =
  fnmatch pat s ||
  match s with
  | EmptyString => false
  | String _ s' => fnmatch (String "*"%char pat) s'
  end.
Proof. destruct s; reflexivity. Qed.

Lemma fnmatch_star_inv (pat s : string) :
  fnmatch (String "*"%char pat) s = true ->
  exists a b : string, s = a ++ b /\ fnmatch pat b = true.
Proof.
  induction s as [| c s IH]; rewrite fnmatch_star_unfold; intros H;
    apply orb_true_iff in H; destruct H as [H | H].
  - now exists "", "".
  - discriminate.
  - now exists "", (String c s).
  - destruct (IH H) as (a & b & -> & Hb). now exists (String c a), b.
Qed.

Lemma fnmatch_literal_cons_inv (c : ascii) (pat s : string) :
  c <> "*"%char -> c <> "?"%char ->
  fnmatch (String c pat) s = true ->
  exists s' : string, s = String c s' /\ fnmatch pat s' = true.
Proof.
  intros Hstar Hany. cbn [fnmatch].
  apply Ascii.eqb_neq in Hstar, Hany. rewrite Hstar.
  destruct s as [| d s]; [discriminate |].
  rewrite Hany. cbn [orb]. intros H. apply andb_true_iff in H.
  destruct H as [Hc Hs]. apply Ascii.eqb_eq in Hc. subst d. now exists s.
Qed.

Lemma fnmatch_plain (pat s : string) :
  is_literal pat = true -> (fnmatch pat s = true <-> s = pat).
Proof.
  revert s. induction pat as [| c pat IH]; intros s Hlit.
  - destruct s; cbn; split; congruence.
  - cbn [is_literal] in Hlit.
    apply andb_true_iff in Hlit. destruct Hlit as [Hc Hlit].
    apply andb_true_iff in Hc. destruct Hc as [Hstar Hany].
    apply negb_true_iff, Ascii.eqb_neq in Hstar, Hany.
    split.
    + intros H.
      destruct (fnmatch_literal_cons_inv c pat s Hstar Hany H) as (s' & -> & Hs).
      f_equal. now apply IH.
    + intros ->. rewrite fnmatch_literal by assumption. now apply IH.
Qed.

(** The names the pattern of the readers matches. *)
Lemma fnmatch_log_name (name : string) :
  fnmatch "prs_*.prompt.md" name = true <->
  exists mid : string, name = "prs_" ++ mid ++ ".prompt.md".
Proof.
  split.
  - intros H.
    apply fnmatch_literal_cons_inv in H; [| discriminate | discriminate].
    destruct H as (s1 & -> & H).
    apply fnmatch_literal_cons_inv in H; [| discriminate | discriminate].
    destruct H as (s2 & -> & H).
    apply fnmatch_literal_cons_inv in H; [| discriminate | discriminate].
    destruct H as (s3 & -> & H).
    apply fnmatch_literal_cons_inv in H; [| discriminate | discriminate].
    destruct H as (s4 & -> & H).
    apply fnmatch_star_inv in H. destruct H as (mid & rest & -> & Hrest).
    apply fnmatch_plain in Hrest; [| reflexivity]. subst rest.
    now exists mid.
  - intros [mid ->].
    change ("prs_" ++ mid ++ ".prompt.md")
      with (String "p" (String "r" (String "s" (String "_"
              (mid ++ ".prompt.md"))))).
    change "prs_*.prompt.md"
      with (String "p" (String "r" (String "s" (String "_"
              (String "*" ".prompt.md"))))).
    rewrite !fnmatch_literal by discriminate.
    now apply fnmatch_star.
Qed.

Lemma log_paths_shape (w : world) (path : string) :
  In path (log_paths w) <->
  In path (map fst (files w)) /\
  exists mid : string,
    path = ".github/prompts/prs_" ++ mid ++ ".prompt.md" /\
    contains "/" mid = false.
Proof.
  unfold log_paths. rewrite filter_In. unfold glob_match.
  split; intros [Hin H]; (split; [exact Hin |]).
  - destruct (strip_prefix (".github/prompts" ++ "/") path) as [name |] eqn:Hp;
      [| discriminate].
    apply strip_prefix_sound in Hp. apply andb_true_iff in H.
    destruct H as [Hslash Hname].
    apply fnmatch_log_name in Hname. destruct Hname as [mid ->].
    exists mid. split; [exact Hp |].
    apply negb_true_iff in Hslash. rewrite !contains_char_app in Hslash.
    apply orb_false_elim in Hslash. destruct Hslash as [_ Hslash].
    now apply orb_false_elim in Hslash.
  - destruct H as (mid & -> & Hslash).
    change (".github/prompts/prs_" ++ mid ++ ".prompt.md")
      with ((".github/prompts" ++ "/") ++ "prs_" ++ mid ++ ".prompt.md").
    rewrite strip_prefix_app. apply andb_true_intro. split.
    + rewrite !contains_char_app, Hslash. reflexivity.
    + apply fnmatch_log_name. now exists mid.
Qed.

Section BrowserEdges.
Context {rt : PyRuntime}.

(** X22. [list_logs] returns exactly the entries, files and directories
    alike, that lie directly in [.github/prompts] and are named [prs_],
    anything without a slash (or nothing), [.prompt.md]; [view_log] shows
    "Invalid index." or reads one of them, and nothing else: a log that was
    renamed or moved to a subdirectory is invisible to them. *)
Theorem list_logs_returns_exactly (w : world) :
  exists paths : list string,
    fst (PrsMemoryCli.list_logs w) = Ok paths /\
    (forall path : string,
        In path paths <->
        In path (map fst (files w)) /\
        exists mid : string,
          path = ".github/prompts/prs_" ++ mid ++ ".prompt.md" /\
          contains "/" mid = false) /\
    (forall index : Z,
        PrsMemoryCli.view_log index w =
        (Ok tt,
         set_console (console w ++ listing paths ++ [Print "Invalid index."])
                     w) \/
        exists path : string,
          In path paths /\
          PrsMemoryCli.view_log index w =
          bind (read_file path) print
               (set_console (console w ++ listing paths) w)).
Proof.
  exists (sorted (log_paths w)). rewrite list_logs_run.
  split; [reflexivity |]. split.
  - intros path. rewrite <- log_paths_shape. split; intros H.
    + exact (Permutation_in _ (sorted_perm _) H).
    + exact (Permutation_in _ (Permutation_sym (sorted_perm _)) H).
  - intros index. rewrite view_log_run. cbv zeta.
    destruct ((0 <=? index) && (index <? Z.of_nat _))%Z eqn:Hrange;
      [| now left].
    destruct (nth_error (sorted (log_paths w)) (Z.to_nat index))
      as [path |] eqn:Hnth.
    + right. exists path. split; [now apply nth_error_In in Hnth |].
      unfold bind, read_file. world_simpl.
      destruct (open_read path (files w)); [| reflexivity].
      unfold print, set_console. world_simpl. now rewrite <- app_assoc.
    + apply nth_error_None in Hnth.
      apply andb_true_iff in Hrange. destruct Hrange as [H0 H1].
      apply Z.leb_le in H0. apply Z.ltb_lt in H1. lia.
Qed.

(** X23. In a directory without logs the browser has nothing to show:
    [list_logs] returns the empty list and prints nothing, [view_log] answers
    "Invalid index." to every index, and [search_logs] prints nothing for
    every keyword. *)
Theorem browser_without_logs (w : world) :
  log_paths w = [] ->
  PrsMemoryCli.list_logs w = (Ok [], w) /\
  (forall index : Z,
      PrsMemoryCli.view_log index w =
      (Ok tt, set_console (console w ++ [Print "Invalid index."]) w)) /\
  (forall keyword : string, PrsMemoryCli.search_logs keyword w = (Ok tt, w)).
Proof.
  intros Hnone. split; [| split].
  - rewrite list_logs_run, Hnone. cbn. now rewrite app_nil_r, set_console_id.
  - intros index. rewrite view_log_run, Hnone. cbn [sorted List.length].
    cbv zeta.
    replace ((0 <=? index) && (index <? Z.of_nat 0))%Z with false;
      [reflexivity |].
    symmetry. apply andb_false_iff.
    destruct (Z.leb_spec 0 index); [right; apply Z.ltb_ge; cbn; lia | now left].
  - intros keyword.
    assert (Hread : logs_readable w)
      by (intros path Hin; rewrite Hnone in Hin; destruct Hin).
    rewrite (search_logs_run _ _ Hread), Hnone. cbn.
    now rewrite app_nil_r, set_console_id.
Qed.

End BrowserEdges.

Lemma browser_without_logs_witness :
  PrsMemoryCli.view_log 0 (sample_world [("notes.md", "prs")] [] []) =
  (Ok tt,
   set_console [Print "Invalid index."]
               (sample_world [("notes.md", "prs")] [] [])).
Proof.
  apply (proj1 (proj2 (@browser_without_logs plain_runtime
                         (sample_world [("notes.md", "prs")] [] []) eq_refl))).
Defined.

(** ** What a successful run prints *)

Section Progress.
Context {rt : PyRuntime}.

(** X24. A run whose four calls are answered and whose log can be written
    ends well and prints, in this order and nothing else: the task being
    processed, one line for each of the four phases, and last the path of
    the log it saved. *)
Theorem run_pipeline_prints_progress
        (task additional_context constraints : pyval)
        (w : world) (ctx r1 r2 r3 r4 : string) :
  let p1 := GeneratePrsLog.context_prompt ctx task additional_context constraints in
  let p2 := "Evaluate the reasoning: " ++ r1 in
  let p3 := "Refactor the approach based on: " ++ r2 in
  let p4 := py_str task ++ LF ++ LF ++ "Improved strategy:" ++ LF ++ r3 in
  let filename := GeneratePrsLog.log_filename (GeneratePrsLog.strftime (clock w)) in
  let run := GeneratePrsLog.run_pipeline task additional_context constraints w in
  fst (GeneratePrsLog.detect_project_context w) = Ok ctx ->
  service w (asked w ++ [p1]) = Some r1 ->
  service w (asked w ++ [p1; p2]) = Some r2 ->
  service w (asked w ++ [p1; p2; p3]) = Some r3 ->
  service w (asked w ++ [p1; p2; p3; p4]) = Some r4 ->
  writable w filename = true ->
  fst run = Ok tt /\
  console (snd run) =
  (console w ++
   [Print (LF ++ "🧠 Processing task: " ++ py_str task);
    Print "📊 Reasoning phase...";
    Print "🔍 Evaluation phase...";
    Print "🔄 Adaptation phase...";
    Print "✅ Final synthesis...";
    Print ("Saved: " ++ filename)])%list.
Proof.
  intros p1 p2 p3 p4 filename run Hctx H1 H2 H3 H4 Hw.
  pose proof (detect_project_context_read_only w) as Hro.
  destruct (GeneratePrsLog.detect_project_context w) as [rc w0] eqn:Hd.
  simpl in Hctx, Hro. subst rc w0.
  assert (Hrun : exists w' : world,
             run = (Ok tt, w') /\
             console w' =
             (console w ++
              [Print (LF ++ "🧠 Processing task: " ++ py_str task);
               Print "📊 Reasoning phase...";
               Print "🔍 Evaluation phase...";
               Print "🔄 Adaptation phase...";
               Print "✅ Final synthesis...";
               Print ("Saved: " ++ filename)])%list).
  { unfold run, GeneratePrsLog.run_pipeline.
    rewrite (bind_ok _ _ _ _ _ Hd). fold p1.
    unfold bind at 1. unfold print at 1.
    unfold bind at 1. unfold print at 1.
    unfold bind at 1. erewrite ask_copilot_ok by (world_simpl; exact H1).
    unfold bind at 1. unfold print at 1.
    unfold bind at 1. fold p2.
    erewrite ask_copilot_ok
      by (world_simpl; rewrite <- app_assoc; exact H2).
    unfold bind at 1. unfold print at 1.
    unfold bind at 1. fold p3.
    erewrite ask_copilot_ok
      by (world_simpl; rewrite <- !app_assoc; exact H3).
    unfold bind at 1. unfold print at 1.
    unfold bind at 1. fold p4.
    erewrite ask_copilot_ok
      by (world_simpl; rewrite <- !app_assoc; exact H4).
    rewrite save_prs_run. cbv zeta. world_simpl. fold filename. rewrite Hw.
    eexists. split; [reflexivity |].
    world_simpl. repeat rewrite <- app_assoc. reflexivity. }
  destruct Hrun as (w' & -> & Hconsole). split; [reflexivity | exact Hconsole].
Qed.

End Progress.

Lemma run_pipeline_prints_progress_witness :
  fst (@GeneratePrsLog.run_pipeline plain_runtime
         (VStr "ship it") (VStr "") (VStr "")
         (sample_world [] [Some "r1"; Some "r2"; Some "r3"; Some "r4"] [])) =
  Ok tt.
Proof.
  apply (@run_pipeline_prints_progress plain_runtime
           (VStr "ship it") (VStr "") (VStr "")
           (sample_world [] [Some "r1"; Some "r2"; Some "r3"; Some "r4"] [])
           "No known project structure detected." "r1" "r2" "r3" "r4");
    reflexivity.
Defined.
